(** * Training callbacks of mindcv/utils/callbacks.py

    A shallow embedding of the two callback classes [StateMonitor] and
    [ValCallback].  Python objects become records, attribute mutation
    becomes explicit state passing, and every call to a service of the
    training framework (printing, checkpoint files, summary records,
    collective communication) is recorded as an [event] of the call, and
    so is every call of a method through [self].
    Python exceptions are values of [exn]; a raising call keeps the
    mutations made before the exception, as in Python. *)

From stdpp Require Import base option list strings gmap functions pretty.
From Stdlib Require Import ZArith QArith Lia.


Local Open Scope Z_scope.

(** ** Numbers held by tensors

    Tensor elements are floating point numbers of the array runtime.  The
    callbacks only compare them, scale them by an integer, add them and
    divide them by an integer; those operations are the interface
    [NumOps].  [NumOrder] collects the laws of [>] the bookkeeping relies
    on (a strict weak order, as on floats that are numbers). *)

Class NumOps (num : Type) := {
  num_zero : num;                      (* an element of [np.zeros], the int [0] *)
  num_of_Z : Z → num;                  (* [Tensor(3)] *)
  num_gt : num → num → bool;           (* [a > b] *)
  num_add : num → num → num;           (* [a + b] *)
  num_mul_Z : num → Z → num;           (* [a * 100] *)
  num_div_Z : num → Z → num;           (* [a /= device_num] *)
  num_mean : list num → num;           (* [np.mean] of the flattened array *)
}.

Class NumOrder (num : Type) `{NumOps num} : Prop := {
  num_gt_irrefl : ∀ x, num_gt x x = false;
  num_gt_trans : ∀ x y z, num_gt x y = true → num_gt y z = true → num_gt x z = true;
  num_gt_cotrans : ∀ x y z, num_gt x z = true → num_gt x y = true ∨ num_gt y z = true;
}.

(** The rationals are one implementation, used to run the model. *)

Definition Q_sum (l : list Q) : Q := foldr Qplus (0%Q) l.

Definition Q_mean (l : list Q) : Q :=
  (Q_sum l / inject_Z (Z.of_nat (length l)))%Q.

#[export] Instance Q_NumOps : NumOps Q := {|
  num_zero := 0%Q;
  num_of_Z := inject_Z;
  num_gt := fun a b => negb (Qle_bool a b);
  num_add := Qplus;
  num_mul_Z := fun a z => (a * inject_Z z)%Q;
  num_div_Z := fun a z => (a / inject_Z z)%Q;
  num_mean := Q_mean;
|}.

(** ** Python primitives used by the callbacks *)

Inductive exn :=
  | ZeroDivisionError
  | KeyError (key : string)
  | IndexError
  | TypeError
  | AttributeError (attr : string)
  | RuntimeError (msg : string).

(** [a % b] on ints: the sign follows the divisor, a zero divisor raises. *)
Definition py_mod (a b : Z) : option Z :=
  if b =? 0 then None else Some (a mod b).

(** [str(n)] for an int. *)
Definition py_str (n : Z) : string := pretty n.

(** [s.startswith(p)]. *)
Definition startswith (p s : string) : bool := String.prefix p s.

(** [s.endswith("/")]. *)
Fixpoint ends_with_sep (s : string) : bool :=
  match s with
  | EmptyString => false
  | String _ EmptyString => bool_decide (s = "/")
  | String _ rest => ends_with_sep rest
  end.

(** [os.path.join(a, b)] on a POSIX system. *)
Definition os_path_join (a b : string) : string :=
  if startswith "/" b then b
  else if bool_decide (a = "") || ends_with_sep a then a +:+ b
  else a +:+ "/" +:+ b.

(** [s.split(sep)] for a non-empty separator: the pieces between the
    non-overlapping occurrences of [sep], scanned from the left.  [skip]
    counts the characters of a matched separator still to be dropped and
    [cur] is the piece being read, reversed. *)
Fixpoint split_from (sep : string) (skip : nat) (cur : string) (s : string)
  : list string :=
  match s with
  | EmptyString => [String.rev cur]
  | String c rest =>
      match skip with
      | S k => split_from sep k cur rest
      | O =>
          if String.prefix sep s
          then String.rev cur :: split_from sep (String.length sep - 1) "" rest
          else split_from sep 0 (String c cur) rest
      end
  end.

Definition split (sep s : string) : list string := split_from sep 0 "" s.

(** [sep in s]. *)
Fixpoint contains (sep s : string) : bool :=
  String.prefix sep s ||
  match s with
  | EmptyString => false
  | String _ rest => contains sep rest
  end.

(** ** Outcomes and the monad of a method call

    A method runs on a state [S], may raise, and emits events of type
    [E].  The state after a raise is the state reached when the exception
    left the method. *)

Inductive outcome (A : Type) :=
  | Ret (a : A)
  | Raise (e : exn).
Arguments Ret {A} a.
Arguments Raise {A} e.

Record run (S E A : Type) := Run {
  result : outcome A;
  final : S;
  emitted : list E;
}.
Arguments Run {S E A}.
Arguments result {S E A}.
Arguments final {S E A}.
Arguments emitted {S E A}.

Definition M (S E A : Type) : Type := S → run S E A.

Definition ret {S E A} (a : A) : M S E A := fun s => Run (Ret a) s [].

Definition raise {S E A} (e : exn) : M S E A := fun s => Run (Raise e) s [].

(** The events [l] happened before the run [r]. *)
Definition prepend {S E A} (l : list E) (r : run S E A) : run S E A :=
  match r with
  | Run o s l' => Run o s (l ++ l')
  end.

Definition bind {S E A B} (m : M S E A) (k : A → M S E B) : M S E B :=
  fun s =>
    match m s with
    | Run (Ret a) s' l => prepend l (k a s')
    | Run (Raise e) s' l => Run (Raise e) s' l
    end.

Definition get {S E} : M S E S := fun s => Run (Ret s) s [].

Definition modify {S E} (f : S → S) : M S E unit := fun s => Run (Ret tt) (f s) [].

Definition emit {S E} (e : E) : M S E unit := fun s => Run (Ret tt) s [e].

(** [if c: body] *)
Definition when {S E} (c : bool) (body : M S E unit) : M S E unit :=
  if c then body else ret tt.

(** A value that must be present, else the exception [e]. *)
Definition expect {S E A} (o : option A) (e : exn) : M S E A :=
  match o with
  | Some a => ret a
  | None => raise e
  end.

(** A computation that touches neither the state nor the outside. *)
Definition lift {S E A} (o : outcome A) : M S E A := fun s => Run o s [].

(** A method keeps [P] when [P] of the state it starts in gives [P] of the
    state it leaves, however it ends. *)
Definition keeps {S E A} (P : S → Prop) (m : M S E A) : Prop :=
  ∀ s, P s → P (final (m s)).

(** A method is quiet for a projection [f] of the events, from states
    with [P], when it emits no event that [f] selects and keeps [P]. *)
Definition quiet {S E A X} (P : S → Prop) (f : E → option X) (m : M S E A) : Prop :=
  ∀ s, P s → omap f (emitted (m s)) = [] ∧ P (final (m s)).

#[export] Instance M_ret {S E} : MRet (M S E) := @ret S E.
#[export] Instance M_bind {S E} : MBind (M S E) := fun A B k m => bind m k.

(** [for x in l: body x] *)
Fixpoint for_each {S E A} (l : list A) (body : A → M S E unit) : M S E unit :=
  match l with
  | [] => mret tt
  | x :: rest => body x;; for_each rest body
  end.

(** [M_ret] and [M_bind] give the notations [x ← m; k] and [m;; k]. *)

(** A method run among events of a larger type [E']. *)
Definition relabel {S E E' A} (f : E → E') (m : M S E A) : M S E' A :=
  fun s =>
    match m s with
    | Run o s' l => Run o s' (f <$> l)
    end.

Definition tab : string := String (Ascii.ascii_of_nat 9) "".
Definition newline : string := String (Ascii.ascii_of_nat 10) "".

(** ** Objects of the training framework *)

Section Callbacks.
Context {num : Type} {ops : NumOps num}.

(** A tensor is its flattened array of elements. *)
Abbreviation tensor := (list num).

(** The data of the [Parameter] objects of the train network, by parameter
    name (names are unique in a network).  Every cell that reaches a
    parameter reaches this one object: the store is shared. *)
Abbreviation store := (string → tensor).

Inductive dataset := Dataset (id : nat).

Record Optimizer := { global_step : Z }.

(** A cell: the names [get_parameters()] yields, in order, those of them
    with [cache_enable], and the cell's optimizer. *)
Record Cell := {
  get_parameters : list string;
  cache_enabled : list string;
  optimizer : Optimizer;
}.

(** A train network and the cell it wraps ([train_network.network]). *)
Record TrainNetwork := {
  outer : Cell;
  network : Cell;
}.

Record Model := { model_train_network : TrainNetwork }.

(** The services of the framework whose results the callbacks use, each
    of which may raise.  [Model.eval] computes the metrics of the network
    with its current parameter data, or raises.  [load_param_into_net]
    writes a dictionary of data into the parameters of a cell: it gives
    the parameter data at the end of the call (with all, a part or none of
    the dictionary written) and the exception the call raises, if any. *)
Class Framework := {
  model_eval : option dataset → store → outcome (gmap string num);
  load_param_into_net : Cell → gmap string tensor → store → store * option exn;
}.
Context {fw : Framework}.

(** An element of a list or tuple of network outputs: "the default
    network returns loss first", so an element is a number or a Tensor. *)
Inductive loss_value :=
  | LInt (z : Z)
  | LFloat (x : num)
  | LTensor (t : tensor).

(** [cb_params.net_outputs]. *)
Inductive net_output :=
  | OutNone
  | OutInt (z : Z)
  | OutFloat (x : num)
  | OutTensor (t : tensor)
  | OutList (l : list loss_value)
  | OutTuple (l : list loss_value)
  | OutOther (type_name : string).

(** [run_context.original_args()]. *)
Record cb_params := {
  cur_epoch_num : Z;
  cur_step_num : Z;
  batch_num : Z;
  epoch_num : Z;
  cb_optimizer : option Optimizer;
  train_network : TrainNetwork;
  net_outputs : net_output;
}.

(** What a hook receives: the callback parameters, and the metric vectors
    the other devices contribute to a collective during the call. *)
Record run_context := {
  original_args : cb_params;
  peer_metrics : list tensor;
}.

(** ** Events *)

Inductive saved := SavedNetwork | SavedOptimizer.

Inductive event :=
  | MakeDirsIfMissing (path : string)
  | FileWrite (path content : string)
  | AppendResultLog (path : string) (epoch : Z) (loss : tensor) (res : tensor)
  | LoggerWarning (msg : string)
  | Print (text : string)
  | PrintValidation (metrics : list (string * num))
  | PrintNewBest (acc : num)
  | PrintTopK (files : list (string * num))
  | PrintSaving (path : string)
  | PrintEpochTime
  | SaveCheckpoint (what : saved) (path : string)
  | ManagerSaveCkpoint (num_ckpt : Z) (metric : num) (save_path : string)
  | SummaryOpen (dir : string)
  | SummaryClose
  | SummaryAddValue (plugin name : string) (value : option tensor)
  | SummaryRecordStep (step : Z)
  | AllReduce (x : tensor)
  | ModelEval (d : option dataset)
  | FlushFromCache (param : string)
  | Called (method_name : string).

(** ** Helpers of this repository that are not part of the file *)

(** Modelled from the spec: [AllReduceSum] of reduce_manager, "the
    distributed metric-reduction path": the element-wise sum, over all
    devices, of the vectors they hold; the result has the shape of the
    local vector. *)
Definition AllReduceSum (x : tensor) (peers : list tensor) : tensor :=
  imap (fun i xi => foldl (fun acc p => from_option (num_add acc) acc (p !! i)) xi peers) x.

(** Modelled from the spec: [CheckpointManager] of checkpoint_manager,
    the "retention policy" and "best/top-k checkpoint retention
    algorithm": the manager holds the retained checkpoint files with their
    metric; [save_ckpoint] writes the new file and keeps at most
    [num_ckpt] files, the best ones by metric under the policy "top_k",
    the latest ones otherwise. *)
Record CheckpointManager := {
  manager_policy : option string;
  _ckpoint_filelist : list (string * num);
}.

(** Modelled from the spec: the place of a new file among the retained
    ones of the "top-k" policy, best metric first. *)
Fixpoint insert_by_metric (f : string * num) (l : list (string * num))
  : list (string * num) :=
  match l with
  | [] => [f]
  | g :: rest =>
      if num_gt f.2 g.2 then f :: l else g :: insert_by_metric f rest
  end.

(** Modelled from the spec: [CheckpointManager.save_ckpoint], the
    "retention policy" that keeps at most [num_ckpt] checkpoint files. *)
Definition save_ckpoint (m : CheckpointManager) (num_ckpt : Z) (metric : num)
    (save_path : string) : CheckpointManager :=
  let k := Z.to_nat num_ckpt in
  let files :=
    if bool_decide (manager_policy m = Some "top_k")
    then take k (insert_by_metric (save_path, metric) (_ckpoint_filelist m))
    else
      let all := _ckpoint_filelist m ++ [(save_path, metric)] in
      drop (length all - k) all in
  {| manager_policy := manager_policy m; _ckpoint_filelist := files |}.

(** ** class StateMonitor *)

(** The arguments of the constructor; [default_args] has the defaults of
    the signature. *)
Record init_args := {
  arg_model : Model;
  arg_summary_dir : string;
  arg_dataset_val : option dataset;
  arg_val_interval : Z;
  arg_val_start_epoch : Z;
  arg_save_best_ckpt : bool;
  arg_ckpt_dir : string;
  arg_ckpt_save_interval : Z;
  arg_best_ckpt_name : string;
  arg_metric_name : list string;
  arg_rank_id : option Z;
  arg_device_num : option Z;
  arg_log_interval : Z;
  arg_model_name : string;
  arg_last_epoch : Z;
  arg_keep_checkpoint_max : Z;
  arg_ckpt_save_policy : option string;
  arg_ema : bool;
  arg_dataset_sink_mode : bool;
}.

Definition default_args (model : Model) : init_args := {|
  arg_model := model;
  arg_summary_dir := "./";
  arg_dataset_val := None;
  arg_val_interval := 1;
  arg_val_start_epoch := 1;
  arg_save_best_ckpt := true;
  arg_ckpt_dir := "./";
  arg_ckpt_save_interval := 1;
  arg_best_ckpt_name := "best.ckpt";
  arg_metric_name := ["accuracy"];
  arg_rank_id := None;
  arg_device_num := None;
  arg_log_interval := 100;
  arg_model_name := "";
  arg_last_epoch := 0;
  arg_keep_checkpoint_max := 10;
  arg_ckpt_save_policy := None;
  arg_ema := false;
  arg_dataset_sink_mode := true;
|}.

(** The attributes of an instance.  An attribute that only some path of
    [__init__] or [__enter__] sets is an [option]: reading it while it is
    unset raises [AttributeError].  The clocks [start] and [epoch_start]
    hold readings of [time()] and are no fields: the hooks show what they
    do with them as events.  [ResetStart] is the write [self.start =
    time()] that follows a printed line of [on_train_step_end], and
    [PrintEpochTime] is lines 243-246 of [on_train_epoch_end], the print
    of the time since [epoch_start] with the write [self.epoch_start =
    time()]. *)
Record StateMonitor := {
  model : Model;
  dataset_val : option dataset;
  val_start_epoch : Z;
  save_best_ckpt : bool;
  metric_name : list string;
  best_res : num;
  val_interval : Z;
  summary_dir : string;
  rank_id : Z;
  device_num : Z;
  log_interval : Z;
  model_name : string;
  ckpt_dir : string;
  ckpt_save_interval : Z;
  last_epoch : Z;
  best_epoch : Z;
  keep_checkpoint_max : Z;
  ckpt_save_policy : option string;
  _manager : CheckpointManager;
  _need_flush_from_cache : bool;
  dataset_sink_mode : bool;
  log_txt_fp : option string;
  best_ckpt_path : option string;
  all_reduce : option unit;
  ema : bool;
  online_params : option (list string);
  swap_params : option (list tensor);
  summary_record : option string;
}.

Definition set_best (r : num) (e : Z) (sm : StateMonitor) : StateMonitor :=
  {| model := model sm; dataset_val := dataset_val sm;
     val_start_epoch := val_start_epoch sm; save_best_ckpt := save_best_ckpt sm;
     metric_name := metric_name sm; best_res := r; val_interval := val_interval sm;
     summary_dir := summary_dir sm; rank_id := rank_id sm; device_num := device_num sm;
     log_interval := log_interval sm; model_name := model_name sm;
     ckpt_dir := ckpt_dir sm; ckpt_save_interval := ckpt_save_interval sm;
     last_epoch := last_epoch sm; best_epoch := e;
     keep_checkpoint_max := keep_checkpoint_max sm;
     ckpt_save_policy := ckpt_save_policy sm; _manager := _manager sm;
     _need_flush_from_cache := _need_flush_from_cache sm;
     dataset_sink_mode := dataset_sink_mode sm; log_txt_fp := log_txt_fp sm;
     best_ckpt_path := best_ckpt_path sm; all_reduce := all_reduce sm;
     ema := ema sm; online_params := online_params sm;
     swap_params := swap_params sm; summary_record := summary_record sm |}.

Definition set_manager (m : CheckpointManager) (sm : StateMonitor) : StateMonitor :=
  {| model := model sm; dataset_val := dataset_val sm;
     val_start_epoch := val_start_epoch sm; save_best_ckpt := save_best_ckpt sm;
     metric_name := metric_name sm; best_res := best_res sm;
     val_interval := val_interval sm;
     summary_dir := summary_dir sm; rank_id := rank_id sm; device_num := device_num sm;
     log_interval := log_interval sm; model_name := model_name sm;
     ckpt_dir := ckpt_dir sm; ckpt_save_interval := ckpt_save_interval sm;
     last_epoch := last_epoch sm; best_epoch := best_epoch sm;
     keep_checkpoint_max := keep_checkpoint_max sm;
     ckpt_save_policy := ckpt_save_policy sm; _manager := m;
     _need_flush_from_cache := _need_flush_from_cache sm;
     dataset_sink_mode := dataset_sink_mode sm; log_txt_fp := log_txt_fp sm;
     best_ckpt_path := best_ckpt_path sm; all_reduce := all_reduce sm;
     ema := ema sm; online_params := online_params sm;
     swap_params := swap_params sm; summary_record := summary_record sm |}.

Definition set_need_flush (b : bool) (sm : StateMonitor) : StateMonitor :=
  {| model := model sm; dataset_val := dataset_val sm;
     val_start_epoch := val_start_epoch sm; save_best_ckpt := save_best_ckpt sm;
     metric_name := metric_name sm; best_res := best_res sm;
     val_interval := val_interval sm;
     summary_dir := summary_dir sm; rank_id := rank_id sm; device_num := device_num sm;
     log_interval := log_interval sm; model_name := model_name sm;
     ckpt_dir := ckpt_dir sm; ckpt_save_interval := ckpt_save_interval sm;
     last_epoch := last_epoch sm; best_epoch := best_epoch sm;
     keep_checkpoint_max := keep_checkpoint_max sm;
     ckpt_save_policy := ckpt_save_policy sm; _manager := _manager sm;
     _need_flush_from_cache := b;
     dataset_sink_mode := dataset_sink_mode sm; log_txt_fp := log_txt_fp sm;
     best_ckpt_path := best_ckpt_path sm; all_reduce := all_reduce sm;
     ema := ema sm; online_params := online_params sm;
     swap_params := swap_params sm; summary_record := summary_record sm |}.

Definition set_swap_params (t : list tensor) (sm : StateMonitor) : StateMonitor :=
  {| model := model sm; dataset_val := dataset_val sm;
     val_start_epoch := val_start_epoch sm; save_best_ckpt := save_best_ckpt sm;
     metric_name := metric_name sm; best_res := best_res sm;
     val_interval := val_interval sm;
     summary_dir := summary_dir sm; rank_id := rank_id sm; device_num := device_num sm;
     log_interval := log_interval sm; model_name := model_name sm;
     ckpt_dir := ckpt_dir sm; ckpt_save_interval := ckpt_save_interval sm;
     last_epoch := last_epoch sm; best_epoch := best_epoch sm;
     keep_checkpoint_max := keep_checkpoint_max sm;
     ckpt_save_policy := ckpt_save_policy sm; _manager := _manager sm;
     _need_flush_from_cache := _need_flush_from_cache sm;
     dataset_sink_mode := dataset_sink_mode sm; log_txt_fp := log_txt_fp sm;
     best_ckpt_path := best_ckpt_path sm; all_reduce := all_reduce sm;
     ema := ema sm; online_params := online_params sm;
     swap_params := Some t; summary_record := summary_record sm |}.

Definition set_summary_record (r : option string) (sm : StateMonitor) : StateMonitor :=
  {| model := model sm; dataset_val := dataset_val sm;
     val_start_epoch := val_start_epoch sm; save_best_ckpt := save_best_ckpt sm;
     metric_name := metric_name sm; best_res := best_res sm;
     val_interval := val_interval sm;
     summary_dir := summary_dir sm; rank_id := rank_id sm; device_num := device_num sm;
     log_interval := log_interval sm; model_name := model_name sm;
     ckpt_dir := ckpt_dir sm; ckpt_save_interval := ckpt_save_interval sm;
     last_epoch := last_epoch sm; best_epoch := best_epoch sm;
     keep_checkpoint_max := keep_checkpoint_max sm;
     ckpt_save_policy := ckpt_save_policy sm; _manager := _manager sm;
     _need_flush_from_cache := _need_flush_from_cache sm;
     dataset_sink_mode := dataset_sink_mode sm; log_txt_fp := log_txt_fp sm;
     best_ckpt_path := best_ckpt_path sm; all_reduce := all_reduce sm;
     ema := ema sm; online_params := online_params sm;
     swap_params := swap_params sm; summary_record := r |}.

(** The state a hook runs on: the callback object and the parameter data
    of the train network. *)
Record world := World {
  self : StateMonitor;
  net : store;
}.

Definition on_self (f : StateMonitor → StateMonitor) (w : world) : world :=
  World (f (self w)) (net w).

Definition on_net (f : store → store) (w : world) : world :=
  World (self w) (f (net w)).

Abbreviation method := (M world event).

(** *** __init__ *)

Definition name_dict : gmap string string :=
  <["Top_1_Accuracy" := "ValAcc@1"]> (<["Top_5_Accuracy" := "ValAcc@5"]> ∅).

(** The header line of result.log. *)
Definition result_log_header (names : list string) : string :=
  "Epoch" +:+ tab +:+ "TrainLoss" +:+ tab
  +:+ foldr (fun n acc => default n (name_dict !! n) +:+ tab +:+ acc) "" names
  +:+ "Time" +:+ newline.

(** The constructor reads the parameter data (to clone the online
    parameters) and changes none of it. *)
Definition __init__ (a : init_args) : M store event StateMonitor :=
  let rank := default 0 (arg_rank_id a) in
  let dev := match arg_rank_id a with Some _ => arg_device_num a | None => Some 1 end in
  paths ← (if bool_decide (rank = 0)
           then
             emit (MakeDirsIfMissing (arg_ckpt_dir a));;
             let fp := os_path_join (arg_ckpt_dir a) "result.log" in
             emit (FileWrite fp (result_log_header (arg_metric_name a)));;
             mret (Some fp, Some (os_path_join (arg_ckpt_dir a) (arg_best_ckpt_name a)))
           else mret (None, None));
  d ← expect dev TypeError;                      (* [self.device_num > 1] *)
  data ← get;
  let online := get_parameters (outer (model_train_network (arg_model a))) in
  mret {|
    model := arg_model a;
    dataset_val := arg_dataset_val a;
    val_start_epoch := arg_val_start_epoch a;
    save_best_ckpt := arg_save_best_ckpt a;
    metric_name := arg_metric_name a;
    best_res := num_zero;
    val_interval := arg_val_interval a;
    summary_dir := arg_summary_dir a;
    rank_id := rank;
    device_num := d;
    log_interval := arg_log_interval a;
    model_name := arg_model_name a;
    ckpt_dir := arg_ckpt_dir a;
    ckpt_save_interval := arg_ckpt_save_interval a;
    last_epoch := arg_last_epoch a;
    best_epoch := -1;
    keep_checkpoint_max := arg_keep_checkpoint_max a;
    ckpt_save_policy := arg_ckpt_save_policy a;
    _manager := {| manager_policy := arg_ckpt_save_policy a; _ckpoint_filelist := [] |};
    _need_flush_from_cache := true;
    dataset_sink_mode := arg_dataset_sink_mode a;
    log_txt_fp := paths.1;
    best_ckpt_path := paths.2;
    all_reduce := if 1 <? d then Some () else None;
    ema := arg_ema a;
    online_params := if arg_ema a then Some online else None;
    swap_params :=
      if arg_ema a
      then Some (map (fun n => map (fun _ => num_zero) (data n)) online)
      else None;
    summary_record := None;
  |}.

Definition __enter__ : method unit :=
  w ← get;
  emit (SummaryOpen (summary_dir (self w)));;
  modify (on_self (set_summary_record (Some (summary_dir (self w))))).

Definition __exit__ : method unit :=
  w ← get;
  _ ← expect (summary_record (self w)) (AttributeError "summary_record");
  emit SummaryClose.

(** *** apply_eval *)

(** [HyperMap(ops.assign, targets, sources)] on the online parameters:
    each named parameter receives the data at its position. *)
Definition assign_params (names : list string) (values : list tensor) (st : store) : store :=
  foldl (fun acc nv => <[nv.1 := nv.2]> acc) st (zip names values).

(** The loop that collects [ema_dict]:
    [if param.name.startswith("ema"):
        ema_dict[param.name.split("ema.")[1]] = param.data] *)
Fixpoint collect_ema (names : list string) (st : store) (d : gmap string tensor)
  : outcome (gmap string tensor) :=
  match names with
  | [] => Ret d
  | name :: rest =>
      if startswith "ema" name
      then
        match split "ema." name !! 1%nat with
        | Some new_name => collect_ema rest st (<[new_name := st name]> d)
        | None => Raise IndexError
        end
      else collect_ema rest st d
  end.

Definition apply_eval (ctx : run_context) : method (gmap string num) :=
  emit (Called "apply_eval");;
  w ← get;
  if ema (self w)
  then
    let cb := original_args ctx in
    swap ← expect (swap_params (self w)) (AttributeError "swap_params");
    online ← expect (online_params (self w)) (AttributeError "online_params");
    modify (on_self (set_swap_params (zip_with (fun _ n => net w n) swap online)));;
    let net_cell :=
      if dataset_sink_mode (self w)
      then network (train_network cb)
      else outer (train_network cb) in
    ema_dict ← lift (collect_ema (get_parameters net_cell) (net w) ∅);
    let loaded :=
      load_param_into_net (network (model_train_network (model (self w)))) ema_dict (net w) in
    modify (on_net (fun _ => loaded.1));;
    match loaded.2 with
    | Some e => raise e
    | None => mret ()
    end;;
    w1 ← get;
    emit (ModelEval (dataset_val (self w1)));;
    res ← lift (model_eval (dataset_val (self w1)) (net w1));
    swap1 ← expect (swap_params (self w1)) (AttributeError "swap_params");
    modify (on_net (assign_params online swap1));;
    mret res
  else
    emit (ModelEval (dataset_val (self w)));;
    lift (model_eval (dataset_val (self w)) (net w)).

(** *** _get_loss *)

(** [Tensor(loss)], and a Tensor as it is. *)
Definition Tensor_of (l : loss_value) : tensor :=
  match l with
  | LInt z => [num_of_Z z]
  | LFloat x => [x]
  | LTensor t => t
  end.

(** [isinstance(output, (int, float, Tensor))] *)
Definition as_number_or_tensor (o : net_output) : option loss_value :=
  match o with
  | OutInt z => Some (LInt z)
  | OutFloat x => Some (LFloat x)
  | OutTensor t => Some (LTensor t)
  | _ => None
  end.

(** [isinstance(output, (list, tuple))] *)
Definition as_list_or_tuple (o : net_output) : option (list loss_value) :=
  match o with
  | OutList l | OutTuple l => Some l
  | _ => None
  end.

Definition warn_no_output : string :=
  "Can not find any output by this network, so SummaryCollector will not collect loss.".

Definition warn_unknown_type : string :=
  "The output type could not be identified, expect type is one of [int, float, Tensor, list, tuple], so no loss was recorded in SummaryCollector.".

Definition _get_loss (cb : cb_params) : method (option tensor) :=
  emit (Called "_get_loss");;
  let output := net_outputs cb in
  match output with
  | OutNone => emit (LoggerWarning warn_no_output);; mret None
  | _ =>
      let found :=
        match as_number_or_tensor output with
        | Some loss => Some loss
        | None =>
            match as_list_or_tuple output with
            | Some (loss :: _) => Some loss       (* [output[0]] of a non-empty one *)
            | _ => None
            end
        end in
      match found with
      | Some loss => mret (Some [num_mean (Tensor_of loss)])
      | None => emit (LoggerWarning warn_unknown_type);; mret None
      end
  end.

(** *** _flush_from_cache *)

Definition _flush_from_cache (cb : cb_params) : method unit :=
  emit (Called "_flush_from_cache");;
  let cached := cache_enabled (outer (train_network cb)) in
  for_each cached (fun p => emit (FlushFromCache p));;
  when (bool_decide (cached = [])) (modify (on_self (set_need_flush false))).

(** *** on_train_epoch_end *)

Definition select_optimizer (sm : StateMonitor) (cb : cb_params) : Optimizer :=
  match cb_optimizer cb with
  | Some o => o
  | None =>
      if dataset_sink_mode sm
      then optimizer (network (train_network cb))
      else optimizer (outer (train_network cb))
  end.

(** [cur_epoch >= self.val_start_epoch and
     (cur_epoch - self.val_start_epoch) % self.val_interval == 0] *)
Definition validation_due (sm : StateMonitor) (cur_epoch : Z) : method bool :=
  if val_start_epoch sm <=? cur_epoch
  then
    r ← expect (py_mod (cur_epoch - val_start_epoch sm) (val_interval sm)) ZeroDivisionError;
    mret (r =? 0)
  else mret false.

(** [for i in range(len(self.metric_name)):
       res[i] = mind_res[self.metric_name[i]] * 100] *)
Fixpoint fill_res (mind_res : gmap string num) (names : list string) (i : nat)
    (res : tensor) : outcome tensor :=
  match names with
  | [] => Ret res
  | name :: rest =>
      match mind_res !! name with
      | Some v => fill_res mind_res rest (S i) (<[i := num_mul_Z v 100]> res)
      | None => Raise (KeyError name)
      end
  end.

(** [if self.device_num > 1: res = self.all_reduce(res); res /= self.device_num] *)
Definition reduce_metrics (ctx : run_context) (res : tensor) : method tensor :=
  w ← get;
  if 1 <? device_num (self w)
  then
    _ ← expect (all_reduce (self w)) (AttributeError "all_reduce");
    emit (AllReduce res);;
    mret (map (fun x => num_div_Z x (device_num (self w)))
              (AllReduceSum res (peer_metrics ctx)))
  else mret res.

(** [for i in range(len(res)):
       self.summary_record.add_value("scalar", "val_" + self.metric_name[i], res[i])] *)
Definition record_metrics (sm : StateMonitor) (res : tensor) : method unit :=
  for_each (zip (metric_name sm) res) (fun nx =>
    _ ← expect (summary_record sm) (AttributeError "summary_record");
    emit (SummaryAddValue "scalar" ("val_" +:+ nx.1) (Some [nx.2]))).

(** Lines 198-215: report the validation result and keep the best one. *)
Definition track_best (cb : cb_params) (cur_epoch : Z) (res : tensor) : method unit :=
  w ← get;
  let sm := self w in
  when (bool_decide (rank_id sm = 0)) (
    emit (PrintValidation (zip (metric_name sm) res));;
    r0 ← expect (res !! 0%nat) IndexError;
    when (num_gt r0 (best_res sm)) (
      modify (on_self (set_best r0 cur_epoch));;
      when (save_best_ckpt sm && bool_decide (rank_id sm = 0)) (
        path ← expect (best_ckpt_path sm) (AttributeError "best_ckpt_path");
        emit (SaveCheckpoint SavedNetwork path);;
        emit (PrintNewBest r0)));;
    record_metrics sm res).

(** Lines 186-215: the metric vector [res] of the epoch. *)
Definition validate (ctx : run_context) (cur_epoch : Z) : method tensor :=
  w ← get;
  let sm := self w in
  let zeros := map (fun _ => num_zero) (metric_name sm) in
  match dataset_val sm with
  | Some _ =>
      due ← validation_due sm cur_epoch;
      if due : bool
      then
        mind_res ← apply_eval ctx;
        res ← lift (fill_res mind_res (metric_name sm) 0 zeros);
        res ← reduce_metrics ctx res;
        track_best (original_args ctx) cur_epoch res;;
        mret res
      else mret zeros
  | None => mret zeros
  end.

(** Lines 186-196, the part of [validate] before the report: the metric
    vector the validation computes (the metrics of the evaluation times
    100, reduced over the devices), or None when no validation is due. *)
Definition measure (ctx : run_context) (cur_epoch : Z) : method (option tensor) :=
  w ← get;
  let sm := self w in
  let zeros := map (fun _ => num_zero) (metric_name sm) in
  match dataset_val sm with
  | Some _ =>
      due ← validation_due sm cur_epoch;
      if due : bool
      then
        mind_res ← apply_eval ctx;
        res ← lift (fill_res mind_res (metric_name sm) 0 zeros);
        res ← reduce_metrics ctx res;
        mret (Some res)
      else mret None
  | None => mret None
  end.

Definition rule : string := String.concat "" (replicate 80 "-").

(** Lines 218-252: checkpoints and the result log, on rank 0. *)
Definition save_and_log (cb : cb_params) (opt : Optimizer) (cur_epoch cur_step_in_epoch : Z)
    (loss : option tensor) (res : tensor) : method unit :=
  w ← get;
  let sm := self w in
  when (bool_decide (rank_id sm = 0)) (
    r ← expect (py_mod cur_epoch (ckpt_save_interval sm)) ZeroDivisionError;
    when ((r =? 0) || (cur_epoch =? epoch_num cb)) (
      when (_need_flush_from_cache sm) (_flush_from_cache cb);;
      let optim_save_path :=
        os_path_join (ckpt_dir sm) ("optim_" +:+ model_name sm +:+ ".ckpt") in
      emit (SaveCheckpoint SavedOptimizer optim_save_path);;
      let cur_ckpoint_file :=
        model_name sm +:+ "-" +:+ py_str cur_epoch +:+ "_"
        +:+ py_str cur_step_in_epoch +:+ ".ckpt" in
      let ckpt_save_path := os_path_join (ckpt_dir sm) cur_ckpoint_file in
      metric ← expect (res !! 0%nat) IndexError;
      emit (ManagerSaveCkpoint (keep_checkpoint_max sm) metric ckpt_save_path);;
      let manager :=
        save_ckpoint (_manager sm) (keep_checkpoint_max sm) metric ckpt_save_path in
      modify (on_self (set_manager manager));;
      if bool_decide (ckpt_save_policy sm = Some "top_k")
      then emit (PrintTopK (_ckpoint_filelist manager))
      else emit (PrintSaving ckpt_save_path));;
    emit PrintEpochTime;;
    emit (Print rule);;
    l ← expect loss (AttributeError "asnumpy");
    fp ← expect (log_txt_fp sm) (AttributeError "log_txt_fp");
    emit (AppendResultLog fp cur_epoch l res)).

Definition on_train_epoch_end (ctx : run_context) : method unit :=
  let cb := original_args ctx in
  w ← get;
  let sm := self w in
  let opt := select_optimizer sm cb in
  let cur_epoch := cur_epoch_num cb + last_epoch sm in
  let cur_step_in_epoch := batch_num cb in
  loss ← _get_loss cb;
  _ ← expect (summary_record sm) (AttributeError "summary_record");
  emit (SummaryAddValue "scalar" ("train_loss_" +:+ py_str (rank_id sm)) loss);;
  res ← validate ctx cur_epoch;
  save_and_log cb opt cur_epoch cur_step_in_epoch loss res;;
  _ ← expect (summary_record sm) (AttributeError "summary_record");
  emit (SummaryRecordStep (global_step opt)).

(** *** on_train_step_end and on_train_end *)

(** The attribute [learning_rate] of an optimizer: a schedule, called with
    a step, when [dynamic_lr] holds, and a parameter otherwise. *)
Inductive learning_rate :=
  | Schedule (at_step : Z → tensor)
  | Fixed (value : num).

(** The optimizers of the framework carry their learning rate. *)
Class Optimizers := {
  learning_rate_of : Optimizer → learning_rate;
}.
Context {opts : Optimizers}.

(** The events of the two hooks that only report: the events of the
    methods they share with the other hooks, their own lines, and the
    write [self.start = time()] of line 162. *)
Inductive report :=
  | Shared (e : event)
  | PrintStep (epoch batch num_batches : Z) (loss : tensor) (lr : num)
  | ResetStart
  | PrintBest (name : string) (best : num) (epoch : Z).

(** Lines 150-154:
    [step = optimizer.global_step
     if optimizer.dynamic_lr: cur_lr = optimizer.learning_rate(step - 1)[0].asnumpy()
     else: cur_lr = optimizer.learning_rate.asnumpy()] *)
Definition current_lr (optimizer : Optimizer) : outcome num :=
  let step := global_step optimizer in
  match learning_rate_of optimizer with
  | Schedule at_step =>
      match at_step (step - 1) !! 0%nat with
      | Some lr => Ret lr
      | None => Raise IndexError
      end
  | Fixed lr => Ret lr
  end.

Definition on_train_step_end (ctx : run_context) : M world report unit :=
  let cb := original_args ctx in
  w ← get;
  let sm := self w in
  let num_batches := batch_num cb in
  let cur_epoch := cur_epoch_num cb + last_epoch sm - 1 in
  cur_step_in_epoch ← expect (py_mod (cur_step_num cb - 1) (batch_num cb)) ZeroDivisionError;
  let optimizer := select_optimizer sm cb in
  r ← expect (py_mod (cur_step_in_epoch + 1) (log_interval sm)) ZeroDivisionError;
  when ((r =? 0) || (num_batches <=? cur_step_in_epoch + 1) || (cur_step_in_epoch =? 0)) (
    cur_lr ← lift (current_lr optimizer);
    loss ← relabel Shared (_get_loss cb);
    l ← expect loss (AttributeError "asnumpy");
    emit (PrintStep (cur_epoch + 1) (cur_step_in_epoch + 1) num_batches l cur_lr);;
    emit ResetStart).

Definition double_rule : string := String.concat "" (replicate 80 "=").

Definition on_train_end (ctx : run_context) : M world report unit :=
  w ← get;
  let sm := self w in
  when (match dataset_val sm with
        | Some _ => bool_decide (rank_id sm = 0)
        | None => false
        end) (
    emit (Shared (Print "Finish training!"));;
    name ← expect (metric_name sm !! 0%nat) IndexError;
    emit (PrintBest name (best_res sm) (best_epoch sm)));;
  emit (Shared (Print double_rule)).

(** *** remove_oldest_ckpoint_file *)

(** The names [self.<name>] resolves: the attributes the methods of the
    class assign (those of a conditional path only once set), the methods
    of the class, and the hooks of the framework's base class [Callback]. *)
Definition instance_attributes (sm : StateMonitor) : list string :=
  ["model"; "dataset_val"; "val_start_epoch"; "save_best_ckpt"; "metric_name";
   "best_res"; "val_interval"; "summary_dir"; "rank_id"; "device_num";
   "log_interval"; "model_name"; "ckpt_dir"; "ckpt_save_interval"; "last_epoch";
   "best_epoch"; "keep_checkpoint_max"; "ckpt_save_policy"; "_manager";
   "_need_flush_from_cache"; "dataset_sink_mode"; "start"; "epoch_start"; "map";
   "ema"]
  ++ (if log_txt_fp sm is Some _ then ["log_txt_fp"] else [])
  ++ (if best_ckpt_path sm is Some _ then ["best_ckpt_path"] else [])
  ++ (if all_reduce sm is Some _ then ["all_reduce"] else [])
  ++ (if online_params sm is Some _ then ["online_params"] else [])
  ++ (if swap_params sm is Some _ then ["swap_params"] else [])
  ++ (if summary_record sm is Some _ then ["summary_record"] else []).

Definition class_attributes : list string :=
  ["__init__"; "__enter__"; "__exit__"; "apply_eval"; "on_train_step_end";
   "on_train_epoch_end"; "on_train_end"; "_get_loss"; "_flush_from_cache";
   "remove_oldest_ckpoint_file"].

Definition Callback_attributes : list string :=
  ["begin"; "epoch_begin"; "epoch_end"; "step_begin"; "step_end"; "end";
   "on_train_begin"; "on_train_epoch_begin"; "on_train_step_begin";
   "on_eval_begin"; "on_eval_epoch_begin"; "on_eval_epoch_end";
   "on_eval_step_begin"; "on_eval_step_end"; "on_eval_end"].

Definition hasattr (sm : StateMonitor) (name : string) : bool :=
  bool_decide (name ∈ instance_attributes sm ++ class_attributes ++ Callback_attributes).

(** [self._ckpoint_filelist] is read first, then [self.remove_ckpoint_file]
    is looked up, then its argument is evaluated.  Past both lookups the
    call would enter a method that no class defines. *)
Definition remove_oldest_ckpoint_file : method unit :=
  w ← get;
  when (negb (hasattr (self w) "_ckpoint_filelist"))
       (raise (AttributeError "_ckpoint_filelist"));;
  when (negb (hasattr (self w) "remove_ckpoint_file"))
       (raise (AttributeError "remove_ckpoint_file"));;
  mret ().

(** ** class ValCallback *)

Record ValCallback := { log_step_interval : Z }.

Definition ValCallback__init__ (log_step_interval : Z) : ValCallback :=
  {| log_step_interval := log_step_interval |}.


(** ** The life of a callback *)

(** The callbacks that exist: constructed by [__init__] from the
    arguments [a], then driven by the training engine, which changes the
    parameter data as it likes between two hooks. *)
Inductive reachable (a : init_args) : StateMonitor → Prop :=
  | reach_init data sm :
      result (__init__ a data) = Ret sm → reachable a sm
  | reach_enter sm st :
      reachable a sm → reachable a (self (final (__enter__ (World sm st))))
  | reach_apply_eval sm st ctx :
      reachable a sm → reachable a (self (final (apply_eval ctx (World sm st))))
  | reach_epoch_end sm st ctx :
      reachable a sm → reachable a (self (final (on_train_epoch_end ctx (World sm st)))).

(** What every reachable callback satisfies: the configuration is that
    of the constructor arguments, and the attributes of the conditional
    paths are set exactly on those paths. *)
Record wf (a : init_args) (sm : StateMonitor) : Prop := {
  wf_model : model sm = arg_model a;
  wf_dataset_val : dataset_val sm = arg_dataset_val a;
  wf_val_start_epoch : val_start_epoch sm = arg_val_start_epoch a;
  wf_val_interval : val_interval sm = arg_val_interval a;
  wf_save_best_ckpt : save_best_ckpt sm = arg_save_best_ckpt a;
  wf_metric_name : metric_name sm = arg_metric_name a;
  wf_rank_id : rank_id sm = default 0 (arg_rank_id a);
  wf_device_num :
    match arg_rank_id a with
    | Some _ => arg_device_num a = Some (device_num sm)
    | None => device_num sm = 1
    end;
  wf_model_name : model_name sm = arg_model_name a;
  wf_ckpt_dir : ckpt_dir sm = arg_ckpt_dir a;
  wf_ckpt_save_interval : ckpt_save_interval sm = arg_ckpt_save_interval a;
  wf_last_epoch : last_epoch sm = arg_last_epoch a;
  wf_keep_checkpoint_max : keep_checkpoint_max sm = arg_keep_checkpoint_max a;
  wf_ckpt_save_policy : ckpt_save_policy sm = arg_ckpt_save_policy a;
  wf_manager_policy : manager_policy (_manager sm) = arg_ckpt_save_policy a;
  wf_retained :
    (length (_ckpoint_filelist (_manager sm)) ≤ Z.to_nat (arg_keep_checkpoint_max a))%nat;
  wf_dataset_sink_mode : dataset_sink_mode sm = arg_dataset_sink_mode a;
  wf_ema : ema sm = arg_ema a;
  wf_log_txt_fp :
    log_txt_fp sm =
    if bool_decide (rank_id sm = 0)
    then Some (os_path_join (arg_ckpt_dir a) "result.log") else None;
  wf_best_ckpt_path :
    best_ckpt_path sm =
    if bool_decide (rank_id sm = 0)
    then Some (os_path_join (arg_ckpt_dir a) (arg_best_ckpt_name a)) else None;
  wf_all_reduce : all_reduce sm = if 1 <? device_num sm then Some () else None;
  wf_online_params :
    online_params sm =
    if ema sm then Some (get_parameters (outer (model_train_network (arg_model a))))
    else None;
  wf_swap_params :
    if ema sm
    then ∃ sw, swap_params sm = Some sw
               ∧ length sw = length (get_parameters (outer (model_train_network (arg_model a))))
    else swap_params sm = None;
}.

(** ** Projections of the events *)

(** The vector handed to the collective, if the event is one. *)
Definition all_reduce_input (e : event) : option tensor :=
  match e with
  | AllReduce x => Some x
  | _ => None
  end.

(** The events that persist the optimizer state or a numbered checkpoint. *)
Definition checkpoint_event (e : event) : option event :=
  match e with
  | SaveCheckpoint SavedOptimizer _ | ManagerSaveCkpoint _ _ _ => Some e
  | _ => None
  end.

(** The metric vector written to result.log, if the event is that write. *)
Definition result_log_vector (e : event) : option tensor :=
  match e with
  | AppendResultLog _ _ _ res => Some res
  | _ => None
  end.

(** The path of a write of the best checkpoint, if the event is one. *)
Definition best_save_path (e : event) : option string :=
  match e with
  | SaveCheckpoint SavedNetwork p => Some p
  | _ => None
  end.

(** The events of the report of a validation (lines 198-210), and the
    projections that select only among them. *)
Definition is_tracking (e : event) : bool :=
  match e with
  | PrintValidation _ | PrintNewBest _ | SaveCheckpoint SavedNetwork _ => true
  | _ => false
  end.

Definition tracking {X} (f : event → option X) : Prop :=
  ∀ e, is_tracking e = false → f e = None.

(** The attributes the report of a validation reads or writes. *)
Definition tracking_view (sm : StateMonitor) :=
  (best_res sm, best_epoch sm, rank_id sm, save_best_ckpt sm, best_ckpt_path sm,
   metric_name sm, summary_record sm, device_num sm, all_reduce sm).

(** The events of [_flush_from_cache]: the mark of its call and the
    flushes. *)
Definition cache_flush_event (e : event) : option event :=
  match e with
  | Called name => if bool_decide (name = "_flush_from_cache") then Some e else None
  | FlushFromCache _ => Some e
  | _ => None
  end.

(** The run of lines 243-252 from the state [w2], after the events [pre]:
    the time of the epoch, the rule, and the line of result.log. *)
Definition log_tail (fp : option string) (e : Z) (loss : option tensor) (res : tensor)
    (pre : list event) (w2 : world) : run world event () :=
  match loss, fp with
  | None, _ => Run (Raise (AttributeError "asnumpy")) w2 (pre ++ [PrintEpochTime; Print rule])
  | Some l, None =>
      Run (Raise (AttributeError "log_txt_fp")) w2 (pre ++ [PrintEpochTime; Print rule])
  | Some l, Some fp =>
      Run (Ret ()) w2 (pre ++ [PrintEpochTime; Print rule; AppendResultLog fp e l res])
  end.

(** The events of an epoch end that every rank shows: the marks of the
    calls, the warnings of the logger, the training loss under the name
    of the rank [rk] and the step of the summary, the evaluation and the
    collective.  [rank_zero_event] selects the other events. *)
Definition rank_zero_event (rk : Z) (e : event) : option event :=
  match e with
  | Called _ | LoggerWarning _ | SummaryRecordStep _ | ModelEval _ | AllReduce _ => None
  | SummaryAddValue plugin name _ =>
      if bool_decide (plugin = "scalar" ∧ name = "train_loss_" +:+ py_str rk)
      then None else Some e
  | _ => Some e
  end.

(** [cur_epoch] of an epoch end. *)
Definition cur_epoch_of (sm : StateMonitor) (ctx : run_context) : Z :=
  cur_epoch_num (original_args ctx) + last_epoch sm.

(** The validation metric [res[0]] a call has reported: the first value
    of its "Validation ..." line. *)
Definition printed_metric (e : event) : option num :=
  match e with
  | PrintValidation ((_, x) :: _) => Some x
  | _ => None
  end.

Definition observed (log : list event) : option num := head (omap printed_metric log).

(** A sequence of epoch ends: each call comes with the parameter data
    training has reached.  [epochs] returns the callback after the calls
    and the validation metrics reported, each with its epoch. *)
Record epoch_call := {
  call_ctx : run_context;
  call_net : store;
}.

Fixpoint epochs (calls : list epoch_call) (sm : StateMonitor)
  : StateMonitor * list (Z * num) :=
  match calls with
  | [] => (sm, [])
  | c :: rest =>
      let r := on_train_epoch_end (call_ctx c) (World sm (call_net c)) in
      let seen :=
        match observed (emitted r) with
        | Some x => [(cur_epoch_of sm (call_ctx c), x)]
        | None => []
        end in
      let '(sm', h) := epochs rest (self (final r)) in
      (sm', seen ++ h)
  end.

(** The validation metric [res[0]] of an epoch end: the first element of
    the vector the validation of the call computes.  A callback that has
    not been entered raises at line 184, before the validation. *)
Definition measured (ctx : run_context) (w : world) : option num :=
  match summary_record (self w), result (measure ctx (cur_epoch_of (self w) ctx) w) with
  | Some _, Ret (Some res) => head res
  | _, _ => None
  end.

(** A sequence of epoch ends, with the validation metrics computed, each
    with its epoch. *)
Fixpoint validations (calls : list epoch_call) (sm : StateMonitor)
  : StateMonitor * list (Z * num) :=
  match calls with
  | [] => (sm, [])
  | c :: rest =>
      let w := World sm (call_net c) in
      let seen :=
        match measured (call_ctx c) w with
        | Some x => [(cur_epoch_of sm (call_ctx c), x)]
        | None => []
        end in
      let '(sm', h) := validations rest (self (final (on_train_epoch_end (call_ctx c) w))) in
      (sm', seen ++ h)
  end.

(** ** Definitions that follow the words of the specification *)


(** "the EMA-prefixed parameters are loaded": the parameter whose data
    the dictionary holds under [key] is the last one, in the order of
    [get_parameters], whose name starts with "ema" and has [key] after
    its first "ema.". *)
Definition ema_source (names : list string) (key : string) : option string :=
  last (filter (fun name => startswith "ema" name = true
                            ∧ split "ema." name !! 1%nat = Some key) names).

(** "the arithmetic mean across devices": at each index, the sum of the
    elements the devices hold there, divided by the number of devices. *)
Definition mean_across (x : tensor) (peers : list tensor) : tensor :=
  imap (fun i xi =>
          num_div_Z (foldl num_add xi (omap (fun p => p !! i) peers))
                    (Z.of_nat (S (length peers)))) x.

End Callbacks.

Arguments Framework num : clear implicits.
Arguments event num : clear implicits.
Arguments StateMonitor num : clear implicits.
Arguments world num : clear implicits.
Arguments run_context num : clear implicits.
Arguments cb_params num : clear implicits.
Arguments net_output num : clear implicits.
Arguments loss_value num : clear implicits.
Arguments CheckpointManager num : clear implicits.
Arguments epoch_call num : clear implicits.
Arguments learning_rate num : clear implicits.
Arguments Optimizers num : clear implicits.
Arguments report num : clear implicits.

(** ** A framework to run the model on

    Rational tensors; the evaluation reports, as "accuracy", the first
    element of the parameter "fc.weight", and [load_param_into_net] gives
    each parameter of the cell named in the dictionary its data. *)

Definition Q_load (c : Cell) (d : gmap string (list Q)) (st : string → list Q)
  : string → list Q :=
  foldr (fun n acc => match d !! n with Some v => <[n := v]> acc | None => acc end)
        st (get_parameters c).

#[export] Instance Q_Framework : Framework Q := {|
  model_eval := fun _ st => Ret (<["accuracy" := default 0%Q (head (st "fc.weight"))]> ∅);
  load_param_into_net := fun c d st => (Q_load c d st, None);
|}.

(** A framework whose evaluation fails, on a dataset that cannot be read
    say: [Model.eval] raises, and the parameters load as above. *)
Definition failing_eval : Framework Q := {|
  model_eval := fun _ _ => Raise (RuntimeError "eval");
  load_param_into_net := fun c d st => (Q_load c d st, None);
|}.

Definition demo_inner : Cell :=
  {| get_parameters := ["fc.weight"]; cache_enabled := [];
     optimizer := {| global_step := 0 |} |}.

Definition demo_outer : Cell :=
  {| get_parameters := ["fc.weight"; "ema.fc.weight"; "global_step"];
     cache_enabled := []; optimizer := {| global_step := 30 |} |}.

Definition demo_network : TrainNetwork := {| outer := demo_outer; network := demo_inner |}.

Definition demo_model : Model := {| model_train_network := demo_network |}.

(** Parameter data: the online weight, its moving average, the step. *)
Definition demo_store (w e : Q) : string → list Q :=
  <["fc.weight" := [w]]> (<["ema.fc.weight" := [e]]> (<["global_step" := [30%Q]]> (fun _ => []))).

Definition demo_args : init_args :=
  {| arg_model := demo_model; arg_summary_dir := "./"; arg_dataset_val := Some (Dataset 0);
     arg_val_interval := 1; arg_val_start_epoch := 1; arg_save_best_ckpt := true;
     arg_ckpt_dir := "./ckpt"; arg_ckpt_save_interval := 2; arg_best_ckpt_name := "best.ckpt";
     arg_metric_name := ["accuracy"]; arg_rank_id := Some 0; arg_device_num := Some 2;
     arg_log_interval := 100; arg_model_name := "resnet"; arg_last_epoch := 0;
     arg_keep_checkpoint_max := 2; arg_ckpt_save_policy := Some "latest_k";
     arg_ema := true; arg_dataset_sink_mode := false |}.

Definition demo_cb (epoch : Z) : cb_params Q :=
  {| cur_epoch_num := epoch; cur_step_num := epoch * 10; batch_num := 10; epoch_num := 5;
     cb_optimizer := None; train_network := demo_network;
     net_outputs := OutTuple [LTensor [(1#2)%Q; (1#4)%Q]; LInt 0] |}.

Definition demo_ctx (epoch : Z) (peer : Q) : run_context Q :=
  {| original_args := demo_cb epoch; peer_metrics := [[peer]] |}.

(** The callback [__init__] constructs from [demo_args], on parameters
    that are all 0, and the callback after [__enter__]. *)
Definition demo_initial : StateMonitor Q :=
  {| model := demo_model; dataset_val := Some (Dataset 0); val_start_epoch := 1;
     save_best_ckpt := true; metric_name := ["accuracy"]; best_res := 0%Q;
     val_interval := 1; summary_dir := "./"; rank_id := 0; device_num := 2;
     log_interval := 100; model_name := "resnet"; ckpt_dir := "./ckpt";
     ckpt_save_interval := 2; last_epoch := 0; best_epoch := -1;
     keep_checkpoint_max := 2; ckpt_save_policy := Some "latest_k";
     _manager := {| manager_policy := Some "latest_k"; _ckpoint_filelist := [] |};
     _need_flush_from_cache := true; dataset_sink_mode := false;
     log_txt_fp := Some "./ckpt/result.log";
     best_ckpt_path := Some "./ckpt/best.ckpt"; all_reduce := Some ();
     ema := true;
     online_params := Some ["fc.weight"; "ema.fc.weight"; "global_step"];
     swap_params := Some [[0%Q]; [0%Q]; [0%Q]]; summary_record := None |}.

Definition demo_entered : StateMonitor Q :=
  set_summary_record (Some "./") demo_initial.

(** Three epoch ends: the averaged weight scores 60, 80 and 70 here, and
    70, 90 and 50 on the other device. *)
Definition demo_calls : list (epoch_call Q) :=
  [ {| call_ctx := demo_ctx 1 70; call_net := demo_store (1#5) (3#5) |};
    {| call_ctx := demo_ctx 2 90; call_net := demo_store (2#5) (4#5) |};
    {| call_ctx := demo_ctx 3 50; call_net := demo_store (3#5) (7#10) |} ].

(** The optimizers of the run warm the learning rate up: it is a
    schedule, a thousandth of the step. *)
#[export] Instance Q_Optimizers : Optimizers Q := {|
  learning_rate_of := fun _ => Schedule (fun step => [(inject_Z step / 1000)%Q]);
|}.

(** Other arguments of the constructor, and the callback it constructs
    from them on parameters that are all 0, once entered. *)
Definition demo_args_with (rank : option Z) (metrics : list string)
    (val_interval ckpt_save_interval : Z) : init_args :=
  {| arg_model := demo_model; arg_summary_dir := "./"; arg_dataset_val := Some (Dataset 0);
     arg_val_interval := val_interval; arg_val_start_epoch := 1; arg_save_best_ckpt := true;
     arg_ckpt_dir := "./ckpt"; arg_ckpt_save_interval := ckpt_save_interval;
     arg_best_ckpt_name := "best.ckpt"; arg_metric_name := metrics; arg_rank_id := rank;
     arg_device_num := Some 2; arg_log_interval := 100; arg_model_name := "resnet";
     arg_last_epoch := 0; arg_keep_checkpoint_max := 2;
     arg_ckpt_save_policy := Some "latest_k"; arg_ema := true;
     arg_dataset_sink_mode := false |}.

(** The default arguments but for [rank_id=0]. *)
Definition demo_args_rank_only : init_args :=
  {| arg_model := demo_model; arg_summary_dir := "./"; arg_dataset_val := None;
     arg_val_interval := 1; arg_val_start_epoch := 1; arg_save_best_ckpt := true;
     arg_ckpt_dir := "./"; arg_ckpt_save_interval := 1;
     arg_best_ckpt_name := "best.ckpt"; arg_metric_name := ["accuracy"];
     arg_rank_id := Some 0; arg_device_num := None; arg_log_interval := 100;
     arg_model_name := ""; arg_last_epoch := 0; arg_keep_checkpoint_max := 10;
     arg_ckpt_save_policy := None; arg_ema := false;
     arg_dataset_sink_mode := true |}.

Definition demo_callback (a : init_args) : StateMonitor Q :=
  match result (__init__ a (demo_store 0 0)) with
  | Ret sm => self (final (__enter__ (World sm (demo_store 0 0))))
  | Raise _ => demo_entered
  end.

(** The callback parameters of a step, with the output of the network. *)
Definition demo_step (step batches : Z) (output : net_output Q) : run_context Q :=
  {| original_args :=
       {| cur_epoch_num := 1; cur_step_num := step; batch_num := batches; epoch_num := 5;
          cb_optimizer := None; train_network := demo_network; net_outputs := output |};
     peer_metrics := [] |}.

(** A train network with a parameter "ema_decay", which no "ema." names. *)
Definition demo_ctx_bare_prefix : run_context Q :=
  {| original_args :=
       {| cur_epoch_num := 1; cur_step_num := 10; batch_num := 10; epoch_num := 5;
          cb_optimizer := None;
          train_network :=
            {| outer := {| get_parameters := ["fc.weight"; "ema_decay"];
                           cache_enabled := []; optimizer := {| global_step := 30 |} |};
               network := demo_inner |};
          net_outputs := OutFloat (1#2)%Q |};
     peer_metrics := [[70%Q]] |}.

(** * Properties *)

(** Membership in a list that is written out, case by case. *)
Ltac split_elem H :=
  repeat match type of H with
         | _ ∈ [] => by apply elem_of_nil in H
         | _ ∈ _ ++ _ => apply elem_of_app in H as [H|H]
         | _ ∈ _ :: _ => apply elem_of_cons in H as [H|H]
         | _ ∈ (if ?c then _ else _) => destruct c
         | _ = (if ?c then _ else _) => destruct c
         end.

Section Properties.
Context {num : Type} {ops : NumOps num} {fw : Framework num}.

Implicit Types (sm : StateMonitor num) (w : world num) (ctx : run_context num).
Implicit Types (st : string → list num) (res : list num).

#[local] Arguments os_path_join : simpl never.
#[local] Arguments result_log_header : simpl never.
#[local] Arguments py_str : simpl never.
#[local] Arguments py_mod : simpl never.
#[local] Arguments split : simpl never.
#[local] Arguments startswith : simpl never.
#[local] Arguments AllReduceSum : simpl never.
#[local] Arguments save_ckpoint : simpl never.
#[local] Arguments String.append : simpl never.
#[local] Arguments rule : simpl never.

(** Running a method: unfold the plumbing of [M], then compute. *)
Ltac unfold_M :=
  unfold mbind, mret, M_bind, M_ret, bind, ret, get, modify, emit, when, expect,
    raise, lift, prepend in *.
Ltac run := unfold_M; cbn in *.

(** ** Python primitives *)


Lemma py_mod_None (a b : Z) : py_mod a b = None ↔ b = 0.
Proof. unfold py_mod. destruct (Z.eqb_spec b 0); split; (congruence || done). Qed.

(** ** ValCallback *)


(** ** StateMonitor: attribute errors *)

(** C9. Every call of [remove_oldest_ckpoint_file] raises AttributeError:
    neither [_ckpoint_filelist] nor [remove_ckpoint_file] is an attribute
    of a StateMonitor, and the first of them is read first. *)
Theorem remove_oldest_ckpoint_file_raises w :
  let r := remove_oldest_ckpoint_file w in
  result r = Raise (AttributeError "_ckpoint_filelist")
  ∧ hasattr (self w) "_ckpoint_filelist" = false
  ∧ hasattr (self w) "remove_ckpoint_file" = false
  ∧ final r = w.
Proof.
  assert (Hattr : hasattr (self w) "_ckpoint_filelist" = false
                  ∧ hasattr (self w) "remove_ckpoint_file" = false).
  { unfold hasattr, instance_attributes.
    split; apply bool_decide_eq_false; intros Hin;
      repeat (apply elem_of_app in Hin as [Hin|Hin]);
      repeat match type of Hin with
             | _ ∈ (if ?o is Some _ then _ else _) => destruct o
             end;
      repeat (apply elem_of_cons in Hin as [Heq|Hin]; [discriminate Heq|]);
      by apply elem_of_nil in Hin. }
  destruct Hattr as [H1 H2].
  intros r; subst r. unfold remove_oldest_ckpoint_file. run.
  rewrite H1. cbn. done.
Qed.

(** ** StateMonitor._get_loss *)


(** ** The plumbing of [M] *)

Section Plumbing.
Context {S E : Type}.
Implicit Types (s : S).

Lemma result_bind {A B} (m : M S E A) (k : A → M S E B) s :
  result ((m ≫= k) s) =
  match result (m s) with
  | Ret x => result (k x (final (m s)))
  | Raise e => Raise e
  end.
Proof.
  unfold mbind, M_bind, bind. destruct (m s) as [[x|e] s' l]; cbn; [|done].
  by destruct (k x s').
Qed.

Lemma final_bind {A B} (m : M S E A) (k : A → M S E B) s :
  final ((m ≫= k) s) =
  match result (m s) with
  | Ret x => final (k x (final (m s)))
  | Raise e => final (m s)
  end.
Proof.
  unfold mbind, M_bind, bind. destruct (m s) as [[x|e] s' l]; cbn; [|done].
  by destruct (k x s').
Qed.

Lemma emitted_bind {A B} (m : M S E A) (k : A → M S E B) s :
  emitted ((m ≫= k) s) =
  emitted (m s) ++
  match result (m s) with
  | Ret x => emitted (k x (final (m s)))
  | Raise e => []
  end.
Proof.
  unfold mbind, M_bind, bind. destruct (m s) as [[x|e] s' l]; cbn.
  - by destruct (k x s').
  - by rewrite app_nil_r.
Qed.

Lemma keeps_bind P {A B} (m : M S E A) (k : A → M S E B) :
  keeps P m → (∀ x, keeps P (k x)) → keeps P (m ≫= k).
Proof.
  intros Hm Hk s Hs. rewrite final_bind. specialize (Hm s Hs).
  destruct (result (m s)); [by apply Hk | done].
Qed.

Lemma keeps_get_bind P {B} (k : S → M S E B) :
  (∀ s0, P s0 → keeps P (k s0)) → keeps P (get ≫= k).
Proof. intros Hk s Hs. rewrite final_bind. cbn. by apply Hk. Qed.

Lemma keeps_ret P {A} (x : A) : keeps P (mret x : M S E A).
Proof. by intros s Hs. Qed.

Lemma keeps_raise P {A} e : keeps P (raise e : M S E A).
Proof. by intros s Hs. Qed.

Lemma keeps_emit P e : keeps P (emit e : M S E unit).
Proof. by intros s Hs. Qed.

Lemma keeps_lift P {A} (o : outcome A) : keeps P (lift o : M S E A).
Proof. by intros s Hs. Qed.

Lemma keeps_expect P {A} (o : option A) e : keeps P (expect o e : M S E A).
Proof. intros s Hs. by destruct o. Qed.

Lemma keeps_expect_bind P {A B} (o : option A) e (k : A → M S E B) :
  (∀ x, o = Some x → keeps P (k x)) → keeps P (expect o e ≫= k).
Proof.
  intros Hk s Hs. rewrite final_bind. destruct o as [x|]; cbn; [|done].
  by apply Hk.
Qed.

Lemma keeps_lift_bind P {A B} (o : outcome A) (k : A → M S E B) :
  (∀ x, o = Ret x → keeps P (k x)) → keeps P (lift o ≫= k).
Proof.
  intros Hk s Hs. rewrite final_bind. destruct o as [x|]; cbn; [|done].
  by apply Hk.
Qed.

Lemma keeps_modify P (f : S → S) : (∀ s, P s → P (f s)) → keeps P (modify f : M S E unit).
Proof. intros Hf s Hs. by apply Hf. Qed.

Lemma keeps_when P (c : bool) (body : M S E unit) :
  (c = true → keeps P body) → keeps P (when c body).
Proof. intros Hb. destruct c; [by apply Hb | apply keeps_ret]. Qed.

Lemma keeps_for_each P {A} (l : list A) (body : A → M S E unit) :
  (∀ x, keeps P (body x)) → keeps P (for_each l body).
Proof.
  intros Hb. induction l as [|x l IH]; [apply keeps_ret|].
  cbn. apply (keeps_bind P (body x) (fun _ => for_each l body)); [apply Hb | done].
Qed.

Lemma omap_emitted_bind {A B X} (f : E → option X) (m : M S E A) (k : A → M S E B) s :
  omap f (emitted ((m ≫= k) s)) =
  omap f (emitted (m s)) ++
  match result (m s) with
  | Ret x => omap f (emitted (k x (final (m s))))
  | Raise e => []
  end.
Proof. rewrite emitted_bind, omap_app. by destruct (result (m s)). Qed.

Section Quiet.
Context {X : Type} (P : S → Prop) (f : E → option X).

Lemma quiet_bind {A B} (m : M S E A) (k : A → M S E B) :
  quiet P f m → (∀ x, quiet P f (k x)) → quiet P f (m ≫= k).
Proof.
  intros Hm Hk s Hs. destruct (Hm s Hs) as [Hm1 Hm2].
  rewrite omap_emitted_bind, final_bind, Hm1.
  destruct (result (m s)) as [x|e]; [|done]. by apply Hk.
Qed.

Lemma quiet_get_bind {B} (k : S → M S E B) :
  (∀ s0, P s0 → quiet P f (k s0)) → quiet P f (get ≫= k).
Proof.
  intros Hk s Hs. rewrite omap_emitted_bind, final_bind. cbn. by apply Hk.
Qed.

Lemma quiet_expect_bind {A B} (o : option A) e (k : A → M S E B) :
  (∀ x, o = Some x → quiet P f (k x)) → quiet P f (expect o e ≫= k).
Proof.
  intros Hk s Hs. rewrite omap_emitted_bind, final_bind.
  destruct o as [x|]; cbn; [|done]. by apply Hk.
Qed.

Lemma quiet_lift_bind {A B} (o : outcome A) (k : A → M S E B) :
  (∀ x, o = Ret x → quiet P f (k x)) → quiet P f (lift o ≫= k).
Proof.
  intros Hk s Hs. rewrite omap_emitted_bind, final_bind.
  destruct o as [x|]; cbn; [|done]. by apply Hk.
Qed.

Lemma quiet_ret {A} (x : A) : quiet P f (mret x : M S E A).
Proof. by intros s Hs. Qed.

Lemma quiet_raise {A} e : quiet P f (raise e : M S E A).
Proof. by intros s Hs. Qed.

Lemma quiet_emit e : f e = None → quiet P f (emit e : M S E unit).
Proof. intros He s Hs. cbn. by rewrite He. Qed.

Lemma quiet_lift {A} (o : outcome A) : quiet P f (lift o : M S E A).
Proof. by intros s Hs. Qed.

Lemma quiet_expect {A} (o : option A) e : quiet P f (expect o e : M S E A).
Proof. intros s Hs. by destruct o. Qed.

Lemma quiet_modify (g : S → S) : (∀ s, P s → P (g s)) → quiet P f (modify g : M S E unit).
Proof. intros Hg s Hs. split; [done | by apply Hg]. Qed.

Lemma quiet_when (c : bool) (body : M S E unit) :
  (c = true → quiet P f body) → quiet P f (when c body).
Proof. intros Hb. destruct c; [by apply Hb | apply quiet_ret]. Qed.

Lemma quiet_for_each {A} (l : list A) (body : A → M S E unit) :
  (∀ x, quiet P f (body x)) → quiet P f (for_each l body).
Proof.
  intros Hb. induction l as [|x l IH]; [apply quiet_ret|].
  cbn. apply (quiet_bind (body x) (fun _ => for_each l body)); [apply Hb | done].
Qed.

Lemma quiet_not_emitted {A} (m : M S E A) s e x :
  quiet P f m → P s → f e = Some x → e ∉ emitted (m s).
Proof.
  intros Hq Hs Hf He. destruct (Hq s Hs) as [Hnil _].
  assert (Hx : x ∈ omap f (emitted (m s))) by (apply list_elem_of_omap; eauto).
  rewrite Hnil in Hx. by apply elem_of_nil in Hx.
Qed.

End Quiet.

End Plumbing.

Ltac keeps_step :=
  lazymatch goal with
  | |- keeps _ (get ≫= _) => apply keeps_get_bind; intros ? ?
  | |- keeps _ (expect _ _ ≫= _) => apply keeps_expect_bind; intros ? ?
  | |- keeps _ (lift _ ≫= _) => apply keeps_lift_bind; intros ? ?
  | |- keeps _ (_ ≫= _) => apply keeps_bind; [|intros ?]
  | |- keeps _ (mret _) => apply keeps_ret
  | |- keeps _ (raise _) => apply keeps_raise
  | |- keeps _ (emit _) => apply keeps_emit
  | |- keeps _ (lift _) => apply keeps_lift
  | |- keeps _ (expect _ _) => apply keeps_expect
  | |- keeps _ (when _ _) => apply keeps_when; intros ?
  | |- keeps _ (for_each _ _) => apply keeps_for_each; intros ?
  | |- keeps _ (modify _) => apply keeps_modify; intros ? ?
  | |- keeps _ (if ?c then _ else _) => destruct c eqn:?
  | |- keeps _ (match ?c with _ => _ end) => destruct c eqn:?
  end.

Ltac quiet_step :=
  lazymatch goal with
  | |- quiet _ _ (get ≫= _) => apply quiet_get_bind; intros ? ?
  | |- quiet _ _ (expect _ _ ≫= _) => apply quiet_expect_bind; intros ? ?
  | |- quiet _ _ (lift _ ≫= _) => apply quiet_lift_bind; intros ? ?
  | |- quiet _ _ (_ ≫= _) => apply quiet_bind; [|intros ?]
  | |- quiet _ _ (mret _) => apply quiet_ret
  | |- quiet _ _ (raise _) => apply quiet_raise
  | |- quiet _ _ (emit _) => apply quiet_emit; try reflexivity
  | |- quiet _ _ (lift _) => apply quiet_lift
  | |- quiet _ _ (expect _ _) => apply quiet_expect
  | |- quiet _ _ (when _ _) => apply quiet_when; intros ?
  | |- quiet _ _ (for_each _ _) => apply quiet_for_each; intros ?
  | |- quiet _ _ (modify _) => apply quiet_modify; intros ? ?
  | |- quiet _ _ (if ?c then _ else _) => destruct c eqn:?
  | |- quiet _ _ (match ?c with _ => _ end) => destruct c eqn:?
  end.

(** ** The invariant of reachable callbacks *)

Lemma init_wf a data sm :
  result (__init__ a data) = Ret sm →
  wf a sm ∧ best_res sm = num_zero ∧ best_epoch sm = -1
  ∧ summary_record sm = None ∧ _ckpoint_filelist (_manager sm) = [].
Proof.
  unfold __init__. run.
  assert (Hswap : ∀ names : list string,
    if arg_ema a
    then ∃ sw, (if arg_ema a
                then Some (map (fun n => map (fun _ : num => num_zero) (data n)) names)
                else None) = Some sw ∧ length sw = length names
    else (if arg_ema a
          then Some (map (fun n => map (fun _ : num => num_zero) (data n)) names)
          else None) = None).
  { intros names. destruct (arg_ema a); [|done].
    eexists; split; [done|]. by rewrite length_map. }
  destruct (arg_rank_id a) as [r|] eqn:Hr; cbn.
  - destruct (arg_device_num a) as [d|] eqn:Hd; cbn.
    + destruct (bool_decide (r = 0)) eqn:Hrank; cbn;
        (intros [= <-]; split_and!; try done;
         constructor; cbn; rewrite ?Hr, ?Hd, ?Hrank; cbn; (done || lia || apply Hswap)).
    + destruct (bool_decide (r = 0)); cbn; discriminate.
  - intros [= <-]. split_and!; try done.
    constructor; cbn; rewrite ?Hr; cbn; (done || lia || apply Hswap).
Qed.

Lemma wf_set_best a sm r e : wf a sm → wf a (set_best r e sm).
Proof. intros []. by constructor. Qed.

Lemma wf_set_need_flush a sm b : wf a sm → wf a (set_need_flush b sm).
Proof. intros []. by constructor. Qed.

Lemma wf_set_summary_record a sm d : wf a sm → wf a (set_summary_record d sm).
Proof. intros []. by constructor. Qed.

Lemma wf_set_manager a sm m :
  manager_policy m = arg_ckpt_save_policy a →
  (length (_ckpoint_filelist m) ≤ Z.to_nat (arg_keep_checkpoint_max a))%nat →
  wf a sm → wf a (set_manager m sm).
Proof. intros Hm Hl []. by constructor. Qed.

Lemma wf_set_swap_params a sm t :
  ema sm = true →
  length t = length (get_parameters (outer (model_train_network (arg_model a)))) →
  wf a sm → wf a (set_swap_params t sm).
Proof.
  intros He Hl []. constructor; try done. cbn. rewrite He. by eexists.
Qed.

Lemma wf_ema_eq a sm sm' : wf a sm → wf a sm' → ema sm' = ema sm.
Proof. intros [] []. congruence. Qed.

Lemma apply_eval_keeps_wf a ctx : keeps (fun w => wf a (self w)) (apply_eval ctx).
Proof.
  unfold apply_eval. repeat keeps_step; try done.
  destruct s as [sm1 st1]; cbn in *.
  match goal with
  | Hw : wf a (self ?w0), He : ema (self ?w0) = true |- _ =>
      pose proof (wf_swap_params _ _ Hw) as Hsw;
      pose proof (wf_online_params _ _ Hw) as Hon;
      rewrite He in Hsw, Hon
  end.
  destruct Hsw as (sw & Hsw & Hlen).
  apply wf_set_swap_params; [ | | done].
  - erewrite wf_ema_eq; eauto.
  - rewrite length_zip_with. simplify_eq. lia.
Qed.

Lemma enter_keeps_wf a : keeps (fun w => wf a (self w)) __enter__.
Proof.
  unfold __enter__. repeat keeps_step; try done.
  by apply wf_set_summary_record.
Qed.

Lemma save_ckpoint_policy (m : CheckpointManager num) k x p :
  manager_policy (save_ckpoint m k x p) = manager_policy m.
Proof. done. Qed.

(** The manager retains at most [num_ckpt] files. *)
Lemma save_ckpoint_retains (m : CheckpointManager num) k x p :
  (length (_ckpoint_filelist (save_ckpoint m k x p)) ≤ Z.to_nat k)%nat.
Proof.
  unfold save_ckpoint. cbn. destruct (bool_decide _).
  - rewrite length_take. lia.
  - rewrite length_drop. lia.
Qed.

Lemma on_train_epoch_end_keeps_wf a ctx :
  keeps (fun w => wf a (self w)) (on_train_epoch_end ctx).
Proof.
  unfold on_train_epoch_end, _get_loss, validate, validation_due, reduce_metrics,
    track_best, record_metrics, save_and_log, _flush_from_cache.
  repeat (keeps_step || apply apply_eval_keeps_wf); try done.
  all: try (by apply wf_set_best).
  all: try (by apply wf_set_need_flush).
  all: try (apply wf_set_manager; [| |done]).
  all: try (rewrite save_ckpoint_policy; eapply wf_manager_policy; eassumption).
  all: match goal with
       | Hw : wf _ (self ?w0) |- context [keep_checkpoint_max (self ?w0)] =>
           rewrite <- (wf_keep_checkpoint_max _ _ Hw); apply save_ckpoint_retains
       end.
Qed.

Lemma reachable_wf a sm : reachable a sm → wf a sm.
Proof.
  induction 1 as [data sm Hinit|sm st _ IH|sm st ctx _ IH|sm st ctx _ IH].
  - by apply init_wf in Hinit as [? _].
  - by apply (enter_keeps_wf a (World sm st)).
  - by apply (apply_eval_keeps_wf a ctx (World sm st)).
  - by apply (on_train_epoch_end_keeps_wf a ctx (World sm st)).
Qed.

(** ** StateMonitor.__init__: the number of devices *)

Lemma single_device_no_all_reduce ctx :
  quiet (fun w => device_num (self w) = 1) all_reduce_input (on_train_epoch_end ctx).
Proof.
  unfold on_train_epoch_end, _get_loss, validate, validation_due, reduce_metrics,
    track_best, record_metrics, save_and_log, _flush_from_cache, apply_eval.
  repeat quiet_step; try done.
  all: try (destruct s; cbn in *; done).
  all: try (destruct s0; cbn in *; done).
  match goal with
  | Hd : device_num _ = 1, Hlt : (1 <? device_num _) = true |- _ =>
      rewrite Hd in Hlt; discriminate
  end.
Qed.

(** C8. Constructed with [rank_id=None], a StateMonitor has
    [device_num = 1] whatever [device_num] argument was passed: the
    constructor succeeds, builds no all-reduce cell, and no epoch end of
    such a callback enters the all-reduce path.  With a [rank_id], the
    [device_num] attribute is the argument. *)
Theorem rank_id_None_forces_single_device (a : init_args) :
  (arg_rank_id a = None →
     (∀ data, ∃ sm, result (__init__ a data) = Ret sm)
     ∧ ∀ sm, reachable a sm →
         device_num sm = 1 ∧ all_reduce sm = None
         ∧ ∀ ctx st x, AllReduce x ∉ emitted (on_train_epoch_end ctx (World sm st)))
  ∧ (∀ r, arg_rank_id a = Some r →
       ∀ sm, reachable a sm → arg_device_num a = Some (device_num sm)).
Proof.
  split.
  - intros Hnone. split.
    + intros data. unfold __init__. run. rewrite Hnone. cbn. eauto.
    + intros sm Hreach. apply reachable_wf in Hreach.
      pose proof (wf_device_num _ _ Hreach) as Hdev. rewrite Hnone in Hdev.
      pose proof (wf_all_reduce _ _ Hreach) as Har. rewrite Hdev in Har.
      split_and!; [done..|].
      intros ctx st x.
      eapply (quiet_not_emitted _ _ _ (World sm st));
        [apply single_device_no_all_reduce | done | reflexivity].
  - intros r Hr sm Hreach. apply reachable_wf in Hreach.
    pose proof (wf_device_num _ _ Hreach) as Hdev. by rewrite Hr in Hdev.
Qed.

(** ** StateMonitor.apply_eval *)

Lemma zip_with_sources {A B C} (g : B → C) (l : list A) (k : list B) :
  length l = length k → zip_with (fun _ b => g b) l k = map g k.
Proof.
  revert k. induction l as [|x l IH]; intros [|y k] Hlen; try done.
  cbn in *. f_equal. apply IH. lia.
Qed.

Lemma assign_params_lookup (names : list string) (g : string → list num) st n :
  assign_params names (map g names) st n = if decide (n ∈ names) then g n else st n.
Proof.
  unfold assign_params. revert st.
  induction names as [|x names IH]; intros st; cbn.
  - by rewrite decide_False by apply not_elem_of_nil.
  - rewrite IH. destruct (decide (n ∈ names)) as [Hin|Hnin].
    + by rewrite decide_True by (by apply list_elem_of_further).
    + destruct (decide (x = n)) as [->|Hne].
      * rewrite fn_lookup_insert. by rewrite decide_True by apply list_elem_of_here.
      * rewrite fn_lookup_insert_ne by done.
        rewrite decide_False; [done|].
        intros [?|?]%elem_of_cons; congruence.
Qed.

(** The run of [apply_eval] with EMA, in closed form. *)
Lemma apply_eval_ema_run a ctx sm st :
  wf a sm → ema sm = true →
  let online := get_parameters (outer (model_train_network (arg_model a))) in
  let net_cell :=
    if dataset_sink_mode sm
    then network (train_network (original_args ctx))
    else outer (train_network (original_args ctx)) in
  let target := network (model_train_network (model sm)) in
  let sm' := set_swap_params (map st online) sm in
  apply_eval ctx (World sm st) =
  match collect_ema (get_parameters net_cell) st ∅ with
  | Ret d =>
      let loaded := load_param_into_net target d st in
      match loaded.2 with
      | Some e => Run (Raise e) (World sm' loaded.1) [Called "apply_eval"]
      | None =>
          match model_eval (dataset_val sm) loaded.1 with
          | Ret res =>
              Run (Ret res)
                  (World sm' (assign_params online (map st online) loaded.1))
                  [Called "apply_eval"; ModelEval (dataset_val sm)]
          | Raise e =>
              Run (Raise e) (World sm' loaded.1)
                  [Called "apply_eval"; ModelEval (dataset_val sm)]
          end
      end
  | Raise e => Run (Raise e) (World sm' st) [Called "apply_eval"]
  end.
Proof.
  intros Hwf Hema online net_cell target sm'.
  pose proof (wf_swap_params _ _ Hwf) as Hsw.
  pose proof (wf_online_params _ _ Hwf) as Hon.
  rewrite Hema in Hsw, Hon. destruct Hsw as (sw & Hsw & Hlen).
  unfold apply_eval. run. rewrite Hema, Hsw, Hon. cbn.
  rewrite (zip_with_sources st sw _ Hlen).
  fold online net_cell.
  destruct (collect_ema (get_parameters net_cell) st ∅) as [d|e]; cbn; [|done].
  fold target.
  destruct (load_param_into_net target d st) as [loaded [e|]]; cbn; [done|].
  by destruct (model_eval (dataset_val sm) loaded).
Qed.

Lemma apply_eval_plain_run ctx sm st :
  ema sm = false →
  apply_eval ctx (World sm st) =
  Run (model_eval (dataset_val sm) st) (World sm st)
      [Called "apply_eval"; ModelEval (dataset_val sm)].
Proof.
  intros Hema. unfold apply_eval. run. rewrite Hema. cbn.
  by destruct (model_eval (dataset_val sm) st).
Qed.

(** The dictionary [collect_ema] builds maps each key to the data of its
    [ema_source]. *)
Lemma collect_ema_lookup names st d0 d :
  collect_ema names st d0 = Ret d →
  ∀ key, d !! key =
         match ema_source names key with
         | Some name => Some (st name)
         | None => d0 !! key
         end.
Proof.
  revert d0. unfold ema_source.
  induction names as [|name rest IH]; intros d0 Hd key.
  - cbn in Hd. by injection Hd as <-.
  - cbn [collect_ema] in Hd. rewrite filter_cons.
    destruct (startswith "ema" name) eqn:Hstart.
    + destruct (split "ema." name !! 1%nat) as [new_name|] eqn:Hsplit; [|done].
      rewrite (IH _ Hd key). case_decide as Hkey.
      * destruct Hkey as [_ [= ->]].
        destruct (filter _ rest) as [|x l] eqn:Hf.
        -- cbn. by rewrite lookup_insert_eq.
        -- change (last (name :: x :: l)) with (last (x :: l)). 
           destruct (last (x :: l)) eqn:Hlast; [done|]. by apply last_None in Hlast.
      * destruct (last (filter _ rest)); [done|].
        rewrite lookup_insert_ne; [done|]. intros ->. by apply Hkey.
    + case_decide as Hkey; [by destruct Hkey|]. by apply IH.
Qed.

(** C1. A call of [apply_eval] with [ema=True]: the data of the online
    parameters is first copied into the swap buffer.  When the dictionary
    of the EMA-prefixed parameters is collected, it holds under each key
    the data of the EMA-prefixed parameter of that key; when, further,
    [load_param_into_net] returns, the evaluation runs on the network it
    leaves; and when [Model.eval] returns too, every online parameter has
    at exit the data it had at entry.  When [load_param_into_net] or
    [Model.eval] raises, the call raises the same exception and the
    parameters stay as [load_param_into_net] left them: the swap buffer
    is not copied back.  When the dictionary is not collected (a name
    starts with "ema" and has no "ema."), the call raises with nothing
    loaded, nothing evaluated and the parameters as they were. *)
Theorem apply_eval_restores_online_params a sm st ctx :
  reachable a sm → ema sm = true →
  let r := apply_eval ctx (World sm st) in
  let net_cell :=
    if dataset_sink_mode sm
    then network (train_network (original_args ctx))
    else outer (train_network (original_args ctx)) in
  let target := network (model_train_network (model sm)) in
  ∃ online,
    online_params sm = Some online
    ∧ swap_params (self (final r)) = Some (map st online)
    ∧ (∀ ema_dict, collect_ema (get_parameters net_cell) st ∅ = Ret ema_dict →
         (∀ key, ema_dict !! key = st <$> ema_source (get_parameters net_cell) key)
         ∧ (∀ loaded, load_param_into_net target ema_dict st = (loaded, None) →
              result r = model_eval (dataset_val sm) loaded
              ∧ ModelEval (dataset_val sm) ∈ emitted r
              ∧ (∀ e, model_eval (dataset_val sm) loaded = Raise e →
                   net (final r) = loaded))
         ∧ (∀ loaded e, load_param_into_net target ema_dict st = (loaded, Some e) →
              result r = Raise e
              ∧ (ModelEval (dataset_val sm) ∉ emitted r)
              ∧ net (final r) = loaded))
    ∧ (∀ mind_res, result r = Ret mind_res →
         ∀ n, n ∈ online → net (final r) n = st n)
    ∧ (∀ e, collect_ema (get_parameters net_cell) st ∅ = Raise e →
         result r = Raise e ∧ net (final r) = st
         ∧ (ModelEval (dataset_val sm) ∉ emitted r)).
Proof.
  intros Hreach Hema r net_cell target. apply reachable_wf in Hreach as Hwf.
  pose proof (wf_online_params _ _ Hwf) as Hon. rewrite Hema in Hon.
  exists (get_parameters (outer (model_train_network (arg_model a)))).
  subst r. rewrite (apply_eval_ema_run a ctx sm st Hwf Hema). fold net_cell target.
  destruct (collect_ema (get_parameters net_cell) st ∅) as [d|e] eqn:Hd; cbn.
  - split_and!; [done | | | | done].
    + by destruct (load_param_into_net target d st) as [loaded [e|]]; cbn;
        [|destruct (model_eval (dataset_val sm) loaded)].
    + intros ? [= <-]. split_and!.
      * intros key. rewrite (collect_ema_lookup _ _ _ _ Hd key), lookup_empty.
        by destruct (ema_source _ key).
      * intros loaded ->. cbn.
        destruct (model_eval (dataset_val sm) loaded) as [res|e]; cbn.
        -- split_and!; [done| |done].
           apply list_elem_of_further, list_elem_of_here.
        -- split_and!; [done| |done].
           apply list_elem_of_further, list_elem_of_here.
      * intros loaded e ->. cbn. split_and!; [done| |done].
        intros Hin. apply list_elem_of_singleton in Hin. done.
    + intros mind_res. destruct (load_param_into_net target d st) as [loaded [e|]]; cbn;
        [done|].
      destruct (model_eval (dataset_val sm) loaded) as [res|e]; cbn; [|done].
      intros _ n Hn. rewrite assign_params_lookup. by rewrite decide_True.
  - split_and!; [done | done | discriminate | done |].
    intros ? [= <-]. split_and!; [done | done |].
    intros Hin. apply list_elem_of_singleton in Hin. done.
Qed.

(** ** StateMonitor.on_train_epoch_end: the report of a validation *)

Lemma tracking_printed_metric : tracking (@printed_metric num).
Proof. by intros []. Qed.

Lemma tracking_best_save_path : tracking (@best_save_path num).
Proof. intros [] Ht; try done. by destruct what. Qed.

Lemma record_metrics_run sm res w :
  final (record_metrics sm res w) = w
  ∧ ∀ X (f : event num → option X), tracking f →
      omap f (emitted (record_metrics sm res w)) = [].
Proof.
  unfold record_metrics. induction (zip (metric_name sm) res) as [|nx l [IH1 IH2]].
  - done.
  - cbn [for_each]. destruct (summary_record sm) as [d|]; [|by run].
    run. destruct (for_each l _ w) as [o s' log]. cbn in *. split; [done|].
    intros X f Hf. rewrite (Hf (SummaryAddValue _ _ _)) by done. by apply IH2.
Qed.

(** The report in closed form: what it prints first, whether it writes
    the best checkpoint, and the best result it leaves. *)
Lemma track_best_spec cb e res w :
  length res = length (metric_name (self w)) →
  let sm := self w in
  let r := track_best cb e res w in
  let improved :=
    if bool_decide (rank_id sm = 0)
    then match head res with
         | Some r0 => if num_gt r0 (best_res sm) then Some r0 else None
         | None => None
         end
    else None in
  observed (emitted r) = (if bool_decide (rank_id sm = 0) then head res else None)
  ∧ omap best_save_path (emitted r) =
      match improved with
      | Some _ => if save_best_ckpt sm then option_list (best_ckpt_path sm) else []
      | None => []
      end
  ∧ best_res (self (final r)) = default (best_res sm) improved
  ∧ best_epoch (self (final r)) = (if improved is Some _ then e else best_epoch sm).
Proof.
  intros Hlen sm r improved. subst r improved sm. unfold track_best, observed.
  destruct w as [sm st]. cbn [self] in *.
  run. destruct (bool_decide (rank_id sm = 0)) eqn:Hrank; [|done].
  destruct res as [|r0 res]; destruct (metric_name sm) as [|n0 names] eqn:Hnames;
    try done.
  cbn.
  destruct (num_gt r0 (best_res sm)) eqn:Hgt; cbn.
  all: repeat match goal with
         | |- context [save_best_ckpt ?x && true] =>
             destruct (save_best_ckpt x) eqn:Hsave; cbn
         | |- context [match best_ckpt_path ?x with _ => _ end] =>
             destruct (best_ckpt_path x) as [p|] eqn:Hpath; cbn
         end; try done.
  all: match goal with
       | |- context [record_metrics ?sm' ?res' ?w'] =>
           destruct (record_metrics_run sm' res' w') as [Hfin Hq];
           pose proof (Hq _ _ tracking_printed_metric) as Hq1;
           pose proof (Hq _ _ tracking_best_save_path) as Hq2;
           destruct (record_metrics sm' res' w') as [o s' l]; cbn in *; subst;
           rewrite ?Hq1, ?Hq2; done
       end.
Qed.

Lemma fill_res_length mind_res names i res0 res :
  fill_res mind_res names i res0 = Ret res → length res = length res0.
Proof.
  revert i res0. induction names as [|n names IH]; intros i res0; cbn.
  - by intros [= ->].
  - destruct (mind_res !! n); [|done]. intros Hr%IH. by rewrite length_insert in Hr.
Qed.

Lemma AllReduceSum_length (x : list num) peers : length (AllReduceSum x peers) = length x.
Proof. unfold AllReduceSum. apply length_imap. Qed.

(** [apply_eval] reports nothing of a validation and leaves the
    attributes of the report alone. *)
Lemma apply_eval_tracking ctx w :
  tracking_view (self (final (apply_eval ctx w))) = tracking_view (self w)
  ∧ ∀ X (f : event num → option X), tracking f →
      omap f (emitted (apply_eval ctx w)) = [].
Proof.
  split.
  - assert (Hk : keeps (fun w' => tracking_view (self w') = tracking_view (self w))
                       (apply_eval ctx)).
    { unfold apply_eval. repeat keeps_step; done. }
    by apply Hk.
  - intros X f Hf.
    assert (Hq : quiet (fun _ => True) f (apply_eval ctx)).
    { unfold apply_eval. repeat quiet_step; try done; by apply Hf. }
    by apply Hq.
Qed.

(** A run of lines 186-215: either nothing of a validation is reported
    and the attributes of the report are left alone, or the run ends with
    the report of a vector [res] of the length of [metric_name]. *)
Lemma validate_run ctx e w :
  (∃ o w' (log : list (event num)),
      validate ctx e w = Run o w' log
      ∧ tracking_view (self w') = tracking_view (self w)
      ∧ ∀ X (f : event num → option X), tracking f → omap f log = [])
  ∨ (∃ res w' (log : list (event num)),
        length res = length (metric_name (self w))
        ∧ tracking_view (self w') = tracking_view (self w)
        ∧ (∀ X (f : event num → option X), tracking f → omap f log = [])
        ∧ validate ctx e w =
          match track_best (original_args ctx) e res w' with
          | Run o s l =>
              Run (match o with Ret _ => Ret res | Raise x => Raise x end) s (log ++ l)
          end).
Proof.
  destruct (apply_eval_tracking ctx w) as [Hview Hq].
  unfold validate, validation_due, reduce_metrics. run.
  destruct (dataset_val (self w)) as [ds|]; [|left; by eexists _, _, _].
  destruct (val_start_epoch (self w) <=? e); [|left; by eexists _, _, _].
  destruct (py_mod _ _) as [m|]; cbn; [|left; by eexists _, _, _].
  destruct (m =? 0); cbn; [|left; by eexists _, _, _].
  destruct (apply_eval ctx w) as [[mind_res|x] w' log]; cbn in *;
    [|left; by eexists _, _, _].
  destruct (fill_res _ _ _ _) as [res|x] eqn:Hfill; cbn;
    [|left; eexists _, _, _; split_and!; [done..|];
      intros X f Hf; rewrite app_nil_r; by apply Hq].
  apply fill_res_length in Hfill. rewrite length_map in Hfill.
  destruct (1 <? device_num (self w')); cbn.
  - destruct (all_reduce (self w')); cbn; [|left; eexists _, _, _; split_and!; [done..|];
      intros X f Hf; rewrite !app_nil_r; by apply Hq].
    right.
    exists (map (fun x => num_div_Z x (device_num (self w')))
                (AllReduceSum res (peer_metrics ctx))), w', (log ++ [AllReduce res]).
    split_and!.
    + by rewrite length_map, AllReduceSum_length.
    + done.
    + intros X f Hf. rewrite omap_app, Hq by done. cbn. by rewrite (Hf (AllReduce _)).
    + destruct (track_best _ _ _ _) as [[[]|x] s l]; cbn;
        by rewrite ?app_nil_r, <- ?app_assoc.
  - right. exists res, w', log. split_and!; [done..|].
    destruct (track_best _ _ _ _) as [[[]|x] s l]; cbn; by rewrite ?app_nil_r.
Qed.

Lemma get_loss_run (cb : cb_params num) w :
  ∃ l (log : list (event num)),
    _get_loss cb w = Run (Ret l) w log
    ∧ ∀ e, e ∈ log → e = Called "_get_loss" ∨ ∃ msg, e = LoggerWarning msg.
Proof.
  unfold _get_loss.
  destruct (net_outputs cb) as [|z|x|t|[|l ls]|[|l ls]|ty]; run;
    eexists _, _; (split; [reflexivity|]);
    intros e He; repeat (apply elem_of_cons in He as [->|He]; [eauto|]);
    by apply elem_of_nil in He.
Qed.

(** Lines 218-252 report nothing of a validation and leave the attributes
    of the report alone. *)
Lemma save_and_log_tracking (cb : cb_params num) opt e step loss res w :
  let r := save_and_log cb opt e step loss res w in
  tracking_view (self (final r)) = tracking_view (self w)
  ∧ ∀ X (f : event num → option X), tracking f → omap f (emitted r) = [].
Proof.
  split.
  - assert (Hk : keeps (fun w' => tracking_view (self w') = tracking_view (self w))
                       (save_and_log cb opt e step loss res)).
    { unfold save_and_log, _flush_from_cache. repeat keeps_step; done. }
    by apply Hk.
  - intros X f Hf.
    assert (Hq : quiet (fun _ => True) f (save_and_log cb opt e step loss res)).
    { unfold save_and_log, _flush_from_cache. repeat quiet_step; try done; by apply Hf. }
    by apply Hq.
Qed.

(** A run of [on_train_epoch_end]: the report of a validation, if there
    is one, between events that are none of a report. *)
Lemma epoch_end_run ctx w :
  let e := cur_epoch_of (self w) ctx in
  (∃ o w' (log : list (event num)),
      on_train_epoch_end ctx w = Run o w' log
      ∧ tracking_view (self w') = tracking_view (self w)
      ∧ ∀ X (f : event num → option X), tracking f → omap f log = [])
  ∨ (∃ res w1 o w2 (log1 log2 : list (event num)),
        length res = length (metric_name (self w))
        ∧ tracking_view (self w1) = tracking_view (self w)
        ∧ (∀ X (f : event num → option X), tracking f → omap f log1 = [])
        ∧ (∀ X (f : event num → option X), tracking f → omap f log2 = [])
        ∧ let t := track_best (original_args ctx) e res w1 in
          on_train_epoch_end ctx w = Run o w2 (log1 ++ emitted t ++ log2)
          ∧ tracking_view (self w2) = tracking_view (self (final t))).
Proof.
  intros e. unfold on_train_epoch_end. run.
  destruct (get_loss_run (original_args ctx) w) as (loss & log0 & -> & Hlog0).
  assert (Hq0 : ∀ X (f : event num → option X), tracking f → omap f log0 = []).
  { intros X f Hf. induction log0 as [|x log0 IH]; [done|]. cbn.
    rewrite Hf; [apply IH; intros; apply Hlog0; by apply list_elem_of_further|].
    by destruct (Hlog0 x (list_elem_of_here _ _)) as [->|[msg ->]]. }
  destruct (summary_record (self w)) as [d|] eqn:Hsum; cbn;
    [|left; eexists _, _, _; split_and!; [done..|];
      intros X f Hf; rewrite app_nil_r; by apply Hq0].
  change (cur_epoch_num (original_args ctx) + last_epoch (self w)) with e.
  destruct (validate_run ctx e w)
    as [(o & w' & log & -> & Hview & Hq)|(res & w' & log & Hlen & Hview & Hq & ->)].
  - destruct o as [res|x]; cbn.
    + destruct (save_and_log_tracking (original_args ctx)
                  (select_optimizer (self w) (original_args ctx)) e
                  (batch_num (original_args ctx)) loss res w') as [Hview' Hq'].
      destruct (save_and_log _ _ _ _ _ _ _) as [[[]|x] w2 log2]; cbn in *;
        left; eexists _, _, _; (split_and!; [reflexivity | congruence |]);
        intros X f Hf; rewrite !omap_app; cbn; rewrite !omap_app;
        rewrite (Hf (SummaryAddValue _ _ _)), Hq0, Hq, Hq' by done; cbn;
        by rewrite ?(Hf (SummaryRecordStep _)).
    + left; eexists _, _, _; (split_and!; [reflexivity | done |]).
      intros X f Hf. rewrite !omap_app; cbn.
      by rewrite (Hf (SummaryAddValue _ _ _)), Hq0, Hq.
  - right.
    assert (Hq1 : ∀ X (f : event num → option X), tracking f →
              omap f (log0 ++ SummaryAddValue "scalar"
                        ("train_loss_" +:+ py_str (rank_id (self w))) loss :: log) = []).
    { intros X f Hf. rewrite !omap_app; cbn.
      by rewrite (Hf (SummaryAddValue _ _ _)), Hq0, Hq. }
    destruct (track_best _ _ _ _) as [[[]|x] w1 l] eqn:Ht; cbn.
    + destruct (save_and_log_tracking (original_args ctx)
                  (select_optimizer (self w) (original_args ctx)) e
                  (batch_num (original_args ctx)) loss res w1) as [Hview' Hq'].
      destruct (save_and_log _ _ _ _ _ _ _) as [[[]|x] w2 log2]; cbn in *.
      * exists res, w', (Ret ()), w2, (log0 ++ SummaryAddValue "scalar"
                        ("train_loss_" +:+ py_str (rank_id (self w))) loss :: log),
          (log2 ++ [SummaryRecordStep
                      (global_step (select_optimizer (self w) (original_args ctx)))]).
        rewrite Ht. cbn. split_and!; [done | done | done | | | done].
        -- intros X f Hf. rewrite omap_app, Hq' by done. cbn.
           by rewrite (Hf (SummaryRecordStep _)).
        -- f_equal. by rewrite <- !app_assoc.
      * exists res, w', (Raise x), w2, (log0 ++ SummaryAddValue "scalar"
                        ("train_loss_" +:+ py_str (rank_id (self w))) loss :: log), log2.
        rewrite Ht. cbn. split_and!; [done | done | done | by apply Hq' | | done].
        f_equal. by rewrite <- !app_assoc.
    + exists res, w', (Raise x), w1, (log0 ++ SummaryAddValue "scalar"
                        ("train_loss_" +:+ py_str (rank_id (self w))) loss :: log), [].
      rewrite Ht. cbn. split_and!; [done | done | done | done | | done].
      f_equal. by rewrite app_nil_r, <- !app_assoc.
Qed.

(** What an epoch end does to the best result, from the metric it has
    reported. *)
Lemma epoch_end_tracking ctx sm st :
  let r := on_train_epoch_end ctx (World sm st) in
  let improved :=
    match observed (emitted r) with
    | Some x => if num_gt x (best_res sm) then Some x else None
    | None => None
    end in
  (is_Some (observed (emitted r)) → rank_id sm = 0)
  ∧ omap best_save_path (emitted r) =
      match improved with
      | Some _ => if save_best_ckpt sm then option_list (best_ckpt_path sm) else []
      | None => []
      end
  ∧ best_res (self (final r)) = default (best_res sm) improved
  ∧ best_epoch (self (final r)) =
      (if improved is Some _ then cur_epoch_of sm ctx else best_epoch sm).
Proof.
  intros r improved. subst r improved.
  destruct (epoch_end_run ctx (World sm st))
    as [(o & w' & log & -> & Hview & Hq)
       |(res & w1 & o & w2 & log1 & log2 & Hlen & Hview1 & Hq1 & Hq2 & Hrun & Hview2)];
    cbn [self] in *.
  - cbn. unfold observed. rewrite (Hq _ _ tracking_printed_metric).
    rewrite (Hq _ _ tracking_best_save_path). cbn.
    unfold tracking_view in Hview. simplify_eq. split_and!; [by intros [] | done..].
  - rewrite Hrun. cbn.
    assert (Hlen1 : length res = length (metric_name (self w1))).
    { unfold tracking_view in Hview1. simplify_eq. congruence. }
    destruct (track_best_spec (original_args ctx) (cur_epoch_of sm ctx) res w1 Hlen1)
      as (Hobs & Hsave & Hbest & Hepoch).
    unfold observed in *. rewrite !omap_app.
    rewrite (Hq1 _ _ tracking_printed_metric), (Hq2 _ _ tracking_printed_metric).
    rewrite (Hq1 _ _ tracking_best_save_path), (Hq2 _ _ tracking_best_save_path).
    rewrite !app_nil_r. cbn [app].
    unfold tracking_view in Hview1, Hview2. simplify_eq.
    rewrite Hobs, Hsave.
    repeat match goal with H : _ (self w2) = _ |- _ => rewrite H end.
    rewrite Hbest, Hepoch.
    repeat match goal with H : _ (self w1) = _ sm |- _ => rewrite H end.
    destruct (bool_decide (rank_id sm = 0)) eqn:Hrank.
    + apply bool_decide_eq_true in Hrank. by split_and!.
    + split_and!; [by intros [] | done..].
Qed.


(** ** The best result over a sequence of epoch ends *)

Section Best.
Context {order : NumOrder num}.

Lemma num_gt_asym (x y : num) : num_gt x y = true → num_gt y x = false.
Proof.
  intros Hxy. destruct (num_gt y x) eqn:Hyx; [|done].
  pose proof (num_gt_trans _ _ _ Hxy Hyx) as Hxx. by rewrite num_gt_irrefl in Hxx.
Qed.

(** [≤] is transitive. *)
Lemma num_le_trans (x y z : num) :
  num_gt x y = false → num_gt y z = false → num_gt x z = false.
Proof.
  intros Hxy Hyz. destruct (num_gt x z) eqn:Hxz; [|done].
  destruct (num_gt_cotrans x y z Hxz); congruence.
Qed.

Lemma num_gt_le_trans (x y z : num) :
  num_gt x y = true → num_gt z y = false → num_gt x z = true.
Proof. intros Hxy Hzy. destruct (num_gt_cotrans x z y Hxy); congruence. Qed.

(** One epoch end: the best result stays, or moves to the metric reported,
    which then exceeds it. *)
Lemma epoch_end_best ctx sm st :
  let r := on_train_epoch_end ctx (World sm st) in
  let sm' := self (final r) in
  (best_res sm' = best_res sm ∧ best_epoch sm' = best_epoch sm
   ∧ ∀ x, observed (emitted r) = Some x → num_gt x (best_res sm) = false)
  ∨ (∃ x, observed (emitted r) = Some x ∧ num_gt x (best_res sm) = true
          ∧ best_res sm' = x ∧ best_epoch sm' = cur_epoch_of sm ctx).
Proof.
  intros r sm'. subst sm'.
  destruct (epoch_end_tracking ctx sm st) as (_ & _ & Hbest & Hepoch).
  fold r in Hbest, Hepoch.
  destruct (observed (emitted r)) as [x|]; [|by left].
  destruct (num_gt x (best_res sm)) eqn:Hgt.
  - right. by exists x.
  - left. split_and!; [done..|]. by intros ? [= <-].
Qed.

(** The invariant of a sequence, from any callback. *)
Lemma epochs_best calls sm0 :
  let sm := (epochs calls sm0).1 in
  let h := (epochs calls sm0).2 in
  num_gt (best_res sm0) (best_res sm) = false
  ∧ (∀ e x, (e, x) ∈ h → num_gt x (best_res sm) = false)
  ∧ ((best_res sm = best_res sm0 ∧ best_epoch sm = best_epoch sm0
      ∧ ∀ e x, (e, x) ∈ h → num_gt x (best_res sm0) = false)
     ∨ ∃ pre e x post,
         h = pre ++ (e, x) :: post
         ∧ best_res sm = x ∧ best_epoch sm = e
         ∧ num_gt x (best_res sm0) = true
         ∧ ∀ e' y, (e', y) ∈ pre → num_gt x y = true).
Proof.
  revert sm0. induction calls as [|c calls IH]; intros sm0; cbn.
  { split_and!; [apply num_gt_irrefl | by intros ?? ?%elem_of_nil |].
    left. split_and!; [done..|]. by intros ?? ?%elem_of_nil. }
  set (r := on_train_epoch_end (call_ctx c) (World sm0 (call_net c))).
  specialize (IH (self (final r))).
  destruct (epochs calls (self (final r))) as [sm h] eqn:Hrest. cbn in *.
  destruct IH as (Hmono & Hbound & Hmax).
  destruct (epoch_end_best (call_ctx c) sm0 (call_net c))
    as [(Hb & He & Hle)|(x1 & Hobs & Hgt & Hb & He)]; fold r in Hb, He.
  - (* the call keeps the best result *)
    fold r in Hle. rewrite Hb, He in *.
    assert (Hseen : ∀ e x,
      (e, x) ∈ match observed (emitted r) with
               | Some x => [(cur_epoch_of sm0 (call_ctx c), x)]
               | None => []
               end → num_gt x (best_res sm0) = false).
    { intros e x. destruct (observed (emitted r)) as [x1|]; [|by intros ?%elem_of_nil].
      intros [= -> ->]%list_elem_of_singleton. by apply Hle. }
    split_and!; [done | |].
    + intros e x [Hx|Hx]%elem_of_app; [|by eapply Hbound].
      eapply num_le_trans; [by eapply Hseen | done].
    + destruct Hmax as [(Hb' & He' & Hall)|(pre & e & x & post & -> & Hb' & He' & Hx & Hpre)].
      * left. split_and!; [done..|].
        intros e x [Hx|Hx]%elem_of_app; [by eapply Hseen | by eapply Hall].
      * right. eexists (_ ++ pre), e, x, post. rewrite <- app_assoc.
        split_and!; [done..|].
        intros e' y [Hy|Hy]%elem_of_app; [|by eapply Hpre].
        eapply num_gt_le_trans; [done | by eapply Hseen].
  - (* the call moves the best result to [x1] *)
    fold r in Hobs. rewrite Hobs, Hb, He in *. cbn.
    split_and!.
    + eapply num_le_trans; [by apply num_gt_asym | done].
    + intros e x [[= -> ->]|Hx]%elem_of_cons; [done | by eapply Hbound].
    + right.
      destruct Hmax as [(Hb' & He' & Hall)|(pre & e & x & post & -> & Hb' & He' & Hx & Hpre)].
      * exists [], (cur_epoch_of sm0 (call_ctx c)), x1, h.
        split_and!; [done..|]. by intros ?? ?%elem_of_nil.
      * exists ((cur_epoch_of sm0 (call_ctx c), x1) :: pre), e, x, post.
        split_and!; [done | done | done | by eapply num_gt_trans |].
        intros e' y [[= -> ->]|Hy]%elem_of_cons; [done | by eapply Hpre].
Qed.

End Best.

(** ** StateMonitor.on_train_epoch_end: the run in closed form *)

(** An entered callback runs lines 186-215, then lines 218-252 on the
    vector [res] they return, between the events of the loss. *)
Lemma epoch_end_unfold ctx w d :
  summary_record (self w) = Some d →
  let cb := original_args ctx in
  let e := cur_epoch_of (self w) ctx in
  let opt := select_optimizer (self w) cb in
  ∃ loss (log0 : list (event num)),
    (∀ x, x ∈ log0 → x = Called "_get_loss" ∨ ∃ msg, x = LoggerWarning msg)
    ∧ result (_get_loss cb w) = Ret loss
    ∧ on_train_epoch_end ctx w =
      let head_log :=
        log0 ++ [SummaryAddValue "scalar" ("train_loss_" +:+ py_str (rank_id (self w))) loss] in
      match validate ctx e w with
      | Run (Ret res) w1 l1 =>
          match save_and_log cb opt e (batch_num cb) loss res w1 with
          | Run (Ret _) w2 l2 =>
              Run (Ret ()) w2 (head_log ++ l1 ++ l2 ++ [SummaryRecordStep (global_step opt)])
          | Run (Raise x) w2 l2 => Run (Raise x) w2 (head_log ++ l1 ++ l2)
          end
      | Run (Raise x) w1 l1 => Run (Raise x) w1 (head_log ++ l1)
      end.
Proof.
  intros Hsum cb e opt. unfold on_train_epoch_end. run.
  destruct (get_loss_run (original_args ctx) w) as (loss & log0 & Hrun & Hlog0).
  exists loss, log0. rewrite Hrun, Hsum. cbn.
  split_and!; [done | by subst cb; rewrite Hrun |].
  change (cur_epoch_num (original_args ctx) + last_epoch (self w)) with e.
  fold cb opt.
  destruct (validate ctx e w) as [[res|x] w1 l1]; cbn.
  - destruct (save_and_log _ _ _ _ _ _ _) as [[[]|x] w2 l2]; cbn;
      f_equal; by rewrite <- ?app_assoc.
  - f_equal. by rewrite <- ?app_assoc.
Qed.

(** Lines 186-196 when no validation is due. *)
Lemma validate_skip ctx e w :
  dataset_val (self w) = None
  ∨ e < val_start_epoch (self w)
  ∨ (∃ m, py_mod (e - val_start_epoch (self w)) (val_interval (self w)) = Some m ∧ m ≠ 0) →
  validate ctx e w = Run (Ret (map (fun _ => num_zero) (metric_name (self w)))) w [].
Proof.
  intros Hskip. unfold validate, validation_due. run.
  destruct (dataset_val (self w)) as [ds|]; [|done].
  destruct Hskip as [?|[Hlt|(m & Hm & Hne)]]; [done| |].
  - by rewrite (proj2 (Z.leb_gt _ _) Hlt).
  - destruct (val_start_epoch (self w) <=? e); [|done].
    rewrite Hm. cbn. by rewrite (proj2 (Z.eqb_neq _ _) Hne).
Qed.

Lemma validate_zero_interval ctx e w ds :
  dataset_val (self w) = Some ds → val_start_epoch (self w) ≤ e →
  py_mod (e - val_start_epoch (self w)) (val_interval (self w)) = None →
  validate ctx e w = Run (Raise ZeroDivisionError) w [].
Proof.
  intros Hds Hle Hm. unfold validate, validation_due. run.
  by rewrite Hds, (proj2 (Z.leb_le _ _) Hle), Hm.
Qed.




(** Lines 186-215 when the evaluation has returned every metric: the
    vector [res] is reduced over the devices and then reported. *)
Lemma validate_reported ctx e w ds mind_res w' log local :
  dataset_val (self w) = Some ds → val_start_epoch (self w) ≤ e →
  py_mod (e - val_start_epoch (self w)) (val_interval (self w)) = Some 0 →
  apply_eval ctx w = Run (Ret mind_res) w' log →
  fill_res mind_res (metric_name (self w)) 0
    (map (fun _ => num_zero) (metric_name (self w))) = Ret local →
  (1 < device_num (self w') → is_Some (all_reduce (self w'))) →
  let multi := 1 <? device_num (self w') in
  let res :=
    if multi
    then map (fun x => num_div_Z x (device_num (self w')))
             (AllReduceSum local (peer_metrics ctx))
    else local in
  validate ctx e w =
  match track_best (original_args ctx) e res w' with
  | Run o s l =>
      Run (match o with Ret _ => Ret res | Raise x => Raise x end) s
          (log ++ (if multi then [AllReduce local] else []) ++ l)
  end.
Proof.
  intros Hds Hle Hm Hae Hfill Har multi res. subst multi res.
  unfold validate, validation_due, reduce_metrics. run.
  rewrite Hds, (proj2 (Z.leb_le _ _) Hle), Hm. cbn. rewrite Hae. cbn.
  rewrite Hfill. cbn.
  destruct (1 <? device_num (self w')) eqn:Hdev; cbn.
  - destruct Har as [[] ->]; [by apply Z.ltb_lt|]. cbn.
    destruct (track_best _ _ _ _) as [[[]|x] s l]; cbn; by rewrite ?app_nil_r.
  - destruct (track_best _ _ _ _) as [[[]|x] s l]; cbn; by rewrite ?app_nil_r.
Qed.

Lemma flush_from_cache_run (cb : cb_params num) w :
  ∃ w' (log : list (event num)),
    _flush_from_cache cb w = Run (Ret ()) w' log
    ∧ ∀ x, x ∈ log → x = Called "_flush_from_cache" ∨ ∃ p, x = FlushFromCache p.
Proof.
  unfold _flush_from_cache.
  assert (Hloop : ∀ l : list string, ∃ log : list (event num),
    for_each l (fun p => emit (FlushFromCache p)) w = Run (Ret ()) w log
    ∧ ∀ x, x ∈ log → ∃ p, x = FlushFromCache p).
  { induction l as [|p l (log & Hl & Hlog)].
    - exists []. split; [done|]. by intros ? ?%elem_of_nil.
    - exists (FlushFromCache p :: log). cbn [for_each]. run. rewrite Hl. cbn.
      split; [done|]. intros x [->|Hx]%elem_of_cons; eauto. }
  destruct (Hloop (cache_enabled (outer (train_network cb)))) as (log & Hl & Hlog).
  run. rewrite Hl. cbn.
  destruct (bool_decide _); cbn; eexists _, _; (split; [reflexivity|]);
    rewrite app_nil_r; intros x [->|Hx]%elem_of_cons; eauto.
Qed.

(** Lines 218-252 in closed form, up to the events of the cache flush. *)
Lemma save_and_log_run (cb : cb_params num) opt e step loss res w :
  let sm := self w in
  let optim_save_path := os_path_join (ckpt_dir sm) ("optim_" +:+ model_name sm +:+ ".ckpt") in
  let ckpt_save_path :=
    os_path_join (ckpt_dir sm)
      (model_name sm +:+ "-" +:+ py_str e +:+ "_" +:+ py_str step +:+ ".ckpt") in
  let tail :=
    PrintEpochTime :: Print rule ::
    match loss, log_txt_fp sm with
    | Some l, Some fp => [AppendResultLog fp e l res]
    | _, _ => []
    end in
  ∃ o w' (flush_log : list (event num)),
    (∀ x, x ∈ flush_log → x = Called "_flush_from_cache" ∨ ∃ p, x = FlushFromCache p)
    ∧ save_and_log cb opt e step loss res w =
      Run o w'
        (if bool_decide (rank_id sm = 0)
         then
           match py_mod e (ckpt_save_interval sm) with
           | None => []
           | Some m =>
               if (m =? 0) || (e =? epoch_num cb)
               then
                 flush_log ++ SaveCheckpoint SavedOptimizer optim_save_path ::
                 match res !! 0%nat with
                 | None => []
                 | Some x =>
                     ManagerSaveCkpoint (keep_checkpoint_max sm) x ckpt_save_path ::
                     (if bool_decide (ckpt_save_policy sm = Some "top_k")
                      then PrintTopK
                             (_ckpoint_filelist
                                (save_ckpoint (_manager sm) (keep_checkpoint_max sm) x
                                   ckpt_save_path))
                      else PrintSaving ckpt_save_path) :: tail
                 end
               else tail
           end
         else []).
Proof.
  intros sm optim_save_path ckpt_save_path tail. subst tail.
  assert (Hnil : ∀ x : event num, x ∈ [] → x = Called "_flush_from_cache"
                                          ∨ ∃ p, x = FlushFromCache p).
  { by intros ? ?%elem_of_nil. }
  unfold save_and_log. run. fold sm.
  destruct (bool_decide (rank_id sm = 0)); cbn; [|by eexists _, _, []].
  destruct (py_mod e (ckpt_save_interval sm)) as [m|]; cbn; [|by eexists _, _, []].
  destruct ((m =? 0) || (e =? epoch_num cb)); cbn.
  - destruct (flush_from_cache_run cb w) as (w1 & flog & Hflush & Hflog).
    assert (∃ w2 (flush_log : list (event num)),
      (if _need_flush_from_cache sm then _flush_from_cache cb else ret ()) w
      = Run (Ret ()) w2 flush_log
      ∧ ∀ x, x ∈ flush_log → x = Called "_flush_from_cache" ∨ ∃ p, x = FlushFromCache p)
      as (w2 & flush_log & Hrun & Hlog).
    { destruct (_need_flush_from_cache sm); [by eexists _, _ | by exists w, []]. }
    rewrite Hrun. cbn.
    fold optim_save_path ckpt_save_path.
    destruct (res !! 0%nat) as [x|]; cbn; [|by eexists _, _, flush_log].
    destruct (bool_decide (ckpt_save_policy sm = Some "top_k")); cbn;
      destruct loss as [l|]; cbn; try destruct (log_txt_fp sm) as [fp|]; cbn;
      (eexists _, _, flush_log; split; [done | f_equal; by rewrite <- ?app_assoc]).
  - destruct loss as [l|]; cbn; [|by eexists _, _, []].
    destruct (log_txt_fp sm) as [fp|]; cbn; by eexists _, _, [].
Qed.

(** The events of lines 218-252. *)
Lemma save_and_log_events (cb : cb_params num) opt e step loss res w x :
  let sm := self w in
  let optim_save_path := os_path_join (ckpt_dir sm) ("optim_" +:+ model_name sm +:+ ".ckpt") in
  let ckpt_save_path :=
    os_path_join (ckpt_dir sm)
      (model_name sm +:+ "-" +:+ py_str e +:+ "_" +:+ py_str step +:+ ".ckpt") in
  let saving :=
    rank_id sm = 0
    ∧ ∃ m, py_mod e (ckpt_save_interval sm) = Some m
           ∧ ((m =? 0) || (e =? epoch_num cb)) = true in
  x ∈ emitted (save_and_log cb opt e step loss res w) →
  (x = Called "_flush_from_cache" ∨ ∃ p, x = FlushFromCache p)
  ∨ (x = SaveCheckpoint SavedOptimizer optim_save_path ∧ saving)
  ∨ (∃ m, res !! 0%nat = Some m
          ∧ x = ManagerSaveCkpoint (keep_checkpoint_max sm) m ckpt_save_path ∧ saving)
  ∨ (∃ files, x = PrintTopK files)
  ∨ x = PrintSaving ckpt_save_path
  ∨ x = PrintEpochTime
  ∨ x = Print rule
  ∨ (∃ l fp, loss = Some l ∧ log_txt_fp sm = Some fp ∧ x = AppendResultLog fp e l res).
Proof.
  intros sm optim_save_path ckpt_save_path saving.
  destruct (save_and_log_run cb opt e step loss res w) as (o & w' & flog & Hflog & ->).
  cbn. fold sm optim_save_path ckpt_save_path.
  assert (Htail : x ∈ PrintEpochTime :: Print rule ::
                      match loss, log_txt_fp sm with
                      | Some l, Some fp => [AppendResultLog fp e l res]
                      | _, _ => []
                      end →
            x = PrintEpochTime ∨ x = Print rule
            ∨ ∃ l fp, loss = Some l ∧ log_txt_fp sm = Some fp
                      ∧ x = AppendResultLog fp e l res).
  { intros [->|[->|Hx]%elem_of_cons]%elem_of_cons; [by left | by right; left |].
    destruct loss as [l|]; [|by apply elem_of_nil in Hx].
    destruct (log_txt_fp sm) as [fp|]; [|by apply elem_of_nil in Hx].
    apply list_elem_of_singleton in Hx as ->. right; right. by eexists _, _. }
  destruct (bool_decide (rank_id sm = 0)) eqn:Hrank; [|by intros ?%elem_of_nil].
  apply bool_decide_eq_true in Hrank.
  destruct (py_mod e (ckpt_save_interval sm)) as [m|] eqn:Hm; [|by intros ?%elem_of_nil].
  destruct ((m =? 0) || (e =? epoch_num cb)) eqn:Hdue.
  - assert (Hsaving : saving) by (split; [done | by exists m]).
    intros [Hx|[->|Hx]%elem_of_cons]%elem_of_app.
    + left. by apply Hflog.
    + right; left. done.
    + destruct (res !! 0%nat) as [m0|]; [|by apply elem_of_nil in Hx].
      apply elem_of_cons in Hx as [->|[->|Hx]%elem_of_cons].
      * right; right; left. by exists m0.
      * destruct (bool_decide _); [right; right; right; left; by eexists |].
        right; right; right; right; left. done.
      * apply Htail in Hx as [->|[->|Hx]]; do 5 right; [by left | by right; left |].
        by right; right.
  - intros Hx. apply Htail in Hx as [->|[->|Hx]]; do 5 right; [by left | by right; left |].
    by right; right.
Qed.



Lemma lookup_map {A B} (g : A → B) (l : list A) i : map g l !! i = g <$> l !! i.
Proof. revert i. induction l as [|x l IH]; intros [|i]; cbn; auto. Qed.



(** ** StateMonitor.on_train_epoch_end: numbered checkpoints *)

Lemma validate_keeps_wf a ctx e : keeps (fun w => wf a (self w)) (validate ctx e).
Proof.
  unfold validate, validation_due, reduce_metrics, track_best, record_metrics.
  repeat (keeps_step || apply apply_eval_keeps_wf); try done.
  all: by apply wf_set_best.
Qed.

Lemma validate_no_checkpoint ctx e :
  quiet (fun _ : world num => True) checkpoint_event (validate ctx e).
Proof.
  unfold validate, validation_due, reduce_metrics, track_best, record_metrics,
    apply_eval.
  repeat quiet_step; done.
Qed.

Lemma validate_length ctx e w res :
  result (validate ctx e w) = Ret res → length res = length (metric_name (self w)).
Proof.
  destruct (validate_run ctx e w)
    as [(o & w' & log & Hv & _)|(res' & w' & log & Hlen & _ & _ & ->)].
  - revert Hv. unfold validate, validation_due, reduce_metrics. run.
    destruct (dataset_val (self w)); [|intros [= <- _ _] [= <-]; by rewrite length_map].
    destruct (val_start_epoch (self w) <=? e);
      [|intros [= <- _ _] [= <-]; by rewrite length_map].
    destruct (py_mod _ _); cbn; [|by intros [= <- _ _]].
    destruct (_ =? 0); cbn; [|intros [= <- _ _] [= <-]; by rewrite length_map].
    destruct (apply_eval ctx w) as [[mind_res|x] w1 l1]; cbn; [|by intros [= <- _ _]].
    destruct (fill_res _ _ _ _) as [res0|x] eqn:Hfill; cbn; [|by intros [= <- _ _]].
    apply fill_res_length in Hfill. rewrite length_map in Hfill.
    destruct (1 <? device_num (self w1)); cbn.
    + destruct (all_reduce (self w1)); cbn; [|by intros [= <- _ _]].
      destruct (track_best _ _ _ _) as [[[]|x] s l]; cbn; [|by intros [= <- _ _]].
      intros [= <- _ _] [= <-]. by rewrite length_map, AllReduceSum_length.
    + destruct (track_best _ _ _ _) as [[[]|x] s l]; cbn; [|by intros [= <- _ _]].
      by intros [= <- _ _] [= <-].
  - destruct (track_best _ _ _ _) as [[[]|x] s l]; cbn; [|done]. by intros [= <-].
Qed.

(** The run of a callback that has not been entered. *)
Lemma epoch_end_not_entered ctx w :
  summary_record (self w) = None →
  final (on_train_epoch_end ctx w) = w
  ∧ ∀ x, x ∈ emitted (on_train_epoch_end ctx w) →
      x = Called "_get_loss" ∨ ∃ msg, x = LoggerWarning msg.
Proof.
  intros Hsum. unfold on_train_epoch_end. run.
  destruct (get_loss_run (original_args ctx) w) as (loss & log0 & -> & Hlog0).
  rewrite Hsum. cbn. split; [done|]. intros x. rewrite app_nil_r. apply Hlog0.
Qed.





(** ** StateMonitor.on_train_epoch_end: the metric vector of a validation *)

Lemma fill_res_mapM (mind_res : gmap string num) names i res0 vs :
  mapM (fun n => mind_res !! n) names = Some vs →
  length res0 = (i + length names)%nat →
  fill_res mind_res names i res0 = Ret (take i res0 ++ map (fun v => num_mul_Z v 100) vs).
Proof.
  rewrite mapM_Some.
  revert i res0 vs. induction names as [|n names IH]; intros i res0 vs Hm Hlen.
  - apply Forall2_nil_inv_l in Hm as ->. cbn in *.
    rewrite app_nil_r, take_ge by lia. done.
  - apply Forall2_cons_inv_l in Hm as (v & vs' & Hv & Hvs & ->).
    cbn [fill_res]. rewrite Hv.
    rewrite (IH (S i) _ vs' Hvs) by (rewrite length_insert; cbn in Hlen; lia).
    f_equal. cbn in Hlen.
    rewrite (take_S_r _ _ (num_mul_Z v 100))
      by (apply list_lookup_insert_eq; lia).
    rewrite take_insert_ge by lia. by rewrite <- app_assoc.
Qed.

Lemma all_reduce_column (x : num) (peers : list (list num)) i :
  foldl (fun acc p => from_option (num_add acc) acc (p !! i)) x peers
  = foldl num_add x (omap (fun p => p !! i) peers).
Proof.
  revert x. induction peers as [|p peers IH]; intros x; [done|].
  cbn. destruct (p !! i); cbn; apply IH.
Qed.

(** The all-reduce sum divided by the number of devices is the mean. *)
Lemma all_reduce_mean (x : list num) peers :
  map (fun y => num_div_Z y (Z.of_nat (S (length peers)))) (AllReduceSum x peers)
  = mean_across x peers.
Proof.
  unfold AllReduceSum, mean_across. apply list_eq. intros i.
  rewrite lookup_map, !list_lookup_imap.
  destruct (x !! i); cbn; [|done]. by rewrite all_reduce_column.
Qed.

Lemma record_metrics_emitted sm res w d :
  summary_record sm = Some d →
  emitted (record_metrics sm res w)
  = map (fun nx => SummaryAddValue "scalar" ("val_" +:+ nx.1) (Some [nx.2]))
        (zip (metric_name sm) res)
  ∧ result (record_metrics sm res w) = Ret ().
Proof.
  intros Hsum. unfold record_metrics. rewrite Hsum.
  induction (zip (metric_name sm) res) as [|nx l [IH1 IH2]]; [done|].
  cbn [for_each]. run. destruct (for_each l _ w) as [o s' log]. cbn in *.
  by subst.
Qed.

(** On rank 0 the report prints the vector, and records each metric once
    the vector is not empty. *)
Lemma track_best_reports (cb : cb_params num) e res w d p :
  rank_id (self w) = 0 → summary_record (self w) = Some d →
  best_ckpt_path (self w) = Some p →
  let log := emitted (track_best cb e res w) in
  PrintValidation (zip (metric_name (self w)) res) ∈ log
  ∧ (∀ x, res ≠ [] → x ∈ emitted (record_metrics (self w) res w) → x ∈ log)
  ∧ (res ≠ [] → result (track_best cb e res w) = Ret ())
  ∧ (∀ x, x ∈ log → result_log_vector x = None).
Proof.
  intros Hrank Hsum Hpath log. subst log. unfold track_best. run.
  rewrite (bool_decide_true (rank_id (self w) = 0)), Hpath by done. cbn.
  destruct res as [|r0 res]; cbn.
  { split_and!; [apply list_elem_of_here | done | done |].
    intros x ->%list_elem_of_singleton. done. }
  assert (Hrec : ∀ w', emitted (record_metrics (self w) (r0 :: res) w')
                       = emitted (record_metrics (self w) (r0 :: res) w)
                       ∧ result (record_metrics (self w) (r0 :: res) w') = Ret ()).
  { intros w'.
    destruct (record_metrics_emitted (self w) (r0 :: res) w' d Hsum) as [-> ->].
    by destruct (record_metrics_emitted (self w) (r0 :: res) w d Hsum) as [-> _]. }
  assert (Hnolog : ∀ x, x ∈ emitted (record_metrics (self w) (r0 :: res) w) →
                        result_log_vector x = None).
  { destruct (record_metrics_emitted (self w) (r0 :: res) w d Hsum) as [-> _].
    intros x (nx & -> & _)%list_elem_of_fmap. done. }
  destruct (num_gt r0 (best_res (self w))); cbn;
    [destruct (save_best_ckpt (self w)); cbn|];
    match goal with
    | |- context [record_metrics (self w) (r0 :: res) ?w'] =>
        destruct (Hrec w') as [Hemit Hres];
        destruct (record_metrics (self w) (r0 :: res) w') as [o s' l];
        cbn in *; subst
    end;
    (split_and!;
     [ apply list_elem_of_here
     | intros x _ Hx; rewrite ?elem_of_cons; tauto
     | done
     | intros x Hx; repeat (apply elem_of_cons in Hx as [->|Hx]; [done|]);
       by apply Hnolog ]).
Qed.

Lemma observed_app (l1 l2 : list (event num)) :
  observed (l1 ++ l2)
  = match observed l1 with Some x => Some x | None => observed l2 end.
Proof. unfold observed. by rewrite omap_app, head_app. Qed.

Lemma apply_eval_no_result_log ctx :
  quiet (fun _ : world num => True) result_log_vector (apply_eval ctx).
Proof. unfold apply_eval. repeat quiet_step; done. Qed.

(** C5. The metric vector of a validation.  With more than one device it
    is the all-reduce sum of the local vectors (the metrics of the
    evaluation times 100) divided by [device_num], which is their mean
    across the devices when [device_num] is their number; with one device
    it is the local vector.  That vector is the one printed, recorded in
    the summary, compared with [best_res] and written to result.log. *)
Theorem validation_metric_is_device_mean a sm st ctx ds mind_res vs :
  reachable a sm → is_Some (summary_record sm) → rank_id sm = 0 →
  dataset_val sm = Some ds →
  let e := cur_epoch_num (original_args ctx) + last_epoch sm in
  val_start_epoch sm ≤ e →
  py_mod (e - val_start_epoch sm) (val_interval sm) = Some 0 →
  result (apply_eval ctx (World sm st)) = Ret mind_res →
  mapM (fun n => mind_res !! n) (metric_name sm) = Some vs →
  let local := map (fun v => num_mul_Z v 100) vs in
  let peers := peer_metrics ctx in
  let res :=
    if 1 <? device_num sm
    then map (fun x => num_div_Z x (device_num sm)) (AllReduceSum local peers)
    else local in
  let r := on_train_epoch_end ctx (World sm st) in
  (PrintValidation (zip (metric_name sm) res) ∈ emitted r
   ∧ observed (emitted r) = head res
   ∧ (∀ i n x, metric_name sm !! i = Some n → res !! i = Some x →
        SummaryAddValue "scalar" ("val_" +:+ n) (Some [x]) ∈ emitted r)
   ∧ best_res (self (final r))
     = match head res with
       | Some x => if num_gt x (best_res sm) then x else best_res sm
       | None => best_res sm
       end
   ∧ (∀ fp ep l res', AppendResultLog fp ep l res' ∈ emitted r → res' = res))
  ∧ (1 < device_num sm →
       res = map (fun x => num_div_Z x (device_num sm)) (AllReduceSum local peers)
       ∧ (device_num sm = Z.of_nat (S (length peers)) → res = mean_across local peers))
  ∧ (device_num sm = 1 → res = local).
Proof.
  intros Hreach [d Hsum] Hrank Hds e Hle Hm Hres Hvs local peers res r.
  pose proof (reachable_wf _ _ Hreach) as Hwf.
  (* what the vector is *)
  assert (Hwhat :
    (1 < device_num sm →
       res = map (fun x => num_div_Z x (device_num sm)) (AllReduceSum local peers)
       ∧ (device_num sm = Z.of_nat (S (length peers)) → res = mean_across local peers))
    ∧ (device_num sm = 1 → res = local)).
  { subst res. split.
    - intros Hdev. rewrite (proj2 (Z.ltb_lt _ _) Hdev). split; [done|].
      intros ->. apply all_reduce_mean.
    - by intros ->. }
  split; [|done].
  (* the run *)
  destruct (epoch_end_unfold ctx (World sm st) d Hsum)
    as (loss & log0 & Hlog0 & _ & Hrun).
  cbn [self] in Hrun. change (cur_epoch_of sm ctx) with e in Hrun.
  destruct (apply_eval_tracking ctx (World sm st)) as [Hview Hq].
  pose proof (apply_eval_no_result_log ctx (World sm st) I) as [Hnolog _].
  destruct (apply_eval ctx (World sm st)) as [o w' log] eqn:Hae. cbn in *. subst o.
  unfold tracking_view in Hview.
  injection Hview as Hbest Hepoch Hrk Hsave Hpath Hnames Hsum' Hdev Har.
  assert (Hfill : fill_res mind_res (metric_name sm) 0
                    (map (fun _ => num_zero) (metric_name sm)) = Ret local).
  { rewrite (fill_res_mapM mind_res (metric_name sm) 0 _ vs Hvs);
      [done | by rewrite length_map]. }
  assert (Hred : 1 < device_num (self w') → is_Some (all_reduce (self w'))).
  { rewrite Har, Hdev, (wf_all_reduce _ _ Hwf). intros Hlt.
    by rewrite (proj2 (Z.ltb_lt _ _) Hlt). }
  pose proof (validate_reported ctx e (World sm st) ds mind_res w' log local
                Hds Hle Hm Hae Hfill Hred) as Hv.
  cbn zeta in Hv. rewrite Hdev in Hv. fold peers res in Hv.
  assert (Hp : best_ckpt_path (self w')
               = Some (os_path_join (arg_ckpt_dir a) (arg_best_ckpt_name a))).
  { rewrite Hpath, (wf_best_ckpt_path _ _ Hwf). by rewrite bool_decide_true. }
  destruct (track_best_reports (original_args ctx) e res w' d _
              (eq_trans Hrk Hrank) (eq_trans Hsum' Hsum) Hp)
    as (Hprint & Hrec & Hret & Hnolog').
  rewrite Hnames in Hprint.
  assert (Hlen : length res = length (metric_name (self w'))).
  { rewrite Hnames. subst res local.
    assert (length vs = length (metric_name sm)) as <-.
    { apply mapM_Some, Forall2_length in Hvs. done. }
    destruct (1 <? device_num sm);
      rewrite ?length_map, ?AllReduceSum_length, ?length_map; done. }
  destruct (track_best_spec (original_args ctx) e res w' Hlen) as (Hobs & _).
  rewrite Hrk, (bool_decide_true (rank_id sm = 0)) in Hobs by done.
  set (t := track_best (original_args ctx) e res w') in *.
  (* the events of the call contain those of the report *)
  assert (Hsub : ∀ x, x ∈ emitted t → x ∈ emitted r).
  { subst r. rewrite Hrun, Hv. intros x Hx. destruct t as [[[]|y] w1 l1]; cbn in *.
    - destruct (save_and_log _ _ _ _ _ _ _) as [[[]|y] w2 l2]; cbn;
        rewrite !elem_of_app; tauto.
    - rewrite !elem_of_app; tauto. }
  assert (Hobs' : observed (emitted r) = head res).
  { subst r. rewrite Hrun, Hv.
    assert (Hhead : observed (log0 ++ [SummaryAddValue "scalar"
                       ("train_loss_" +:+ py_str (rank_id sm)) loss]) = None).
    { rewrite observed_app. unfold observed. cbn.
      assert (omap printed_metric log0 = []) as ->; [|done].
      clear -Hlog0. induction log0 as [|x log0 IH]; [done|]. cbn.
      destruct (Hlog0 x (list_elem_of_here _ _)) as [->|[msg ->]]; cbn;
        apply IH; intros; apply Hlog0; by apply list_elem_of_further. }
    assert (Hpre : observed (log ++ (if 1 <? device_num sm then [AllReduce local] else [])
                             ++ emitted t) = head res).
    { rewrite !observed_app. unfold observed at 1.
      rewrite (Hq _ _ tracking_printed_metric). cbn.
      destruct (1 <? device_num sm); cbn; by rewrite Hobs. }
    destruct t as [[[]|y] w1 l1]; cbn in *.
    + pose proof (save_and_log_tracking (original_args ctx)
                    (select_optimizer sm (original_args ctx)) e
                    (batch_num (original_args ctx)) loss res w1) as [_ Hq2].
      destruct (save_and_log _ _ _ _ _ _ _) as [[[]|y] w2 l2]; cbn in *;
        rewrite observed_app, Hhead, observed_app, Hpre;
        (destruct (head res); [done|]);
        rewrite ?observed_app; unfold observed;
        rewrite (Hq2 _ _ tracking_printed_metric); done.
    + by rewrite observed_app, Hhead, Hpre. }
  split_and!.
  - by apply Hsub.
  - done.
  - intros i n x Hn Hx. apply Hsub, Hrec.
    + intros ->. by rewrite lookup_nil in Hx.
    + destruct (record_metrics_emitted (self w') res w' d (eq_trans Hsum' Hsum)) as [-> _].
      rewrite Hnames. apply list_elem_of_fmap. exists (n, x). split; [done|].
      apply list_elem_of_lookup. exists i. by apply lookup_zip_Some.
  - destruct (epoch_end_tracking ctx sm st) as (_ & _ & Hb & _). fold r in Hb.
    rewrite Hb, Hobs'. destruct (head res) as [x|]; [|done].
    by destruct (num_gt x (best_res sm)).
  - intros fp ep l res' Hx.
    assert (Hnot : ∀ x, x ∈ log0 ++ [SummaryAddValue "scalar"
                       ("train_loss_" +:+ py_str (rank_id sm)) loss]
                      ++ log ++ (if 1 <? device_num sm then [AllReduce local] else [])
                      ++ emitted t → result_log_vector x = None).
    { intros x [Hy|[Hy%list_elem_of_singleton|[Hy|[Hy|Hy]%elem_of_app]%elem_of_app]%elem_of_app]%elem_of_app.
      - by destruct (Hlog0 _ Hy) as [->|[? ->]].
      - by subst.
      - destruct (result_log_vector x) eqn:Hc; [|done].
        assert (Hz : l0 ∈ omap result_log_vector log) by (apply list_elem_of_omap; eauto).
        rewrite Hnolog in Hz. by apply elem_of_nil in Hz.
      - destruct (1 <? device_num sm); [|by apply elem_of_nil in Hy].
        by apply list_elem_of_singleton in Hy as ->.
      - by apply Hnolog'. }
    subst r. rewrite Hrun, Hv in Hx. destruct t as [[[]|y] w1 l1]; cbn in *.
    + pose proof (save_and_log_events (original_args ctx)
                    (select_optimizer sm (original_args ctx)) e
                    (batch_num (original_args ctx)) loss res w1) as Hevents.
      destruct (save_and_log _ _ _ _ _ _ _) as [[[]|y] w2 l2]; cbn in *.
      * rewrite !app_assoc in Hx.
        apply elem_of_app in Hx as [[Hx|Hx]%elem_of_app|Hx%list_elem_of_singleton];
          [| |done].
        -- rewrite <- !app_assoc in Hx. by apply Hnot in Hx.
        -- apply Hevents in Hx.
           repeat destruct Hx as [Hx|Hx];
             repeat match goal with
                    | H : ∃ _, _ |- _ => destruct H
                    | H : _ ∧ _ |- _ => destruct H
                    end; try done.
           by simplify_eq.
      * rewrite !app_assoc in Hx. apply elem_of_app in Hx as [Hx|Hx].
        -- rewrite <- !app_assoc in Hx. by apply Hnot in Hx.
        -- apply Hevents in Hx.
           repeat destruct Hx as [Hx|Hx];
             repeat match goal with
                    | H : ∃ _, _ |- _ => destruct H
                    | H : _ ∧ _ |- _ => destruct H
                    end; try done.
           by simplify_eq.
    + rewrite <- !app_assoc in Hx. by apply Hnot in Hx.
Qed.

(** ** StateMonitor.on_train_step_end *)

Section StepEnd.
Context {opts : Optimizers num}.

(** The run of the hook in closed form, from the loss [_get_loss] finds. *)
Lemma step_end_run ctx w :
  let cb := original_args ctx in
  let sm := self w in
  ∃ loss (log : list (event num)),
    _get_loss cb w = Run (Ret loss) w log
    ∧ on_train_step_end ctx w =
      match py_mod (cur_step_num cb - 1) (batch_num cb) with
      | None => Run (Raise ZeroDivisionError) w []
      | Some c =>
          match py_mod (c + 1) (log_interval sm) with
          | None => Run (Raise ZeroDivisionError) w []
          | Some m =>
              if (m =? 0) || (batch_num cb <=? c + 1) || (c =? 0)
              then
                match current_lr (select_optimizer sm cb) with
                | Raise e => Run (Raise e) w []
                | Ret lr =>
                    match loss with
                    | None => Run (Raise (AttributeError "asnumpy")) w (Shared <$> log)
                    | Some l =>
                        Run (Ret ()) w
                          ((Shared <$> log) ++
                           [PrintStep (cur_epoch_num cb + last_epoch sm) (c + 1)
                              (batch_num cb) l lr; ResetStart])
                    end
                end
              else Run (Ret ()) w []
          end
      end.
Proof.
  intros cb sm.
  destruct (get_loss_run cb w) as (loss & log & Hloss & _).
  exists loss, log. split; [done|].
  unfold on_train_step_end, relabel. fold cb sm. run. fold sm.
  destruct (py_mod (cur_step_num cb - 1) (batch_num cb)) as [c|]; cbn; [|done].
  destruct (py_mod (c + 1) (log_interval sm)) as [m|]; cbn; [|done].
  destruct ((m =? 0) || (batch_num cb <=? c + 1) || (c =? 0)); cbn; [|done].
  destruct (current_lr (select_optimizer sm cb)) as [lr|e]; cbn; [|done].
  rewrite Hloss. cbn.
  destruct loss as [l|]; cbn; [|by rewrite app_nil_r].
  by replace (cur_epoch_num cb + last_epoch sm - 1 + 1)
    with (cur_epoch_num cb + last_epoch sm) by lia.
Qed.

Lemma elem_of_fmap_Shared (log : list (event num)) e b n l lr :
  PrintStep e b n l lr ∉ (Shared <$> log : list (report num)).
Proof. intros Hin. apply list_elem_of_fmap in Hin as (x & Hx & _). discriminate. Qed.

(** X1. With non-zero [batch_num] and [log_interval], a loss in the
    network output and a learning rate, [on_train_step_end] returns, and
    prints its line exactly when [(c + 1) % log_interval == 0] or
    [c + 1 >= batch_num] or [c == 0], for [c = (cur_step_num - 1) %
    batch_num]: then the events of [_get_loss] are followed by the line
    and by the write [self.start = time()], and otherwise there is no
    event at all and the callback is as it was.  The parameter data is as
    it was in both cases. *)
Theorem on_train_step_end_logs_iff ctx w c m l lr :
  let cb := original_args ctx in
  py_mod (cur_step_num cb - 1) (batch_num cb) = Some c →
  py_mod (c + 1) (log_interval (self w)) = Some m →
  result (_get_loss cb w) = Ret (Some l) →
  current_lr (select_optimizer (self w) cb) = Ret lr →
  let r := on_train_step_end ctx w in
  let line :=
    PrintStep (cur_epoch_num cb + last_epoch (self w)) (c + 1) (batch_num cb) l lr in
  let due := m = 0 ∨ batch_num cb ≤ c + 1 ∨ c = 0 in
  result r = Ret ()
  ∧ net (final r) = net w
  ∧ (line ∈ emitted r ↔ due)
  ∧ (due → emitted r = (Shared <$> emitted (_get_loss cb w)) ++ [line; ResetStart])
  ∧ (¬ due → emitted r = [] ∧ final r = w).
Proof.
  intros cb Hc Hm Hloss Hlr r line due. subst r cb.
  destruct (step_end_run ctx w) as (loss & log & Hrun & ->).
  set (cb := original_args ctx) in *.
  rewrite Hrun in Hloss |- *. cbn in Hloss. injection Hloss as ->.
  rewrite Hc, Hm, Hlr. cbn.
  destruct ((m =? 0) || (batch_num cb <=? c + 1) || (c =? 0)) eqn:Hdue; cbn.
  - assert (due) as Hd by (unfold due; lia).
    split_and!; [done | done | | done | done].
    split; [done|]. intros _. apply elem_of_app. right. apply list_elem_of_here.
  - assert (¬ due) as Hd by (unfold due; lia).
    split_and!; [done | done | | done | done].
    split; [|done]. intros Hin. by apply elem_of_nil in Hin.
Qed.

(** X2. Every line [on_train_step_end] prints shows the epoch
    [cur_epoch_num + last_epoch] (the epoch [on_train_epoch_end] names),
    the batch [(cur_step_num - 1) % batch_num + 1] and [batch_num]: with a
    positive [batch_num] the batch shown lies between 1 and [batch_num],
    whatever [cur_step_num] is.  The loss shown is the one [_get_loss]
    returns. *)
Theorem on_train_step_end_line_in_range ctx w e b n l lr :
  PrintStep e b n l lr ∈ emitted (on_train_step_end ctx w) →
  let cb := original_args ctx in
  e = cur_epoch_of (self w) ctx
  ∧ n = batch_num cb
  ∧ py_mod (cur_step_num cb - 1) (batch_num cb) = Some (b - 1)
  ∧ (0 < batch_num cb → 1 ≤ b ≤ batch_num cb)
  ∧ result (_get_loss cb w) = Ret (Some l)
  ∧ current_lr (select_optimizer (self w) cb) = Ret lr.
Proof.
  intros Hin cb. subst cb.
  destruct (step_end_run ctx w) as (loss & log & Hrun & Heq).
  set (cb := original_args ctx) in *.
  rewrite Heq in Hin. rewrite Hrun. clear Heq Hrun.
  unfold py_mod in *.
  destruct (Z.eqb_spec (batch_num cb) 0) as [Hz|Hnz]; cbn in Hin;
    [by apply elem_of_nil in Hin|].
  set (c := (cur_step_num cb - 1) mod batch_num cb) in *.
  destruct (Z.eqb_spec (log_interval (self w)) 0); cbn in Hin;
    [by apply elem_of_nil in Hin|].
  destruct (_ || _ || _); cbn in Hin; [|by apply elem_of_nil in Hin].
  destruct (current_lr _) as [lr'|]; cbn in Hin; [|by apply elem_of_nil in Hin].
  destruct loss as [l'|]; cbn in Hin; [|by apply elem_of_fmap_Shared in Hin].
  apply elem_of_app in Hin as [Hin|Hin]; [by apply elem_of_fmap_Shared in Hin|].
  apply elem_of_cons in Hin as [Hin|Hin]; [|by apply list_elem_of_singleton in Hin].
  injection Hin as -> -> -> -> ->.
  split_and!; try done.
  - f_equal. lia.
  - intros Hpos. pose proof (Z.mod_pos_bound (cur_step_num cb - 1) (batch_num cb) Hpos).
    lia.
Qed.

(** X3. With a positive [batch_num] and a non-zero [log_interval], the
    first and the last step of every epoch are logged, whatever the
    interval: the step with [(cur_step_num - 1) % batch_num == 0] prints
    batch 1, the step with [cur_step_num % batch_num == 0] prints batch
    [batch_num]. *)
Theorem on_train_step_end_logs_epoch_boundaries ctx w l lr :
  let cb := original_args ctx in
  0 < batch_num cb → log_interval (self w) ≠ 0 →
  result (_get_loss cb w) = Ret (Some l) →
  current_lr (select_optimizer (self w) cb) = Ret lr →
  let log := emitted (on_train_step_end ctx w) in
  let e := cur_epoch_num cb + last_epoch (self w) in
  ((cur_step_num cb - 1) mod batch_num cb = 0 →
     PrintStep e 1 (batch_num cb) l lr ∈ log)
  ∧ (cur_step_num cb mod batch_num cb = 0 →
       PrintStep e (batch_num cb) (batch_num cb) l lr ∈ log).
Proof.
  intros cb Hpos Hint Hloss Hlr log e. subst log cb.
  destruct (step_end_run ctx w) as (loss & log & Hrun & ->).
  set (cb := original_args ctx) in *.
  rewrite Hrun in Hloss. cbn in Hloss. injection Hloss as ->.
  rewrite Hlr. unfold py_mod.
  destruct (Z.eqb_spec (batch_num cb) 0) as [?|_]; [lia|].
  destruct (Z.eqb_spec (log_interval (self w)) 0) as [?|_]; [done|]. cbn.
  split.
  - intros ->. cbn. rewrite orb_true_r. cbn.
    apply elem_of_app. right. apply list_elem_of_here.
  - intros Hlast.
    assert ((cur_step_num cb - 1) mod batch_num cb = batch_num cb - 1) as ->.
    { apply Z.mod_divide in Hlast as [q Hq]; [|lia].
      symmetry. apply (Z.mod_unique_pos _ _ (q - 1)); lia. }
    replace (batch_num cb - 1 + 1) with (batch_num cb) by lia.
    rewrite (proj2 (Z.leb_le _ _)) by lia. rewrite orb_true_r. cbn.
    apply elem_of_app. right. apply list_elem_of_here.
Qed.

(** X4. A zero [batch_num] or a zero [log_interval] makes every call of
    [on_train_step_end] raise ZeroDivisionError: the remainders are taken
    before anything else, so nothing is printed, on the first step of an
    epoch too. *)
Theorem on_train_step_end_zero_division ctx w :
  batch_num (original_args ctx) = 0 ∨ log_interval (self w) = 0 →
  let r := on_train_step_end ctx w in
  result r = Raise ZeroDivisionError ∧ emitted r = [] ∧ final r = w.
Proof.
  intros Hz r. subst r.
  destruct (step_end_run ctx w) as (loss & log & _ & ->).
  unfold py_mod.
  destruct (Z.eqb_spec (batch_num (original_args ctx)) 0) as [?|Hb]; cbn; [done|].
  destruct Hz as [?| ->]; done.
Qed.

(** X5. When the line is due and the network output carries no loss
    ([_get_loss] returns None), [on_train_step_end] raises AttributeError
    at [loss.asnumpy()]: the warning of [_get_loss] is logged and no line
    is printed.  A step whose line is not due returns without looking at
    the output. *)
Theorem on_train_step_end_without_loss ctx w c m lr :
  let cb := original_args ctx in
  py_mod (cur_step_num cb - 1) (batch_num cb) = Some c →
  py_mod (c + 1) (log_interval (self w)) = Some m →
  result (_get_loss cb w) = Ret None →
  current_lr (select_optimizer (self w) cb) = Ret lr →
  let r := on_train_step_end ctx w in
  let due := m = 0 ∨ batch_num cb ≤ c + 1 ∨ c = 0 in
  (due →
     result r = Raise (AttributeError "asnumpy")
     ∧ (∃ msg, Shared (LoggerWarning msg) ∈ emitted r)
     ∧ ∀ e b n l lr', PrintStep e b n l lr' ∉ emitted r)
  ∧ (¬ due → result r = Ret () ∧ emitted r = []).
Proof.
  intros cb Hc Hm Hloss Hlr r due. subst r cb.
  destruct (step_end_run ctx w) as (loss & log & Hrun & ->).
  set (cb := original_args ctx) in *.
  rewrite Hrun in Hloss. cbn in Hloss. injection Hloss as ->.
  rewrite Hc, Hm, Hlr. cbn.
  destruct ((m =? 0) || (batch_num cb <=? c + 1) || (c =? 0)) eqn:Hdue; cbn.
  - split; [|unfold due; lia]. intros _. split_and!; [done| |].
    + revert Hrun. unfold _get_loss.
      destruct (net_outputs cb) as [|z|x|t|[|l0 ls]|[|l0 ls]|ty]; run;
        intros [= <-]; eexists; cbn;
        apply list_elem_of_further, list_elem_of_here.
    + intros e b n l lr'. apply elem_of_fmap_Shared.
  - split; [unfold due; lia|done].
Qed.

End StepEnd.

(** ** str.split, and the dictionary of the EMA parameters *)

Lemma split_from_skip sep p cur r :
  split_from sep (String.length p) cur (p +:+ r) = split_from sep 0 cur r.
Proof.
  induction p as [|c p IH].
  - done.
  - change (String c p +:+ r) with (String c (p +:+ r)). cbn. apply IH.
Qed.

Lemma prefix_append sep s :
  String.prefix sep s = true → ∃ r, s = sep +:+ r.
Proof.
  revert s. induction sep as [|a sep IH]; intros s; cbn.
  - intros _. by exists s.
  - destruct s as [|b s]; cbn; [by destruct a|].
    destruct (Ascii.ascii_dec a b) as [->|]; [|done].
    intros (r & ->)%IH. by exists r.
Qed.

Lemma prefix_of_append sep r : String.prefix sep (sep +:+ r) = true.
Proof.
  induction sep as [|a sep IH].
  - by destruct ("" +:+ r).
  - change (String a sep +:+ r) with (String a (sep +:+ r)). cbn.
    by destruct (Ascii.ascii_dec a a).
Qed.

Lemma split_from_nonempty sep k cur s : split_from sep k cur s ≠ [].
Proof.
  revert k cur. induction s as [|c s IH]; intros k cur; cbn [split_from]; [done|].
  destruct k; [|apply IH].
  destruct (String.prefix sep (String c s)); [done|apply IH].
Qed.

(** At an occurrence of the separator the piece read so far ends. *)
Lemma split_from_match a sep cur r :
  split_from (String a sep) 0 cur (String a sep +:+ r)
  = String.rev cur :: split_from (String a sep) 0 "" r.
Proof.
  change (String a sep +:+ r) with (String a (sep +:+ r)).
  cbn [split_from].
  change (String a (sep +:+ r)) with (String a sep +:+ r).
  rewrite prefix_of_append.
  replace (String.length (String a sep) - 1)%nat with (String.length sep) by (cbn; lia).
  by rewrite split_from_skip.
Qed.

Lemma rev_app_append s acc t : String.rev_app s acc +:+ t = String.rev_app s (acc +:+ t).
Proof. revert acc. induction s as [|c s IH]; intros acc; cbn; [done|]. by rewrite IH. Qed.

(** A string without the separator is one piece. *)
Lemma split_from_absent a sep cur s :
  contains (String a sep) s = false →
  split_from (String a sep) 0 cur s = [String.rev cur +:+ s].
Proof.
  revert cur. induction s as [|c s IH]; intros cur Hno.
  - cbn. unfold String.rev. rewrite rev_app_append. done.
  - cbn [contains] in Hno. apply orb_false_iff in Hno as [Hp Hno].
    cbn [split_from]. rewrite Hp, (IH _ Hno).
    unfold String.rev. cbn. by rewrite !rev_app_append.
Qed.

(** [s.split(sep)[1]] raises IndexError exactly when [sep] is not in [s]. *)
Lemma split_second_None a sep s :
  split (String a sep) s !! 1%nat = None ↔ contains (String a sep) s = false.
Proof.
  unfold split. generalize EmptyString at 1 as cur.
  induction s as [|c s IH]; intros cur.
  - cbn. by destruct a.
  - cbn [split_from contains].
    destruct (String.prefix (String a sep) (String c s)) eqn:Hp; cbn [orb].
    + split; [|done].
      destruct (split_from (String a sep) (String.length (String a sep) - 1) "" s) eqn:Hs;
        [by apply split_from_nonempty in Hs | done].
    + apply IH.
Qed.

(** [("ema." + n).split("ema.")[1]] is [n] when "ema." is not in [n]. *)
Lemma split_shadow n :
  contains "ema." n = false → split "ema." ("ema." +:+ n) !! 1%nat = Some n.
Proof.
  intros Hno. unfold split.
  rewrite split_from_match, (split_from_absent _ _ "" n Hno).
  done.
Qed.

Lemma collect_ema_shadows_from names st d0 :
  (∀ name, name ∈ names → startswith "ema" name = true →
     ∃ n, name = "ema." +:+ n ∧ contains "ema." n = false) →
  ∃ d, collect_ema names st d0 = Ret d
       ∧ ∀ n, d !! n = if decide ("ema." +:+ n ∈ names)
                       then Some (st ("ema." +:+ n)) else d0 !! n.
Proof.
  revert d0. induction names as [|name names IH]; intros d0 Hnames.
  - exists d0. split; [done|]. intros n. destruct (decide _) as [Hin|]; [|done].
    by apply elem_of_nil in Hin.
  - cbn [collect_ema].
    assert (∀ x, x ∈ names → startswith "ema" x = true →
                 ∃ n, x = "ema." +:+ n ∧ contains "ema." n = false) as Hrest.
    { intros x Hx. apply Hnames. by apply list_elem_of_further. }
    destruct (startswith "ema" name) eqn:Hstart.
    + destruct (Hnames name (list_elem_of_here _ _) Hstart) as (n0 & -> & Hno).
      rewrite (split_shadow _ Hno).
      destruct (IH (<[n0 := st ("ema." +:+ n0)]> d0) Hrest) as (d & -> & Hd).
      exists d. split; [done|]. intros n. rewrite Hd.
      destruct (decide ("ema." +:+ n ∈ names)) as [Hin|Hnin].
      * rewrite decide_True; [done|]. by apply list_elem_of_further.
      * destruct (decide (n = n0)) as [->|Hne].
        -- rewrite lookup_insert_eq, decide_True; [done|]. apply list_elem_of_here.
        -- rewrite lookup_insert_ne by done. rewrite decide_False; [done|].
           intros [Heq|Hin]%elem_of_cons; [|done].
           by apply String.app_inj in Heq.
    + destruct (IH d0 Hrest) as (d & -> & Hd).
      exists d. split; [done|]. intros n. rewrite Hd.
      destruct (decide ("ema." +:+ n ∈ names)) as [Hin|Hnin].
      * rewrite decide_True; [done|]. by apply list_elem_of_further.
      * rewrite decide_False; [done|].
        intros [Heq|Hin]%elem_of_cons; [|done].
        subst name. unfold startswith in Hstart.
        change ("ema." +:+ n) with ("ema" +:+ ("." +:+ n)) in Hstart.
        by rewrite prefix_of_append in Hstart.
Qed.

Lemma collect_ema_raises names st d0 name :
  name ∈ names → startswith "ema" name = true → contains "ema." name = false →
  collect_ema names st d0 = Raise IndexError.
Proof.
  intros Hin Hstart Hno. revert d0.
  induction names as [|x names IH]; intros d0; [by apply elem_of_nil in Hin|].
  cbn [collect_ema].
  apply elem_of_cons in Hin as [<-|Hin].
  - rewrite Hstart. by rewrite (proj2 (split_second_None _ _ name) Hno).
  - destruct (startswith "ema" x); [|by apply IH].
    destruct (split "ema." x !! 1%nat); [by apply IH|done].
Qed.

(** X11. The dictionary [apply_eval] loads for the evaluation.  When each
    parameter of the cell whose name starts with "ema" is named "ema." + n
    with no further "ema." in n, the dictionary holds, for exactly those
    n, the data of the parameter "ema." + n; the call returns what
    [Model.eval] gives on the network [load_param_into_net] leaves with
    that dictionary, or raises what [load_param_into_net] raises. *)
Theorem apply_eval_loads_shadows a sm st ctx :
  reachable a sm → ema sm = true →
  let net_cell :=
    if dataset_sink_mode sm
    then network (train_network (original_args ctx))
    else outer (train_network (original_args ctx)) in
  (∀ name, name ∈ get_parameters net_cell → startswith "ema" name = true →
     ∃ n, name = "ema." +:+ n ∧ contains "ema." n = false) →
  ∃ ema_dict : gmap string (list num),
    (∀ n, ema_dict !! n =
          if decide ("ema." +:+ n ∈ get_parameters net_cell)
          then Some (st ("ema." +:+ n)) else None)
    ∧ result (apply_eval ctx (World sm st))
      = match load_param_into_net (network (model_train_network (model sm)))
                ema_dict st with
        | (loaded, None) => model_eval (dataset_val sm) loaded
        | (_, Some e) => Raise e
        end.
Proof.
  intros Hreach Hema net_cell Hnames. apply reachable_wf in Hreach.
  destruct (collect_ema_shadows_from _ st ∅ Hnames) as (d & Hd & Hlook).
  exists d. split.
  - intros n. rewrite Hlook. by destruct (decide _).
  - rewrite (apply_eval_ema_run a ctx sm st Hreach Hema). fold net_cell.
    rewrite Hd. cbn.
    destruct (load_param_into_net _ d st) as [loaded [e|]]; cbn; [done|].
    by destruct (model_eval (dataset_val sm) loaded).
Qed.

(** X12. A parameter whose name starts with "ema" without containing
    "ema." makes [apply_eval] raise IndexError at [split("ema.")[1]]: the
    evaluation is not run, the parameter data is as it was, and the swap
    buffer holds the data of the online parameters. *)
Theorem apply_eval_raises_on_bare_ema_prefix a sm st ctx name :
  reachable a sm → ema sm = true →
  let net_cell :=
    if dataset_sink_mode sm
    then network (train_network (original_args ctx))
    else outer (train_network (original_args ctx)) in
  name ∈ get_parameters net_cell →
  startswith "ema" name = true → contains "ema." name = false →
  let r := apply_eval ctx (World sm st) in
  result r = Raise IndexError
  ∧ net (final r) = st
  ∧ emitted r = [Called "apply_eval"]
  ∧ swap_params (self (final r))
    = Some (map st (get_parameters (outer (model_train_network (arg_model a))))).
Proof.
  intros Hreach Hema net_cell Hin Hstart Hno r. subst r.
  apply reachable_wf in Hreach.
  rewrite (apply_eval_ema_run a ctx sm st Hreach Hema). fold net_cell.
  by rewrite (collect_ema_raises _ st ∅ name Hin Hstart Hno).
Qed.

(** ** StateMonitor.__init__ *)

(** X8. The constructor changes no parameter data, and it returns a
    callback exactly when [rank_id] is None or [device_num] is given.
    With a [rank_id] and [device_num=None] (its default) the test
    [self.device_num > 1] raises TypeError; on rank 0 the directory and
    the header of result.log have been written by then. *)
Theorem init_needs_device_num_with_rank_id (a : init_args) data :
  let r := __init__ a data in
  final r = data
  ∧ ((∃ sm, result r = Ret sm) ↔ arg_rank_id a = None ∨ is_Some (arg_device_num a))
  ∧ (∀ rk, arg_rank_id a = Some rk → arg_device_num a = None →
       result r = Raise TypeError
       ∧ (rk = 0 →
          emitted r = [MakeDirsIfMissing (arg_ckpt_dir a);
                       FileWrite (os_path_join (arg_ckpt_dir a) "result.log")
                         (result_log_header (arg_metric_name a))])
       ∧ (rk ≠ 0 → emitted r = [])).
Proof.
  intros r. subst r. unfold __init__. run.
  destruct (arg_rank_id a) as [rk|] eqn:Hr; cbn.
  - destruct (arg_device_num a) as [d|] eqn:Hd; cbn.
    + destruct (bool_decide (rk = 0)); cbn;
        (split_and!; [done | split; [intros _; right; eauto | intros _; eauto] | done]).
    + destruct (decide (rk = 0)) as [Hz|Hz].
      * rewrite (bool_decide_true _ Hz). cbn.
        split_and!; [done | split; [by intros [? [=]] | by intros [[=]|[? [=]]]] |].
        by intros ? [= <-] _.
      * rewrite (bool_decide_false _ Hz). cbn.
        split_and!; [done | split; [by intros [? [=]] | by intros [[=]|[? [=]]]] |].
        by intros ? [= <-] _.
  - split_and!; [done | split; [intros _; by left | intros _; eauto] | done].
Qed.

Lemma omap_nil_elem {A B} (f : A → option B) (l : list A) x :
  omap f l = [] → x ∈ l → f x = None.
Proof.
  intros Hnil Hx. destruct (f x) as [y|] eqn:Hy; [|done].
  assert (y ∈ omap f l) as Hin by (apply list_elem_of_omap; eauto).
  rewrite Hnil in Hin. by apply elem_of_nil in Hin.
Qed.

(** On a rank other than 0 an epoch end shows the events of every rank
    only, and leaves the best result, the manager and the flag alone. *)
Lemma epoch_end_other_rank ctx rk b e m f :
  rk ≠ 0 →
  quiet (fun w => rank_id (self w) = rk ∧ best_res (self w) = b ∧ best_epoch (self w) = e
                  ∧ _manager (self w) = m ∧ _need_flush_from_cache (self w) = f)
        (rank_zero_event rk) (on_train_epoch_end ctx).
Proof.
  intros Hrk.
  unfold on_train_epoch_end, _get_loss, validate, validation_due, reduce_metrics,
    track_best, record_metrics, save_and_log, _flush_from_cache, apply_eval.
  repeat quiet_step; try done.
  all: try (destruct s; cbn in *; done).
  all: try (destruct s0; cbn in *; done).
  all: try match goal with
       | Hz : bool_decide (rank_id (self ?w0) = 0) = true,
         Hp : rank_id (self ?w0) = _ ∧ _ |- _ =>
           apply bool_decide_eq_true in Hz; destruct Hp as [Hp _]; congruence
       end.
  all: match goal with
       | Hp : rank_id (self ?w0) = _ ∧ _ |- _ => destruct Hp as [-> _]
       end.
  all: cbn; by rewrite bool_decide_true.
Qed.

(** X9. Only rank 0 writes.  With a [rank_id] other than 0 the
    constructor creates no directory and no file, and an epoch end of the
    callback saves no checkpoint, prints nothing and appends nothing to
    result.log: its events are the marks of the method calls, warnings of
    the logger, the training loss and the step of the summary, the
    evaluation and the all-reduce.  The best result, the checkpoint
    manager and the flush flag stay as they are. *)
Theorem only_rank_zero_writes a rk sm ctx st :
  arg_rank_id a = Some rk → rk ≠ 0 → reachable a sm →
  let r := on_train_epoch_end ctx (World sm st) in
  let sm' := self (final r) in
  (∀ data, emitted (__init__ a data) = [])
  ∧ (∀ x, x ∈ emitted r →
       (∃ name, x = Called name) ∨ (∃ msg, x = LoggerWarning msg)
       ∨ (∃ v, x = SummaryAddValue "scalar" ("train_loss_" +:+ py_str rk) v)
       ∨ (∃ step, x = SummaryRecordStep step)
       ∨ (∃ d, x = ModelEval d) ∨ (∃ v, x = AllReduce v))
  ∧ best_res sm' = best_res sm ∧ best_epoch sm' = best_epoch sm
  ∧ _manager sm' = _manager sm
  ∧ _need_flush_from_cache sm' = _need_flush_from_cache sm.
Proof.
  intros Hr Hrk Hreach r sm'. subst r sm'.
  apply reachable_wf in Hreach.
  pose proof (wf_rank_id _ _ Hreach) as Hrank. rewrite Hr in Hrank. cbn in Hrank.
  split.
  { intros data. unfold __init__. run. rewrite Hr. cbn.
    rewrite (bool_decide_false _ Hrk). cbn. by destruct (arg_device_num a). }
  destruct (epoch_end_other_rank ctx rk (best_res sm) (best_epoch sm) (_manager sm)
              (_need_flush_from_cache sm) Hrk (World sm st))
    as (Hquiet & _ & Hb & He & Hm & Hf); [done|].
  split_and!; [|done..].
  intros x Hx. pose proof (omap_nil_elem _ _ _ Hquiet Hx) as Hnone.
  destruct x; cbn in Hnone; try discriminate; eauto 10.
  case_bool_decide as Hn; [|discriminate]. destruct Hn as [-> ->]. eauto 10.
Qed.

(** ** StateMonitor.__enter__ and __exit__ *)

(** X10. A StateMonitor is to be used as a context manager.  On a callback
    fresh from the constructor, [on_train_epoch_end] raises AttributeError
    for [summary_record] once the loss is computed, with no validation, no
    checkpoint and no change of the callback, and [__exit__] raises it too.
    [__enter__] opens the summary record on [summary_dir]; [__exit__] then
    closes it and leaves the callback entered. *)
Theorem hooks_require_enter a data sm ctx st :
  result (__init__ a data) = Ret sm →
  let w := World sm st in
  let entered := final (__enter__ w) in
  (result (on_train_epoch_end ctx w) = Raise (AttributeError "summary_record")
   ∧ final (on_train_epoch_end ctx w) = w
   ∧ (∀ x, x ∈ emitted (on_train_epoch_end ctx w) →
        x = Called "_get_loss" ∨ ∃ msg, x = LoggerWarning msg)
   ∧ __exit__ w = Run (Raise (AttributeError "summary_record")) w [])
  ∧ __enter__ w = Run (Ret ()) entered [SummaryOpen (arg_summary_dir a)]
  ∧ summary_record (self entered) = Some (arg_summary_dir a)
  ∧ net entered = st
  ∧ __exit__ entered = Run (Ret ()) entered [SummaryClose].
Proof.
  intros Hinit w entered. subst entered.
  assert (summary_dir sm = arg_summary_dir a) as Hdir.
  { revert Hinit. unfold __init__. run.
    destruct (bool_decide _); cbn;
      (destruct (arg_rank_id a); cbn; [destruct (arg_device_num a); cbn|]);
      by intros [= <-]. }
  apply init_wf in Hinit as (Hwf & _ & _ & Hsr & _).
  split_and!.
  - unfold on_train_epoch_end. destruct (get_loss_run (original_args ctx) w) as (l & log & Hl & _).
    run. rewrite Hl. cbn. by rewrite Hsr.
  - by apply epoch_end_not_entered.
  - by apply epoch_end_not_entered.
  - unfold __exit__. run. by rewrite Hsr.
  - unfold __enter__. run. by rewrite Hdir.
  - unfold __enter__. run. by rewrite Hdir.
  - done.
  - unfold __enter__, __exit__. run. done.
Qed.

(** ** StateMonitor.on_train_epoch_end: the two halves in closed form *)

Lemma for_each_emit {S E A} (g : A → E) (l : list A) (s : S) :
  for_each l (fun x => emit (g x)) s = Run (Ret ()) s (g <$> l).
Proof.
  induction l as [|x l IH]; [done|].
  cbn [for_each]. unfold mbind, M_bind, bind. cbn. by rewrite IH.
Qed.

(** [_flush_from_cache] flushes each parameter with [cache_enable], in
    order, and clears the flag exactly when there is none. *)
Lemma flush_from_cache_closed (cb : cb_params num) w :
  let cached := cache_enabled (outer (train_network cb)) in
  _flush_from_cache cb w =
  Run (Ret ())
      (if bool_decide (cached = []) then on_self (set_need_flush false) w else w)
      (Called "_flush_from_cache" :: (FlushFromCache <$> cached)).
Proof.
  intros cached. unfold _flush_from_cache. fold cached.
  unfold mbind, M_bind, bind at 1. cbn.
  unfold bind. rewrite for_each_emit. cbn.
  destruct (bool_decide (cached = [])); cbn; by rewrite app_nil_r.
Qed.

Lemma save_and_log_closed (cb : cb_params num) opt e step loss res w :
  let sm := self w in
  let optim_save_path := os_path_join (ckpt_dir sm) ("optim_" +:+ model_name sm +:+ ".ckpt") in
  let ckpt_save_path :=
    os_path_join (ckpt_dir sm)
      (model_name sm +:+ "-" +:+ py_str e +:+ "_" +:+ py_str step +:+ ".ckpt") in
  let cached := cache_enabled (outer (train_network cb)) in
  let w1 :=
    if _need_flush_from_cache sm && bool_decide (cached = [])
    then on_self (set_need_flush false) w else w in
  let flush_log :=
    if _need_flush_from_cache sm
    then Called "_flush_from_cache" :: (FlushFromCache <$> cached) else [] in
  save_and_log cb opt e step loss res w =
  if bool_decide (rank_id sm = 0)
  then
    match py_mod e (ckpt_save_interval sm) with
    | None => Run (Raise ZeroDivisionError) w []
    | Some m =>
        if (m =? 0) || (e =? epoch_num cb)
        then
          match res !! 0%nat with
          | None =>
              Run (Raise IndexError) w1
                (flush_log ++ [SaveCheckpoint SavedOptimizer optim_save_path])
          | Some x =>
              let manager :=
                save_ckpoint (_manager sm) (keep_checkpoint_max sm) x ckpt_save_path in
              log_tail (log_txt_fp sm) e loss res
                (flush_log ++
                 [SaveCheckpoint SavedOptimizer optim_save_path;
                  ManagerSaveCkpoint (keep_checkpoint_max sm) x ckpt_save_path;
                  if bool_decide (ckpt_save_policy sm = Some "top_k")
                  then PrintTopK (_ckpoint_filelist manager)
                  else PrintSaving ckpt_save_path])
                (on_self (set_manager manager) w1)
          end
        else log_tail (log_txt_fp sm) e loss res [] w
    end
  else Run (Ret ()) w [].
Proof.
  intros sm optim_save_path ckpt_save_path cached w1 flush_log.
  subst w1 flush_log. unfold log_tail.
  pose proof (flush_from_cache_closed cb w) as Hflush. cbn zeta in Hflush. fold cached in Hflush.
  unfold save_and_log. run. fold sm.
  destruct (bool_decide (rank_id sm = 0)); cbn; [|done].
  destruct (py_mod e (ckpt_save_interval sm)) as [m|]; cbn; [|done].
  destruct ((m =? 0) || (e =? epoch_num cb)); cbn.
  - fold optim_save_path ckpt_save_path.
    destruct (_need_flush_from_cache sm); cbn.
    + rewrite Hflush. cbn.
      destruct (bool_decide (cached = [])); cbn;
        (destruct (res !! 0%nat) as [x|]; cbn; [|done]);
        destruct (bool_decide (ckpt_save_policy sm = Some "top_k")); cbn;
        destruct loss as [l|]; cbn; try destruct (log_txt_fp sm) as [fp|]; cbn;
        by rewrite <- ?app_assoc.
    + destruct (res !! 0%nat) as [x|]; cbn; [|done].
      destruct (bool_decide (ckpt_save_policy sm = Some "top_k")); cbn;
        destruct loss as [l|]; cbn; try destruct (log_txt_fp sm) as [fp|]; cbn; done.
  - destruct loss as [l|]; cbn; [|done].
    by destruct (log_txt_fp sm) as [fp|].
Qed.

(** Lines 186-215 as the runs of their parts. *)
Lemma validate_closed ctx e w :
  let sm := self w in
  let zeros := map (fun _ => num_zero) (metric_name sm) in
  validate ctx e w =
  match dataset_val sm with
  | None => Run (Ret zeros) w []
  | Some _ =>
      if val_start_epoch sm <=? e
      then
        match py_mod (e - val_start_epoch sm) (val_interval sm) with
        | None => Run (Raise ZeroDivisionError) w []
        | Some m =>
            if m =? 0
            then
              match apply_eval ctx w with
              | Run (Raise x) w' log => Run (Raise x) w' log
              | Run (Ret mind_res) w' log =>
                  match fill_res mind_res (metric_name sm) 0 zeros with
                  | Raise x => Run (Raise x) w' log
                  | Ret local =>
                      match reduce_metrics ctx local w' with
                      | Run (Raise x) w'' l2 => Run (Raise x) w'' (log ++ l2)
                      | Run (Ret res) w'' l2 =>
                          match track_best (original_args ctx) e res w'' with
                          | Run o s l3 =>
                              Run (match o with Ret _ => Ret res | Raise x => Raise x end)
                                  s (log ++ l2 ++ l3)
                          end
                      end
                  end
              end
            else Run (Ret zeros) w []
        end
      else Run (Ret zeros) w []
  end.
Proof.
  intros sm zeros. unfold validate, validation_due.
  unfold mbind, mret, M_bind, M_ret, bind, ret, get, expect, raise, lift, prepend.
  cbn. fold sm zeros.
  destruct (dataset_val sm); [|done].
  destruct (val_start_epoch sm <=? e); cbn; [|done].
  destruct (py_mod (e - val_start_epoch sm) (val_interval sm)) as [m|]; cbn; [|done].
  destruct (m =? 0); cbn; [|done].
  destruct (apply_eval ctx w) as [[mind_res|x] w' log]; cbn; [|done].
  destruct (fill_res mind_res (metric_name sm) 0 zeros) as [local|x]; cbn;
    [|by rewrite app_nil_r].
  destruct (reduce_metrics ctx local w') as [[res|x] w'' l2]; cbn; [|done].
  destruct (track_best (original_args ctx) e res w'') as [[[]|x] s l3]; cbn;
    by rewrite ?app_nil_r.
Qed.

(** An epoch end of an entered callback, from the runs of its parts. *)
Lemma epoch_end_parts ctx w d :
  summary_record (self w) = Some d →
  let cb := original_args ctx in
  let e := cur_epoch_of (self w) ctx in
  let opt := select_optimizer (self w) cb in
  ∃ loss (log0 : list (event num)),
    _get_loss cb w = Run (Ret loss) w log0
    ∧ (∀ x, x ∈ log0 → x = Called "_get_loss" ∨ ∃ msg, x = LoggerWarning msg)
    ∧ let head_log :=
        log0 ++ [SummaryAddValue "scalar" ("train_loss_" +:+ py_str (rank_id (self w))) loss] in
      let v := validate ctx e w in
      match result v with
      | Raise x => on_train_epoch_end ctx w = Run (Raise x) (final v) (head_log ++ emitted v)
      | Ret res =>
          let s := save_and_log cb opt e (batch_num cb) loss res (final v) in
          on_train_epoch_end ctx w =
          Run (result s) (final s)
              (head_log ++ emitted v ++ emitted s ++
               match result s with
               | Ret _ => [SummaryRecordStep (global_step opt)]
               | Raise _ => []
               end)
      end.
Proof.
  intros Hsum cb e opt. unfold on_train_epoch_end. run.
  destruct (get_loss_run (original_args ctx) w) as (loss & log0 & Hrun & Hlog0).
  exists loss, log0. rewrite Hrun, Hsum. cbn.
  split_and!; [done | done |].
  change (cur_epoch_num (original_args ctx) + last_epoch (self w)) with e.
  fold cb opt.
  destruct (validate ctx e w) as [[res|x] w1 l1]; cbn.
  - destruct (save_and_log _ _ _ _ _ _ _) as [[[]|x] w2 l2]; cbn;
      f_equal; by rewrite <- ?app_assoc, ?app_nil_r.
  - f_equal. by rewrite <- ?app_assoc.
Qed.

(** ** The best result and the metrics the validations compute *)

(** [validate] is [measure] followed by the report of the vector. *)
Lemma measure_run ctx e w :
  ∃ o w' (log : list (event num)),
    measure ctx e w = Run o w' log
    ∧ tracking_view (self w') = tracking_view (self w)
    ∧ (∀ X (f : event num → option X), tracking f → omap f log = [])
    ∧ (∀ res, o = Ret (Some res) → length res = length (metric_name (self w)))
    ∧ validate ctx e w =
      match o with
      | Ret (Some res) =>
          match track_best (original_args ctx) e res w' with
          | Run o' s l =>
              Run (match o' with Ret _ => Ret res | Raise x => Raise x end) s (log ++ l)
          end
      | Ret None => Run (Ret (map (fun _ => num_zero) (metric_name (self w)))) w' log
      | Raise x => Run (Raise x) w' log
      end.
Proof.
  destruct (apply_eval_tracking ctx w) as [Hview Hq].
  unfold measure, validate, validation_due, reduce_metrics. run.
  destruct (dataset_val (self w)) as [ds|]; [|by eexists _, _, _].
  destruct (val_start_epoch (self w) <=? e); [|by eexists _, _, _].
  destruct (py_mod _ _) as [m|]; cbn; [|by eexists _, _, _].
  destruct (m =? 0); cbn; [|by eexists _, _, _].
  destruct (apply_eval ctx w) as [[mind_res|x] w' log]; cbn in *;
    [|eexists _, _, _; split_and!; [done..|by apply Hq|done|done]].
  destruct (fill_res _ _ _ _) as [res|x] eqn:Hfill; cbn;
    [|eexists _, _, _; split_and!; [done|done| |done|done];
      intros X f Hf; rewrite app_nil_r; by apply Hq].
  apply fill_res_length in Hfill. rewrite length_map in Hfill.
  destruct (1 <? device_num (self w')); cbn.
  - destruct (all_reduce (self w')); cbn;
      [|eexists _, _, _; split_and!; [done|done| |done|done];
        intros X f Hf; rewrite !app_nil_r; by apply Hq].
    eexists _, _, _. split_and!; [done | done | | |].
    + intros X f Hf. rewrite !omap_app, Hq by done. cbn. by rewrite (Hf (AllReduce _)).
    + intros ? [= <-]. by rewrite length_map, AllReduceSum_length.
    + cbn. destruct (track_best _ _ _ _) as [[[]|x] s l]; cbn;
        by rewrite ?app_nil_r, <- ?app_assoc.
  - eexists _, _, _. split_and!; [done | done | | |].
    + intros X f Hf. rewrite !app_nil_r. by apply Hq.
    + by intros ? [= <-].
    + cbn. destruct (track_best _ _ _ _) as [[[]|x] s l]; cbn; by rewrite ?app_nil_r.
Qed.

(** On rank 0 the metric an epoch end reports is the one its validation
    has computed. *)
Lemma epoch_end_reports_measured ctx sm st :
  rank_id sm = 0 →
  observed (emitted (on_train_epoch_end ctx (World sm st))) = measured ctx (World sm st).
Proof.
  intros Hrank. unfold measured. cbn [self].
  destruct (summary_record sm) as [d|] eqn:Hsum.
  2:{ destruct (epoch_end_not_entered ctx (World sm st) Hsum) as [_ Hlog].
      unfold observed.
      induction (emitted (on_train_epoch_end ctx (World sm st))) as [|x l IH]; [done|].
      cbn. destruct (Hlog x (list_elem_of_here _ _)) as [->|[msg ->]]; cbn;
        apply IH; intros y Hy; apply Hlog; by apply list_elem_of_further. }
  destruct (epoch_end_parts ctx (World sm st) d Hsum) as (loss & log0 & _ & Hlog0 & Hrun).
  cbn zeta in Hrun. cbn [self] in Hrun.
  assert (Hq0 : omap printed_metric log0 = []).
  { clear Hrun. induction log0 as [|x log0 IH]; [done|]. cbn.
    destruct (Hlog0 x (list_elem_of_here _ _)) as [->|[msg ->]]; cbn;
      apply IH; intros y Hy; apply Hlog0; by apply list_elem_of_further. }
  destruct (measure_run ctx (cur_epoch_of sm ctx) (World sm st))
    as (o & w' & log & Hm & Hview & Hq & Hlen & Hv).
  cbn [self] in *. rewrite Hm. cbn.
  assert (Hsl : ∀ res w1,
            omap printed_metric
              (emitted (save_and_log (original_args ctx)
                          (select_optimizer sm (original_args ctx)) (cur_epoch_of sm ctx)
                          (batch_num (original_args ctx)) loss res w1)) = []).
  { intros res w1. by apply save_and_log_tracking, tracking_printed_metric. }
  assert (Hobs : ∀ l : list (event num), omap printed_metric l = [] → observed l = None).
  { intros l Hl. unfold observed. by rewrite Hl. }
  unfold tracking_view in Hview. injection Hview as _ _ Hrank' _ _ Hnames _ _ _.
  rewrite Hrank in Hrank'.
  destruct o as [[res|]|x].
  - (* the validation has computed [res] *)
    assert (Hlen1 : length res = length (metric_name (self w'))).
    { by rewrite (Hlen res eq_refl), Hnames. }
    destruct (track_best_spec (original_args ctx) (cur_epoch_of sm ctx) res w' Hlen1)
      as (Hrep & _).
    rewrite (bool_decide_true _ Hrank') in Hrep. unfold observed in Hrep.
    destruct (track_best _ _ _ _) as [o' s l] eqn:Ht. cbn in Hrep.
    rewrite Hv in Hrun. cbn in Hrun.
    destruct o' as [[]|x]; cbn in Hrun; rewrite Hrun; cbn; unfold observed;
      rewrite !omap_app, Hq0, (Hq _ _ tracking_printed_metric), ?Hsl; cbn.
    + destruct (result (save_and_log _ _ _ _ _ _ _)); cbn; by rewrite app_nil_r.
    + done.
  - rewrite Hv in Hrun. cbn in Hrun. rewrite Hrun. cbn. apply Hobs.
    rewrite !omap_app, Hq0, (Hq _ _ tracking_printed_metric), Hsl. cbn.
    by destruct (result (save_and_log _ _ _ _ _ _ _)).
  - rewrite Hv in Hrun. cbn in Hrun. rewrite Hrun. cbn. apply Hobs.
    by rewrite !omap_app, Hq0, (Hq _ _ tracking_printed_metric).
Qed.

Lemma epoch_end_keeps_rank ctx rk :
  keeps (fun w : world num => rank_id (self w) = rk) (on_train_epoch_end ctx).
Proof.
  unfold on_train_epoch_end, _get_loss, validate, validation_due, reduce_metrics,
    track_best, record_metrics, save_and_log, _flush_from_cache, apply_eval.
  repeat keeps_step; try done.
  all: destruct s; cbn in *; done.
Qed.

(** On rank 0 the metrics reported over a sequence of epoch ends are the
    metrics computed. *)
Lemma validations_epochs calls sm0 :
  rank_id sm0 = 0 → validations calls sm0 = epochs calls sm0.
Proof.
  revert sm0. induction calls as [|c calls IH]; intros sm0 Hrank; [done|].
  cbn [validations epochs].
  rewrite (epoch_end_reports_measured (call_ctx c) sm0 (call_net c) Hrank).
  rewrite IH; [done|].
  by apply (epoch_end_keeps_rank (call_ctx c) 0 (World sm0 (call_net c))).
Qed.

Lemma epochs_keep_rank calls sm0 rk :
  rank_id sm0 = rk → rank_id (epochs calls sm0).1 = rk.
Proof.
  revert sm0. induction calls as [|c calls IH]; intros sm0 Hrank; [done|].
  cbn [epochs].
  specialize (IH (self (final (on_train_epoch_end (call_ctx c) (World sm0 (call_net c)))))).
  destruct (epochs calls _) as [sm h]. cbn in *. apply IH.
  by apply (epoch_end_keeps_rank (call_ctx c) rk (World sm0 (call_net c))).
Qed.

Section Measured.
Context {order : NumOrder num}.

(** C2. On rank 0, after any sequence of epoch ends from a fresh callback,
    with [h] the validation metrics [res[0]] the calls have computed:
    [best_res] is at least 0 and at least every metric of [h]; it is 0,
    with [best_epoch] -1, when no metric of [h] exceeds 0, and otherwise
    it is a metric of [h] that exceeds 0 and every metric computed before
    it, with [best_epoch] its epoch; it never decreases over further
    calls; and one call changes the two only when the metric its
    validation computes exceeds the previous [best_res], and then it sets
    them to that metric and its epoch. *)
Theorem best_res_is_running_maximum calls sm0 :
  rank_id sm0 = 0 → best_res sm0 = num_zero → best_epoch sm0 = -1 →
  let sm := (validations calls sm0).1 in
  let h := (validations calls sm0).2 in
  (num_gt num_zero (best_res sm) = false
   ∧ ∀ e x, (e, x) ∈ h → num_gt x (best_res sm) = false)
  ∧ ((best_res sm = num_zero ∧ best_epoch sm = -1
      ∧ ∀ e x, (e, x) ∈ h → num_gt x num_zero = false)
     ∨ ∃ pre e x post,
         h = pre ++ (e, x) :: post
         ∧ best_res sm = x ∧ best_epoch sm = e
         ∧ num_gt x num_zero = true
         ∧ ∀ e' y, (e', y) ∈ pre → num_gt x y = true)
  ∧ (∀ more, num_gt (best_res sm) (best_res (validations more sm).1) = false)
  ∧ (∀ ctx st,
       let r := on_train_epoch_end ctx (World sm st) in
       let sm' := self (final r) in
       (best_res sm' = best_res sm ∧ best_epoch sm' = best_epoch sm
        ∧ ∀ x, measured ctx (World sm st) = Some x → num_gt x (best_res sm) = false)
       ∨ ∃ x, measured ctx (World sm st) = Some x ∧ num_gt x (best_res sm) = true
              ∧ best_res sm' = x ∧ best_epoch sm' = cur_epoch_of sm ctx).
Proof.
  intros Hrank Hzero Hminus sm h. subst sm h.
  rewrite (validations_epochs calls sm0 Hrank).
  pose proof (epochs_keep_rank calls sm0 0 Hrank) as Hrank'.
  set (sm := (epochs calls sm0).1) in *. set (h := (epochs calls sm0).2).
  destruct (epochs_best calls sm0) as (Hmono & Hbound & Hmax).
  fold sm h in Hmono, Hbound, Hmax. rewrite Hzero, Hminus in *.
  split_and!; [done | done | done | |].
  - intros more. rewrite (validations_epochs more sm Hrank').
    by destruct (epochs_best more sm) as (? & _).
  - intros ctx st. rewrite <- (epoch_end_reports_measured ctx sm st Hrank').
    apply epoch_end_best.
Qed.

End Measured.

(** ** StateMonitor._flush_from_cache *)

Lemma validate_no_flush ctx e f rk :
  quiet (fun w => _need_flush_from_cache (self w) = f ∧ rank_id (self w) = rk)
        cache_flush_event (validate ctx e).
Proof.
  unfold validate, validation_due, reduce_metrics, track_best, record_metrics, apply_eval.
  repeat quiet_step; try done.
  all: destruct s; cbn in *; done.
Qed.

Lemma save_and_log_flush (cb : cb_params num) opt e step loss res w :
  let s2 := save_and_log cb opt e step loss res w in
  let cached := cache_enabled (outer (train_network cb)) in
  (_need_flush_from_cache (self w) = false ∨ rank_id (self w) ≠ 0 →
     _need_flush_from_cache (self (final s2)) = _need_flush_from_cache (self w)
     ∧ ∀ x, x ∈ emitted s2 → cache_flush_event x = None)
  ∧ (Called "_flush_from_cache" ∈ emitted s2 →
       _need_flush_from_cache (self w) = true ∧ rank_id (self w) = 0
       ∧ (∀ p, FlushFromCache p ∈ emitted s2 ↔ p ∈ cached)
       ∧ _need_flush_from_cache (self (final s2)) = bool_decide (cached ≠ [])).
Proof.
  intros s2 cached. subst s2. rewrite save_and_log_closed. cbn zeta. fold cached.
  unfold log_tail.
  destruct (decide (rank_id (self w) = 0)) as [Hr|Hr];
    [rewrite (bool_decide_true _ Hr) | rewrite (bool_decide_false _ Hr)].
  2: { cbn. split; [intros _; split; [done|]; by intros ? ?%elem_of_nil |].
       by intros ?%elem_of_nil. }
  destruct (py_mod e (ckpt_save_interval (self w))) as [m|]; cbn.
  2: { split; [intros _; split; [done|]; by intros ? ?%elem_of_nil |].
       by intros ?%elem_of_nil. }
  destruct ((m =? 0) || (e =? epoch_num cb)); cbn.
  2: { destruct loss as [l|]; [destruct (log_txt_fp (self w)) as [fp|]|]; cbn;
      (split; [intros _; split; [done|]; intros x Hx; split_elem Hx; by subst
              | intros Hx; split_elem Hx; discriminate]). }
  destruct (_need_flush_from_cache (self w)) eqn:Hflag; cbn.
  - split; [by intros [?|?]|]. intros _. split_and!; [done | done | |].
    + intros p.
      destruct (res !! 0%nat) as [x|]; [destruct loss as [l|];
        [destruct (log_txt_fp (self w)) as [fp|]|]|]; cbn;
        (split;
         [ intros Hx; split_elem Hx; try discriminate;
           by apply list_elem_of_fmap in Hx as (q & [= ->] & Hq)
         | intros Hp; apply list_elem_of_further; repeat (apply elem_of_app; left);
           by apply list_elem_of_fmap_2 ]).
    + destruct (res !! 0%nat) as [x|]; [destruct loss as [l|];
        [destruct (log_txt_fp (self w)) as [fp|]|]|]; cbn;
        (case_bool_decide as Hc; cbn;
         [ by rewrite bool_decide_false by (by intros ?)
         | by rewrite bool_decide_true, ?Hflag by done ]).
  - split.
    + intros _.
      destruct (res !! 0%nat) as [x|]; [destruct loss as [l|];
        [destruct (log_txt_fp (self w)) as [fp|]|]|]; cbn;
        (split; [done|]; intros y Hy; split_elem Hy; by subst).
    + destruct (res !! 0%nat) as [x|]; [destruct loss as [l|];
        [destruct (log_txt_fp (self w)) as [fp|]|]|]; cbn;
        intros Hy; split_elem Hy; discriminate.
Qed.

(** X13. The cache flush of an epoch end.  [_flush_from_cache] is called
    only on rank 0 and while [_need_flush_from_cache] is set: on another
    rank, or with the flag cleared, an epoch end calls it not, flushes no
    parameter and leaves the flag as it is, so a cleared flag stays
    cleared.  When it is called, it flushes exactly the parameters with
    [cache_enable], and the flag stays set exactly when there is one. *)
Theorem flush_from_cache_until_cleared ctx sm st :
  let r := on_train_epoch_end ctx (World sm st) in
  let cached := cache_enabled (outer (train_network (original_args ctx))) in
  (_need_flush_from_cache sm = false ∨ rank_id sm ≠ 0 →
     _need_flush_from_cache (self (final r)) = _need_flush_from_cache sm
     ∧ ∀ x, x ∈ emitted r → cache_flush_event x = None)
  ∧ (Called "_flush_from_cache" ∈ emitted r →
       _need_flush_from_cache sm = true ∧ rank_id sm = 0
       ∧ (∀ p, FlushFromCache p ∈ emitted r ↔ p ∈ cached)
       ∧ _need_flush_from_cache (self (final r)) = bool_decide (cached ≠ [])).
Proof.
  intros r cached. subst r.
  set (w := World sm st).
  destruct (summary_record sm) as [d|] eqn:Hsr; cycle 1.
  { destruct (epoch_end_not_entered ctx w Hsr) as [Hfin Hev]. rewrite Hfin.
    split.
    - intros _. split; [done|]. intros x Hx.
      by destruct (Hev x Hx) as [->|[msg ->]].
    - intros Hin. by destruct (Hev _ Hin) as [?|[msg ?]]. }
  destruct (epoch_end_unfold ctx w d Hsr) as (loss & log0 & Hlog0 & _ & Hrun).
  cbn zeta in Hrun.
  assert (Hhead : ∀ x name, x ∈ log0 ++ [SummaryAddValue "scalar" name loss] →
                            cache_flush_event x = None).
  { intros x name Hx. split_elem Hx; [|by subst].
    by destruct (Hlog0 x Hx) as [->|[msg ->]]. }
  destruct (validate_no_flush ctx (cur_epoch_of (self w) ctx)
              (_need_flush_from_cache sm) (rank_id sm) w) as [Hl1 [Hflag Hrank]]; [done|].
  destruct (validate ctx (cur_epoch_of (self w) ctx) w) as [[res|x] w1 l1].
  2: { rewrite Hrun. cbn in *. split.
       - intros _. split; [done|]. intros y Hy.
         apply elem_of_app in Hy as [Hy|Hy]; [by eapply Hhead|].
         by eapply omap_nil_elem.
       - intros Hy. apply elem_of_app in Hy as [Hy|Hy].
         + by apply Hhead in Hy.
         + by apply (omap_nil_elem _ _ _ Hl1) in Hy. }
  cbn in Hl1, Hflag, Hrank.
  destruct (save_and_log_flush (original_args ctx)
              (select_optimizer (self w) (original_args ctx))
              (cur_epoch_of (self w) ctx) (batch_num (original_args ctx)) loss res w1)
    as [Hoff Hon].
  rewrite Hflag, Hrank in Hoff, Hon. fold cached in Hon.
  assert (∃ tl : list (event num),
    final (on_train_epoch_end ctx w)
    = final (save_and_log (original_args ctx)
               (select_optimizer (self w) (original_args ctx))
               (cur_epoch_of (self w) ctx) (batch_num (original_args ctx)) loss res w1)
    ∧ emitted (on_train_epoch_end ctx w)
      = (log0 ++ [SummaryAddValue "scalar" ("train_loss_" +:+ py_str (rank_id (self w))) loss])
        ++ l1
        ++ emitted (save_and_log (original_args ctx)
                      (select_optimizer (self w) (original_args ctx))
                      (cur_epoch_of (self w) ctx) (batch_num (original_args ctx)) loss res w1)
        ++ tl
    ∧ ∀ y, y ∈ tl → ∃ step, y = SummaryRecordStep step) as (tl & -> & -> & Htl).
  { rewrite Hrun. destruct (save_and_log _ _ _ _ _ _ _) as [[[]|x] w2 l2]; cbn.
    - eexists. split_and!; [done..|]. intros y Hy. split_elem Hy. eauto.
    - exists []. rewrite app_nil_r. split_and!; [done..|]. by intros y ?%elem_of_nil. }
  split.
  - intros Hcase. destruct (Hoff Hcase) as [Hf Hnone]. split; [done|].
    intros y Hy.
    apply elem_of_app in Hy as [Hy|Hy]; [by eapply Hhead|].
    apply elem_of_app in Hy as [Hy|Hy]; [by eapply omap_nil_elem|].
    apply elem_of_app in Hy as [Hy|Hy]; [by apply Hnone|].
    by destruct (Htl y Hy) as [step ->].
  - assert (Hother : ∀ y, cache_flush_event y ≠ None →
              y ∈ (log0 ++ [SummaryAddValue "scalar"
                              ("train_loss_" +:+ py_str (rank_id (self w))) loss])
                  ++ l1
                  ++ emitted (save_and_log (original_args ctx)
                                (select_optimizer (self w) (original_args ctx))
                                (cur_epoch_of (self w) ctx)
                                (batch_num (original_args ctx)) loss res w1)
                  ++ tl →
              y ∈ emitted (save_and_log (original_args ctx)
                             (select_optimizer (self w) (original_args ctx))
                             (cur_epoch_of (self w) ctx)
                             (batch_num (original_args ctx)) loss res w1)).
    { intros y Hsome Hy.
      apply elem_of_app in Hy as [Hy|Hy]; [by apply Hhead in Hy|].
      apply elem_of_app in Hy as [Hy|Hy]; [by apply (omap_nil_elem _ _ _ Hl1) in Hy|].
      apply elem_of_app in Hy as [Hy|Hy]; [done|].
      by destruct (Htl y Hy) as [step ->]. }
    intros Hin. apply Hother in Hin; [|done].
    destruct (Hon Hin) as (Hf & Hr & Hp & Hfin).
    split_and!; [done | done | | done].
    intros p. rewrite <- Hp. split; [by apply Hother|].
    intros Hy. apply elem_of_app. right. apply elem_of_app. right.
    apply elem_of_app. by left.
Qed.

(** ** StateMonitor.on_train_epoch_end: the ways it raises *)

Lemma fill_res_missing (mind_res : gmap string num) names name :
  name ∈ names → mind_res !! name = None →
  ∃ pre missing post,
    names = pre ++ missing :: post
    ∧ (∀ n, n ∈ pre → is_Some (mind_res !! n))
    ∧ mind_res !! missing = None
    ∧ ∀ i res0, fill_res mind_res names i res0 = Raise (KeyError missing).
Proof.
  intros Hin Hnone. induction names as [|n0 names IH]; [by apply elem_of_nil in Hin|].
  destruct (mind_res !! n0) as [v|] eqn:Hv.
  - apply elem_of_cons in Hin as [->|Hin]; [congruence|].
    destruct (IH Hin) as (pre & missing & post & -> & Hpre & Hmiss & Hfill).
    exists (n0 :: pre), missing, post. split_and!; [done | | done |].
    + intros n [->|Hn]%elem_of_cons; [by rewrite Hv | by apply Hpre].
    + intros i res0. cbn. rewrite Hv. apply Hfill.
  - exists [], n0, names. split_and!; [done | by intros n ?%elem_of_nil | done |].
    intros i res0. cbn. by rewrite Hv.
Qed.

(** X14. When the evaluation returns no value for one of the names of
    [metric_name], an epoch end with a validation due raises KeyError for
    the first such name, at [mind_res[self.metric_name[i]]]: the call ends
    with the evaluation, so nothing of the validation is printed or
    recorded, no checkpoint is saved and result.log gets no line. *)
Theorem epoch_end_raises_KeyError_on_missing_metric sm st ctx ds mind_res name :
  is_Some (summary_record sm) → dataset_val sm = Some ds →
  val_start_epoch sm ≤ cur_epoch_of sm ctx →
  py_mod (cur_epoch_of sm ctx - val_start_epoch sm) (val_interval sm) = Some 0 →
  result (apply_eval ctx (World sm st)) = Ret mind_res →
  name ∈ metric_name sm → mind_res !! name = None →
  let w := World sm st in
  let r := on_train_epoch_end ctx w in
  (∃ pre missing post,
     metric_name sm = pre ++ missing :: post
     ∧ (∀ n, n ∈ pre → is_Some (mind_res !! n))
     ∧ mind_res !! missing = None
     ∧ result r = Raise (KeyError missing))
  ∧ final r = final (apply_eval ctx w)
  ∧ ∃ loss,
      emitted r =
      emitted (_get_loss (original_args ctx) w)
      ++ [SummaryAddValue "scalar" ("train_loss_" +:+ py_str (rank_id sm)) loss]
      ++ emitted (apply_eval ctx w).
Proof.
  intros [d Hsr] Hds Hstart Hmod Heval Hin Hnone w r. subst r. fold w in Heval.
  destruct (fill_res_missing mind_res _ name Hin Hnone)
    as (pre & missing & post & Hnames & Hpre & Hmiss & Hfill).
  destruct (epoch_end_parts ctx w d Hsr) as (loss & log0 & Hloss & _ & Hrun).
  cbn zeta in Hrun. rewrite validate_closed in Hrun. cbn zeta in Hrun.
  change (self w) with sm in Hrun.
  rewrite Hds, (proj2 (Z.leb_le _ _) Hstart), Hmod in Hrun. cbn in Hrun.
  destruct (apply_eval ctx w) as [[mr|x] w' log] eqn:Hap; [|discriminate].
  cbn in Heval. injection Heval as ->.
  rewrite Hfill in Hrun. cbn in Hrun. rewrite Hrun, Hloss. cbn.
  split_and!; [by exists pre, missing, post | done |].
  exists loss. by rewrite <- !app_assoc.
Qed.

Lemma validate_keeps_intervals ctx e rk k :
  keeps (fun w => rank_id (self w) = rk ∧ ckpt_save_interval (self w) = k) (validate ctx e).
Proof.
  unfold validate, validation_due, reduce_metrics, track_best, record_metrics, apply_eval.
  repeat keeps_step; try done.
  all: destruct s; cbn in *; done.
Qed.

(** X15. With [ckpt_save_interval = 0], every epoch end of an entered
    callback on rank 0 whose validation part returns raises
    ZeroDivisionError at [cur_epoch % self.ckpt_save_interval]: the call
    ends after the validation part (which may have written the best
    checkpoint), so neither the optimizer state nor a numbered checkpoint
    is saved and result.log gets no line. *)
Theorem epoch_end_zero_ckpt_save_interval sm st ctx res :
  is_Some (summary_record sm) → rank_id sm = 0 → ckpt_save_interval sm = 0 →
  let w := World sm st in
  let v := validate ctx (cur_epoch_of sm ctx) w in
  result v = Ret res →
  let r := on_train_epoch_end ctx w in
  result r = Raise ZeroDivisionError
  ∧ final r = final v
  ∧ ∃ loss,
      emitted r =
      emitted (_get_loss (original_args ctx) w)
      ++ [SummaryAddValue "scalar" ("train_loss_" +:+ py_str (rank_id sm)) loss]
      ++ emitted v.
Proof.
  intros [d Hsr] Hrank Hzero w v Hv r. subst r v.
  destruct (epoch_end_parts ctx w d Hsr) as (loss & log0 & Hloss & _ & Hrun).
  cbn zeta in Hrun. change (self w) with sm in Hrun.
  rewrite Hv in Hrun.
  destruct (validate_keeps_intervals ctx (cur_epoch_of sm ctx) 0 0 w) as [Hr Hk]; [done|].
  rewrite save_and_log_closed in Hrun. cbn zeta in Hrun.
  rewrite Hr, Hk in Hrun. cbn in Hrun.
  rewrite Hrun, Hloss. cbn. split_and!; [done..|].
  exists loss. by rewrite !app_nil_r, <- !app_assoc.
Qed.

(** X16. With [val_interval = 0] and a validation dataset, every epoch
    end of an entered callback from [val_start_epoch] on raises
    ZeroDivisionError at [(cur_epoch - self.val_start_epoch) %
    self.val_interval]: the call ends once the training loss is recorded,
    with no evaluation, no checkpoint and no line in result.log, and the
    callback is as it was.  Before [val_start_epoch] the remainder is not
    taken and the validation part returns zeros. *)
Theorem epoch_end_zero_val_interval sm st ctx ds :
  is_Some (summary_record sm) → dataset_val sm = Some ds → val_interval sm = 0 →
  let w := World sm st in
  let e := cur_epoch_of sm ctx in
  let r := on_train_epoch_end ctx w in
  (val_start_epoch sm ≤ e →
     result r = Raise ZeroDivisionError
     ∧ final r = w
     ∧ ∃ loss,
         emitted r =
         emitted (_get_loss (original_args ctx) w)
         ++ [SummaryAddValue "scalar" ("train_loss_" +:+ py_str (rank_id sm)) loss])
  ∧ (e < val_start_epoch sm →
       validate ctx e w = Run (Ret (map (fun _ => num_zero) (metric_name sm))) w []).
Proof.
  intros [d Hsr] Hds Hzero w e r. subst r. split.
  - intros Hstart.
    destruct (epoch_end_parts ctx w d Hsr) as (loss & log0 & Hloss & _ & Hrun).
    cbn zeta in Hrun. change (self w) with sm in Hrun. fold e in Hrun.
    rewrite (validate_zero_interval ctx e w ds) in Hrun; [|done..|].
    + cbn in Hrun. rewrite Hrun, Hloss. cbn. split_and!; [done..|].
      exists loss. by rewrite app_nil_r.
    + cbn. rewrite Hzero. by apply py_mod_None.
  - intros Hlt. apply validate_skip. right. by left.
Qed.

(** X17. With an empty [metric_name], an epoch end of an entered callback
    on rank 0 raises IndexError at [res[0]] as soon as it has something to
    report.  When a validation is due and the evaluation returns, it
    raises after the line "Validation" is printed, before any checkpoint.
    When no validation is due (there is no validation dataset, or the
    epoch is before [val_start_epoch], or it is not a multiple of
    [val_interval] after it) and a checkpoint is, it raises after the
    optimizer state is saved: the checkpoint manager is not called and
    result.log gets no line. *)
Theorem epoch_end_raises_IndexError_without_metric_names a sm st ctx :
  reachable a sm → is_Some (summary_record sm) → rank_id sm = 0 → metric_name sm = [] →
  let w := World sm st in
  let cb := original_args ctx in
  let e := cur_epoch_of sm ctx in
  let r := on_train_epoch_end ctx w in
  let optim_save_path :=
    os_path_join (ckpt_dir sm) ("optim_" +:+ model_name sm +:+ ".ckpt") in
  (∀ ds mind_res,
     dataset_val sm = Some ds → val_start_epoch sm ≤ e →
     py_mod (e - val_start_epoch sm) (val_interval sm) = Some 0 →
     result (apply_eval ctx w) = Ret mind_res →
     result r = Raise IndexError
     ∧ last (emitted r) = Some (PrintValidation [])
     ∧ (∀ x, x ∈ emitted r → checkpoint_event x = None ∧ result_log_vector x = None))
  ∧ (∀ m,
       dataset_val sm = None
       ∨ e < val_start_epoch sm
       ∨ (∃ m', py_mod (e - val_start_epoch sm) (val_interval sm) = Some m' ∧ m' ≠ 0) →
       py_mod e (ckpt_save_interval sm) = Some m → m = 0 ∨ e = epoch_num cb →
       result r = Raise IndexError
       ∧ last (emitted r) = Some (SaveCheckpoint SavedOptimizer optim_save_path)
       ∧ (∀ x, x ∈ emitted r →
            (∀ k y p, x ≠ ManagerSaveCkpoint k y p) ∧ result_log_vector x = None)
       ∧ _manager (self (final r)) = _manager sm).
Proof.
  intros Hreach [d Hsr] Hrank Hnames w cb e r optim_save_path. subst r.
  apply reachable_wf in Hreach.
  destruct (epoch_end_parts ctx w d Hsr) as (loss & log0 & Hloss & Hlog0 & Hrun).
  cbn zeta in Hrun. change (self w) with sm in Hrun. fold cb e in Hrun.
  assert (Hhead : ∀ x name, x ∈ log0 ++ [SummaryAddValue "scalar" name loss] →
            checkpoint_event x = None ∧ result_log_vector x = None
            ∧ ∀ k y p, x ≠ ManagerSaveCkpoint k y p).
  { intros x name Hx. split_elem Hx; [|by subst].
    by destruct (Hlog0 x Hx) as [->|[msg ->]]. }
  split.
  - intros ds mind_res Hds Hstart Hmod Heval.
    rewrite validate_closed in Hrun. cbn zeta in Hrun. change (self w) with sm in Hrun.
    rewrite Hds, (proj2 (Z.leb_le _ _) Hstart), Hmod, Hnames in Hrun. cbn in Hrun.
    pose proof (apply_eval_keeps_wf a ctx w Hreach) as Hwf'.
    destruct (apply_eval_tracking ctx w) as [Hview _].
    destruct (apply_eval_no_result_log ctx w I) as [Hnolog _].
    pose proof (validate_no_checkpoint ctx e w I) as [Hnockpt _].
    rewrite validate_closed in Hnockpt. cbn zeta in Hnockpt. change (self w) with sm in Hnockpt.
    rewrite Hds, (proj2 (Z.leb_le _ _) Hstart), Hmod, Hnames in Hnockpt. cbn in Hnockpt.
    destruct (apply_eval ctx w) as [[mr|x] w' log] eqn:Hap; [|discriminate].
    cbn in Heval, Hwf', Hview, Hnolog, Hrun, Hnockpt. injection Heval as ->.
    assert (rank_id (self w') = 0) as Hrank'.
    { rewrite (wf_rank_id _ _ Hwf'), <- (wf_rank_id _ _ Hreach). done. }
    assert (metric_name (self w') = []) as Hnames'.
    { rewrite (wf_metric_name _ _ Hwf'), <- (wf_metric_name _ _ Hreach). done. }
    pose proof (wf_all_reduce _ _ Hwf') as Har.
    assert (∃ l2, reduce_metrics ctx [] w' = Run (Ret []) w' l2
                  ∧ ∀ x, x ∈ l2 → ∃ v, x = AllReduce v) as (l2 & Hred & Hl2).
    { unfold reduce_metrics. run. rewrite Har.
      destruct (1 <? device_num (self w')); cbn.
      - eexists. split; [done|]. intros x Hx. split_elem Hx. eauto.
      - exists []. split; [done|]. by intros x ?%elem_of_nil. }
    rewrite Hred in Hrun, Hnockpt.
    assert (track_best (original_args ctx) e [] w'
            = Run (Raise IndexError) w' [PrintValidation []]) as Htb.
    { unfold track_best. run. rewrite Hrank', Hnames'. done. }
    rewrite Htb in Hrun, Hnockpt. cbn in Hrun, Hnockpt. rewrite Hrun. cbn.
    split_and!; [done | |].
    + rewrite !app_assoc. apply last_snoc.
    + intros x Hx. apply elem_of_app in Hx as [Hx|Hx]; [by apply Hhead in Hx as (?&?&?)|].
      split; [by eapply omap_nil_elem|].
      apply elem_of_app in Hx as [Hx|Hx]; [by eapply omap_nil_elem|].
      apply elem_of_app in Hx as [Hx|Hx]; [by destruct (Hl2 x Hx) as [v ->]|].
      apply list_elem_of_singleton in Hx. by subst.
  - intros m Hds Hmod Hdue.
    rewrite (validate_skip ctx e w) in Hrun by exact Hds. cbn in Hrun.
    change (self w) with sm in Hrun. rewrite Hnames in Hrun. cbn in Hrun.
    rewrite save_and_log_closed in Hrun. cbn zeta in Hrun. change (self w) with sm in Hrun.
    rewrite (bool_decide_true _ Hrank), Hmod in Hrun.
    assert (((m =? 0) || (e =? epoch_num cb)) = true) as Hb by lia.
    rewrite Hb in Hrun. cbn in Hrun. fold optim_save_path in Hrun.
    rewrite Hrun. cbn. rewrite app_nil_r.
    split_and!; [done | | |].
    + rewrite !app_assoc. apply last_snoc.
    + intros x Hx. apply elem_of_app in Hx as [Hx|Hx]; [by apply Hhead in Hx as (?&?&?)|].
      destruct (_need_flush_from_cache sm); cbn in Hx; split_elem Hx; try by subst.
      all: apply list_elem_of_fmap in Hx as (q & -> & _); done.
    + by destruct (_need_flush_from_cache sm && bool_decide _).
Qed.

(** ** StateMonitor.on_train_epoch_end: the line of result.log *)

Lemma epoch_end_not_entered_raises ctx w :
  summary_record (self w) = None →
  result (on_train_epoch_end ctx w) = Raise (AttributeError "summary_record").
Proof.
  intros Hsr. unfold on_train_epoch_end.
  destruct (get_loss_run (original_args ctx) w) as (l & log & Hl & _).
  run. rewrite Hl. cbn. by rewrite Hsr.
Qed.

Lemma validate_no_result_log ctx e :
  quiet (fun _ : world num => True) result_log_vector (validate ctx e).
Proof.
  unfold validate, validation_due, reduce_metrics, track_best, record_metrics, apply_eval.
  repeat quiet_step; done.
Qed.

(** Lines 218-252 append at most one line, as their last event, and
    return exactly then on rank 0. *)
Lemma save_and_log_result_log (cb : cb_params num) opt e step loss res w :
  let s := save_and_log cb opt e step loss res w in
  (∀ fp e' l res', AppendResultLog fp e' l res' ∈ emitted s →
     rank_id (self w) = 0 ∧ log_txt_fp (self w) = Some fp ∧ e' = e
     ∧ loss = Some l ∧ res' = res ∧ result s = Ret ())
  ∧ (result s = Ret () → rank_id (self w) = 0 →
       ∃ pre fp l,
         emitted s = pre ++ [AppendResultLog fp e l res]
         ∧ log_txt_fp (self w) = Some fp ∧ loss = Some l
         ∧ ∀ x, x ∈ pre → result_log_vector x = None).
Proof.
  intros s. subst s. rewrite save_and_log_closed. cbn zeta. unfold log_tail.
  destruct (decide (rank_id (self w) = 0)) as [Hr|Hr];
    [rewrite (bool_decide_true _ Hr) | rewrite (bool_decide_false _ Hr)].
  2: { cbn. split; [by intros ???? ?%elem_of_nil | done]. }
  destruct (py_mod e (ckpt_save_interval (self w))) as [m|]; cbn.
  2: { split; [by intros ???? ?%elem_of_nil | done]. }
  destruct ((m =? 0) || (e =? epoch_num cb)); cbn.
  - destruct (res !! 0%nat) as [x|]; [destruct loss as [l|];
      [destruct (log_txt_fp (self w)) as [fp|]|]|]; cbn.
    + split.
      * intros fp' e' l' res' Hx.
        destruct (_need_flush_from_cache (self w)); split_elem Hx; try discriminate.
        all: try (by apply list_elem_of_fmap in Hx as (q & [=] & _)).
        all: by injection Hx as -> -> -> ->.
      * intros _ _. eexists _, fp, l.
        change [PrintEpochTime; Print rule; AppendResultLog fp e l res]
          with ([PrintEpochTime; Print rule] ++ [AppendResultLog fp e l res]).
        rewrite app_assoc. split_and!; [done..|].
        intros y Hy.
        destruct (_need_flush_from_cache (self w)); split_elem Hy; try by subst.
        all: by apply list_elem_of_fmap in Hy as (q & -> & _).
    + split; [|done]. intros fp' e' l' res' Hx.
      destruct (_need_flush_from_cache (self w)); split_elem Hx; try discriminate.
      all: by apply list_elem_of_fmap in Hx as (q & [=] & _).
    + split; [|done]. intros fp' e' l' res' Hx.
      destruct (_need_flush_from_cache (self w)); split_elem Hx; try discriminate.
      all: by apply list_elem_of_fmap in Hx as (q & [=] & _).
    + split; [|done]. intros fp' e' l' res' Hx.
      destruct (_need_flush_from_cache (self w)); split_elem Hx; try discriminate.
      all: by apply list_elem_of_fmap in Hx as (q & [=] & _).
  - destruct loss as [l|]; [destruct (log_txt_fp (self w)) as [fp|]|]; cbn.
    + split.
      * intros fp' e' l' res' Hx. split_elem Hx; try discriminate.
        by injection Hx as -> -> -> ->.
      * intros _ _. exists [PrintEpochTime; Print rule], fp, l.
        split_and!; [done..|]. intros y Hy. split_elem Hy; by subst.
    + split; [|done]. intros fp' e' l' res' Hx. split_elem Hx; discriminate.
    + split; [|done]. intros fp' e' l' res' Hx. split_elem Hx; discriminate.
Qed.

(** X18. The lines of result.log.  An epoch end of a callback of the
    arguments [a] appends a line only on rank 0 and only when it returns;
    the line goes to the file the constructor has written the header to
    ([ckpt_dir]/result.log), names [cur_epoch] and the loss [_get_loss]
    returns, and holds as many metric values as [metric_name] has names.
    An epoch end that returns on rank 0 appends exactly one line, as its
    last event before the step of the summary. *)
Theorem result_log_line_per_epoch a sm st ctx :
  reachable a sm →
  let w := World sm st in
  let cb := original_args ctx in
  let r := on_train_epoch_end ctx w in
  let fp := os_path_join (arg_ckpt_dir a) "result.log" in
  (∀ fp' e l res, AppendResultLog fp' e l res ∈ emitted r →
     rank_id sm = 0 ∧ fp' = fp ∧ e = cur_epoch_of sm ctx
     ∧ result (_get_loss cb w) = Ret (Some l)
     ∧ length res = length (arg_metric_name a)
     ∧ result r = Ret ())
  ∧ (result r = Ret () → rank_id sm = 0 →
       ∃ pre l res,
         emitted r = pre ++ [AppendResultLog fp (cur_epoch_of sm ctx) l res;
                             SummaryRecordStep (global_step (select_optimizer sm cb))]
         ∧ ∀ x, x ∈ pre → result_log_vector x = None)
  ∧ (∀ data, default 0 (arg_rank_id a) = 0 →
       FileWrite fp (result_log_header (arg_metric_name a)) ∈ emitted (__init__ a data)).
Proof.
  intros Hreach w cb r fp. subst r.
  apply reachable_wf in Hreach.
  split_and!; cycle 2.
  { intros data Hrk. unfold __init__. run. rewrite (bool_decide_true _ Hrk). cbn.
    destruct (match arg_rank_id a with Some _ => arg_device_num a | None => Some 1 end);
      cbn; apply list_elem_of_further, list_elem_of_here. }
  all: destruct (summary_record sm) as [d|] eqn:Hsr.
  all: try (intros Hret; by rewrite (epoch_end_not_entered_raises ctx w Hsr) in Hret).
  all: try (intros fp' e l res Hin;
            destruct (epoch_end_not_entered ctx w Hsr) as [_ Hev];
            by destruct (Hev _ Hin) as [?|[msg ?]]).
  all: destruct (epoch_end_parts ctx w d Hsr) as (loss & log0 & Hloss & Hlog0 & Hrun);
    cbn zeta in Hrun; change (self w) with sm in Hrun; fold cb in Hrun, Hloss.
  all: assert (Hhead : ∀ x name, x ∈ log0 ++ [SummaryAddValue "scalar" name loss] →
                 result_log_vector x = None)
         by (intros x name Hx; split_elem Hx; [|by subst];
             by destruct (Hlog0 x Hx) as [->|[msg ->]]).
  all: destruct (validate_no_result_log ctx (cur_epoch_of sm ctx) w I) as [Hv _].
  all: pose proof (validate_keeps_wf a ctx (cur_epoch_of sm ctx) w Hreach) as Hwf1.
  all: pose proof (validate_length ctx (cur_epoch_of sm ctx) w) as Hlen.
  all: destruct (validate ctx (cur_epoch_of sm ctx) w) as [[res|x] w1 l1]; cbn in Hrun, Hv, Hwf1.
  all: rewrite Hrun; cbn.
  - intros fp' e l res' Hin.
    destruct (save_and_log_result_log cb (select_optimizer sm cb) (cur_epoch_of sm ctx)
                (batch_num cb) loss res w1) as [Hone _].
    apply elem_of_app in Hin as [Hin|Hin]; [by apply Hhead in Hin|].
    apply elem_of_app in Hin as [Hin|Hin]; [by apply (omap_nil_elem _ _ _ Hv) in Hin|].
    apply elem_of_app in Hin as [Hin|Hin];
      [|by destruct (result (save_and_log _ _ _ _ _ _ _)); split_elem Hin].
    destruct (Hone _ _ _ _ Hin) as (Hr1 & Hfp & -> & -> & -> & Hres).
    rewrite (wf_rank_id _ _ Hwf1), <- (wf_rank_id _ _ Hreach) in Hr1.
    rewrite (wf_log_txt_fp _ _ Hwf1), (wf_rank_id _ _ Hwf1), <- (wf_rank_id _ _ Hreach),
      (bool_decide_true _ Hr1) in Hfp.
    rewrite Hloss. cbn.
    split_and!; [done | by injection Hfp | done | done | | done].
    rewrite (Hlen res eq_refl). cbn. by rewrite (wf_metric_name _ _ Hreach).
  - intros fp' e l res' Hin.
    apply elem_of_app in Hin as [Hin|Hin]; [by apply Hhead in Hin|].
    by apply (omap_nil_elem _ _ _ Hv) in Hin.
  - intros Hret Hrank.
    destruct (save_and_log_result_log cb (select_optimizer sm cb) (cur_epoch_of sm ctx)
                (batch_num cb) loss res w1) as [_ Hlast].
    rewrite (wf_rank_id _ _ Hwf1), <- (wf_rank_id _ _ Hreach) in Hlast.
    destruct (Hlast Hret Hrank) as (pre & fp' & l & Hem & Hfp & -> & Hpre).
    rewrite (wf_log_txt_fp _ _ Hwf1), (wf_rank_id _ _ Hwf1), <- (wf_rank_id _ _ Hreach),
      (bool_decide_true _ Hrank) in Hfp.
    injection Hfp as <-. fold fp.
    rewrite Hem, Hret.
    exists ((log0 ++ [SummaryAddValue "scalar" ("train_loss_" +:+ py_str (rank_id sm))
                        (Some l)]) ++ l1 ++ pre), l, res.
    split; [by rewrite <- !app_assoc|].
    intros x Hx.
    apply elem_of_app in Hx as [Hx|Hx]; [by apply Hhead in Hx|].
    apply elem_of_app in Hx as [Hx|Hx]; [by apply (omap_nil_elem _ _ _ Hv) in Hx|].
    by apply Hpre.
  - done.
Qed.

(** ** StateMonitor.on_train_epoch_end: the parameter data *)

Lemma reduce_metrics_keeps_net ctx local X :
  keeps (fun w : world num => net w = X) (reduce_metrics ctx local).
Proof. unfold reduce_metrics. repeat keeps_step; done. Qed.

Lemma track_best_keeps_net cb e res X :
  keeps (fun w : world num => net w = X) (track_best cb e res).
Proof. unfold track_best, record_metrics. repeat keeps_step; done. Qed.

Lemma save_and_log_keeps_net (cb : cb_params num) opt e step loss res X :
  keeps (fun w : world num => net w = X) (save_and_log cb opt e step loss res).
Proof. unfold save_and_log, _flush_from_cache. repeat keeps_step; done. Qed.

(** The parameter data after [apply_eval]: all of it as before without
    EMA; with EMA, that of the online parameters as before, unless
    [load_param_into_net] or [Model.eval] raised. *)
Lemma apply_eval_data a ctx sm st :
  wf a sm →
  let r := apply_eval ctx (World sm st) in
  let net_cell :=
    if dataset_sink_mode sm
    then network (train_network (original_args ctx))
    else outer (train_network (original_args ctx)) in
  let target := network (model_train_network (model sm)) in
  (ema sm = false → net (final r) = st)
  ∧ ((∀ n, n ∈ get_parameters (outer (model_train_network (model sm))) →
        net (final r) n = st n)
     ∨ ∃ ema_dict loaded e,
         ema sm = true
         ∧ collect_ema (get_parameters net_cell) st ∅ = Ret ema_dict
         ∧ (load_param_into_net target ema_dict st = (loaded, Some e)
            ∨ load_param_into_net target ema_dict st = (loaded, None)
              ∧ model_eval (dataset_val sm) loaded = Raise e)
         ∧ result r = Raise e ∧ net (final r) = loaded).
Proof.
  intros Hwf r net_cell target. subst r.
  destruct (ema sm) eqn:Hema.
  - split; [done|].
    rewrite (apply_eval_ema_run a ctx sm st Hwf Hema). fold net_cell target.
    destruct (collect_ema (get_parameters net_cell) st ∅) as [d|x] eqn:Hd; cbn;
      [|by left].
    destruct (load_param_into_net target d st) as [loaded [x|]] eqn:Hload; cbn.
    { right. exists d, loaded, x. split_and!; [done | done | by left | done | done]. }
    destruct (model_eval (dataset_val sm) loaded) as [res|x] eqn:Heval; cbn.
    + left. intros n Hn. rewrite assign_params_lookup.
      rewrite (wf_model _ _ Hwf) in Hn. by rewrite decide_True.
    + right. exists d, loaded, x. split_and!; [done | done | by right | done | done].
  - rewrite (apply_eval_plain_run ctx sm st Hema). cbn. split; [done | by left].
Qed.

Lemma validate_data a ctx e sm st :
  wf a sm →
  let v := validate ctx e (World sm st) in
  let ev := apply_eval ctx (World sm st) in
  net (final v) = st
  ∨ net (final v) = net (final ev)
    ∧ ((∃ x, result ev = Raise x ∧ result v = Raise x) ∨ ∃ mind_res, result ev = Ret mind_res).
Proof.
  intros Hwf v ev. subst v ev. rewrite validate_closed. cbn [self].
  destruct (dataset_val sm); [|by left].
  destruct (val_start_epoch sm <=? e); [|by left].
  destruct (py_mod _ _) as [m|]; [|by left].
  destruct (m =? 0); [|by left].
  right.
  destruct (apply_eval ctx (World sm st)) as [[mind_res|x] w' log]; cbn; [|eauto].
  destruct (fill_res _ _ _ _) as [local|x]; cbn; [|eauto].
  pose proof (reduce_metrics_keeps_net ctx local (net w') w' eq_refl) as H2.
  destruct (reduce_metrics ctx local w') as [[res|x] w'' l2]; cbn in *; [|eauto].
  pose proof (track_best_keeps_net (original_args ctx) e res (net w') w'' H2) as H3.
  destruct (track_best _ _ _ _) as [o s l3]; cbn in *. eauto.
Qed.

(** X19. The parameter data after an epoch end.  For a callback without
    EMA the call changes no parameter data at all.  With EMA every online
    parameter (those of [model.train_network]) has, at the end of the
    call, the data it had at its start, unless [load_param_into_net] or
    [Model.eval] raised during the validation: then the call raises the
    same exception and the parameter data is as [load_param_into_net]
    left it.  In particular a call that returns has restored the online
    parameters. *)
Theorem epoch_end_keeps_parameters a sm st ctx :
  reachable a sm →
  let r := on_train_epoch_end ctx (World sm st) in
  let net_cell :=
    if dataset_sink_mode sm
    then network (train_network (original_args ctx))
    else outer (train_network (original_args ctx)) in
  let target := network (model_train_network (model sm)) in
  let online := get_parameters (outer (model_train_network (model sm))) in
  (ema sm = false → ∀ n, net (final r) n = st n)
  ∧ ((∀ n, n ∈ online → net (final r) n = st n)
     ∨ ∃ ema_dict loaded e,
         ema sm = true
         ∧ collect_ema (get_parameters net_cell) st ∅ = Ret ema_dict
         ∧ (load_param_into_net target ema_dict st = (loaded, Some e)
            ∨ load_param_into_net target ema_dict st = (loaded, None)
              ∧ model_eval (dataset_val sm) loaded = Raise e)
         ∧ result r = Raise e ∧ net (final r) = loaded)
  ∧ (result r = Ret () → ∀ n, n ∈ online → net (final r) n = st n).
Proof.
  intros Hreach r net_cell target online. apply reachable_wf in Hreach as Hwf.
  assert (Hnet : net (final r) = st
                 ∨ net (final r) = net (final (apply_eval ctx (World sm st)))
                   ∧ ((∃ x, result (apply_eval ctx (World sm st)) = Raise x
                            ∧ result r = Raise x)
                      ∨ ∃ mind_res, result (apply_eval ctx (World sm st)) = Ret mind_res)).
  { subst r. destruct (summary_record sm) as [d|] eqn:Hsum.
    - destruct (epoch_end_parts ctx (World sm st) d Hsum) as (loss & log0 & _ & _ & Hrun).
      cbn [self] in Hrun.
      pose proof (validate_data a ctx (cur_epoch_of sm ctx) sm st Hwf) as Hv.
      cbn zeta in Hv.
      destruct (validate ctx (cur_epoch_of sm ctx) (World sm st)) as [[res|x] w1 l1];
        cbn in Hrun, Hv; rewrite Hrun; cbn.
      2: { destruct Hv as [Hv|[Hv [(x0 & Hx & [= <-])|Hv']]];
             [by left | right; eauto | right; eauto]. }
      pose proof (save_and_log_keeps_net (original_args ctx)
                    (select_optimizer sm (original_args ctx)) (cur_epoch_of sm ctx)
                    (batch_num (original_args ctx)) loss res (net w1) w1 eq_refl) as Hs.
      cbn in Hs. rewrite Hs.
      destruct Hv as [Hv|[Hv [(x & _ & [=])|Hv']]]; [by left | right; eauto].
    - left. unfold on_train_epoch_end.
      destruct (get_loss_run (original_args ctx) (World sm st)) as (l & log & Hl & _).
      run. rewrite Hl. cbn. by rewrite Hsum. }
  destruct (apply_eval_data a ctx sm st Hwf) as [Hplain Hema]. cbn zeta in Hplain, Hema.
  fold net_cell target online in Hema.
  assert (Hmain : (∀ n, n ∈ online → net (final r) n = st n)
     ∨ ∃ ema_dict loaded e,
         ema sm = true
         ∧ collect_ema (get_parameters net_cell) st ∅ = Ret ema_dict
         ∧ (load_param_into_net target ema_dict st = (loaded, Some e)
            ∨ load_param_into_net target ema_dict st = (loaded, None)
              ∧ model_eval (dataset_val sm) loaded = Raise e)
         ∧ result r = Raise e ∧ net (final r) = loaded).
  { destruct Hnet as [->|[-> Hres]]; [by left|].
    destruct Hema as [Hon|(d & loaded & x & He & Hd & Hload & Hx & Hfin)]; [by left|].
    right. exists d, loaded, x. split_and!; [done | done | done | | done].
    destruct Hres as [(x' & Hx' & Hr)|[res Hres]]; congruence. }
  split_and!; [| done |].
  - intros Hno n. destruct Hnet as [->|[-> _]]; [done|]. by rewrite (Hplain Hno).
  - intros Hret. destruct Hmain as [Hon|(d & loaded & x & _ & _ & _ & Hx & _)]; [done|].
    congruence.
Qed.

(** ** StateMonitor.on_train_epoch_end: the names of the checkpoints *)

Lemma append_length s t :
  String.length (s +:+ t) = (String.length s + String.length t)%nat.
Proof.
  induction s as [|c s IH]; [done|].
  change (String c s +:+ t) with (String c (s +:+ t)). cbn. by rewrite IH.
Qed.

Lemma append_cancel_r s1 s2 t : s1 +:+ t = s2 +:+ t → s1 = s2.
Proof.
  revert s2. induction s1 as [|c s1 IH]; intros [|c' s2] Heq; [done| | |].
  - apply (f_equal String.length) in Heq.
    change (String c' s2 +:+ t) with (String c' (s2 +:+ t)) in Heq.
    change ("" +:+ t) with t in Heq. cbn in Heq. rewrite append_length in Heq. lia.
  - apply (f_equal String.length) in Heq.
    change (String c s1 +:+ t) with (String c (s1 +:+ t)) in Heq.
    change ("" +:+ t) with t in Heq. cbn in Heq. rewrite append_length in Heq. lia.
  - change (String c s1 +:+ t) with (String c (s1 +:+ t)) in Heq.
    change (String c' s2 +:+ t) with (String c' (s2 +:+ t)) in Heq.
    injection Heq as -> Heq. f_equal. by apply IH.
Qed.

(** Joined to one directory, two file names with a common non-empty
    start are joined to different paths unless they are equal. *)
Lemma os_path_join_inj dir c start x y :
  os_path_join dir (String c start +:+ x) = os_path_join dir (String c start +:+ y) →
  x = y.
Proof.
  unfold os_path_join, startswith.
  change (String c start +:+ x) with (String c (start +:+ x)).
  change (String c start +:+ y) with (String c (start +:+ y)).
  cbn [String.prefix].
  destruct (Ascii.ascii_dec _ c) as [_|_].
  - replace (String.prefix "" (start +:+ x)) with true by (by destruct (start +:+ x)).
    replace (String.prefix "" (start +:+ y)) with true by (by destruct (start +:+ y)).
    intros [= Heq]. by apply String.app_inj in Heq.
  - destruct (bool_decide (dir = "") || ends_with_sep dir); intros Heq.
    + apply String.app_inj in Heq. injection Heq as Heq. by apply String.app_inj in Heq.
    + do 2 apply String.app_inj in Heq. injection Heq as Heq.
      by apply String.app_inj in Heq.
Qed.

(** The path of the numbered checkpoint names the epoch. *)
Lemma ckpt_save_path_inj dir name e1 e2 step :
  os_path_join dir (name +:+ "-" +:+ py_str e1 +:+ "_" +:+ py_str step +:+ ".ckpt")
  = os_path_join dir (name +:+ "-" +:+ py_str e2 +:+ "_" +:+ py_str step +:+ ".ckpt") →
  e1 = e2.
Proof.
  intros Heq.
  assert (py_str e1 +:+ "_" +:+ py_str step +:+ ".ckpt"
          = py_str e2 +:+ "_" +:+ py_str step +:+ ".ckpt") as Hs.
  { destruct name as [|c name].
    - by apply (os_path_join_inj dir _ "") in Heq.
    - apply os_path_join_inj in Heq. by apply String.app_inj in Heq. }
  apply append_cancel_r in Hs. by apply pretty_Z_inj in Hs.
Qed.

Lemma epoch_end_manager_path a sm st ctx k m p :
  reachable a sm →
  ManagerSaveCkpoint k m p ∈ emitted (on_train_epoch_end ctx (World sm st)) →
  p = os_path_join (arg_ckpt_dir a)
        (arg_model_name a +:+ "-" +:+ py_str (cur_epoch_num (original_args ctx) + arg_last_epoch a)
         +:+ "_" +:+ py_str (batch_num (original_args ctx)) +:+ ".ckpt").
Proof.
  intros Hreach Hin. apply reachable_wf in Hreach.
  set (w := World sm st) in *.
  destruct (summary_record sm) as [d|] eqn:Hsr.
  2: { destruct (epoch_end_not_entered ctx w Hsr) as [_ Hev].
       by destruct (Hev _ Hin) as [?|[msg ?]]. }
  destruct (epoch_end_parts ctx w d Hsr) as (loss & log0 & _ & Hlog0 & Hrun).
  cbn zeta in Hrun. change (self w) with sm in Hrun.
  destruct (validate_no_checkpoint ctx (cur_epoch_of sm ctx) w I) as [Hv _].
  pose proof (validate_keeps_wf a ctx (cur_epoch_of sm ctx) w Hreach) as Hwf1.
  destruct (validate ctx (cur_epoch_of sm ctx) w) as [[res|x] w1 l1];
    cbn in Hrun, Hv, Hwf1; rewrite Hrun in Hin; cbn in Hin.
  - apply elem_of_app in Hin as [Hin|Hin].
    { split_elem Hin; [|done]. by destruct (Hlog0 _ Hin) as [?|[msg ?]]. }
    apply elem_of_app in Hin as [Hin|Hin]; [by apply (omap_nil_elem _ _ _ Hv) in Hin|].
    apply elem_of_app in Hin as [Hin|Hin];
      [|by destruct (result (save_and_log _ _ _ _ _ _ _)); split_elem Hin].
    apply save_and_log_events in Hin.
    destruct Hin as [[?|[q ?]]|[[? _]|[(y & _ & Heq & _)|[[f ?]|[?|[?|[?|(?&?&_&_&?)]]]]]]];
      try discriminate.
    injection Heq as _ _ ->.
    rewrite (wf_ckpt_dir _ _ Hwf1), (wf_model_name _ _ Hwf1).
    unfold cur_epoch_of. by rewrite (wf_last_epoch _ _ Hreach).
  - apply elem_of_app in Hin as [Hin|Hin].
    { split_elem Hin; [|done]. by destruct (Hlog0 _ Hin) as [?|[msg ?]]. }
    by apply (omap_nil_elem _ _ _ Hv) in Hin.
Qed.

(** X20. The numbered checkpoints of different epochs have different
    paths.  When two epoch ends of callbacks of the same arguments, with
    the same [batch_num], hand the checkpoint manager the same path, they
    are ends of the same epoch [cur_epoch_num]. *)
Theorem numbered_checkpoints_name_their_epoch a sm1 st1 ctx1 sm2 st2 ctx2 k1 m1 k2 m2 p :
  reachable a sm1 → reachable a sm2 →
  batch_num (original_args ctx1) = batch_num (original_args ctx2) →
  ManagerSaveCkpoint k1 m1 p ∈ emitted (on_train_epoch_end ctx1 (World sm1 st1)) →
  ManagerSaveCkpoint k2 m2 p ∈ emitted (on_train_epoch_end ctx2 (World sm2 st2)) →
  cur_epoch_num (original_args ctx1) = cur_epoch_num (original_args ctx2).
Proof.
  intros Hr1 Hr2 Hbatch Hin1 Hin2.
  apply (epoch_end_manager_path a) in Hin1; [|done].
  apply (epoch_end_manager_path a) in Hin2; [|done].
  rewrite Hin1, Hbatch in Hin2. apply ckpt_save_path_inj in Hin2. lia.
Qed.

(** ** StateMonitor.on_train_epoch_end: when it returns *)

Lemma collect_ema_returns names st d0 :
  (∀ name, name ∈ names → startswith "ema" name = true → contains "ema." name = true) →
  ∃ d, collect_ema names st d0 = Ret d.
Proof.
  revert d0. induction names as [|name names IH]; intros d0 Hnames; [by exists d0|].
  cbn [collect_ema].
  assert (∀ x, x ∈ names → startswith "ema" x = true → contains "ema." x = true) as Hrest.
  { intros x Hx. apply Hnames. by apply list_elem_of_further. }
  destruct (startswith "ema" name) eqn:Hstart; [|by apply IH].
  destruct (split "ema." name !! 1%nat) as [key|] eqn:Hkey; [by apply IH|].
  apply split_second_None in Hkey.
  rewrite (Hnames name (list_elem_of_here _ _) Hstart) in Hkey. discriminate.
Qed.

Lemma apply_eval_returns a ctx sm st :
  wf a sm →
  (∀ c d st', (load_param_into_net c d st').2 = None) →
  (∀ st', ∃ mind_res, model_eval (dataset_val sm) st' = Ret mind_res) →
  (ema sm = true →
   ∀ name,
     name ∈ get_parameters
              (if dataset_sink_mode sm
               then network (train_network (original_args ctx))
               else outer (train_network (original_args ctx))) →
     startswith "ema" name = true → contains "ema." name = true) →
  ∃ st' w' (log : list (event num)),
    apply_eval ctx (World sm st) = Run (model_eval (dataset_val sm) st') w' log.
Proof.
  intros Hwf Hload Heval Hnames. destruct (ema sm) eqn:Hema.
  - rewrite (apply_eval_ema_run a ctx sm st Hwf Hema).
    destruct (collect_ema_returns _ st ∅ (Hnames eq_refl)) as [d ->]. cbn zeta.
    specialize (Hload (network (model_train_network (model sm))) d st).
    destruct (load_param_into_net _ d st) as [loaded fault]. cbn in Hload. subst fault.
    cbn. destruct (Heval loaded) as [mind_res Hres]. rewrite Hres.
    eexists loaded, _, _. by rewrite Hres.
  - rewrite (apply_eval_plain_run ctx sm st Hema). by eexists _, _, _.
Qed.

Lemma fill_res_returns (mind_res : gmap string num) names i res0 :
  (∀ n, n ∈ names → is_Some (mind_res !! n)) →
  ∃ res, fill_res mind_res names i res0 = Ret res ∧ length res = length res0.
Proof.
  revert i res0. induction names as [|n names IH]; intros i res0 Hall; [by exists res0|].
  cbn [fill_res]. destruct (Hall n (list_elem_of_here _ _)) as [v ->].
  destruct (IH (S i) (<[i := num_mul_Z v 100]> res0)) as (res & -> & Hlen).
  { intros x Hx. apply Hall. by apply list_elem_of_further. }
  exists res. split; [done|]. by rewrite Hlen, length_insert.
Qed.

Lemma track_best_returns (cb : cb_params num) e res w :
  (rank_id (self w) = 0 →
   res ≠ [] ∧ is_Some (summary_record (self w)) ∧ is_Some (best_ckpt_path (self w))) →
  result (track_best cb e res w) = Ret ().
Proof.
  intros Hcond. destruct (decide (rank_id (self w) = 0)) as [Hr|Hr].
  - destruct (Hcond Hr) as (Hres & [d Hd] & [p Hp]).
    by apply (track_best_reports cb e res w d p).
  - unfold track_best. run. by rewrite (bool_decide_false _ Hr).
Qed.

Lemma save_and_log_returns (cb : cb_params num) opt e step loss res w :
  (rank_id (self w) = 0 →
   ckpt_save_interval (self w) ≠ 0 ∧ is_Some (res !! 0%nat) ∧ is_Some loss
   ∧ is_Some (log_txt_fp (self w))) →
  result (save_and_log cb opt e step loss res w) = Ret ().
Proof.
  intros Hcond. rewrite save_and_log_closed. cbn zeta. unfold log_tail.
  destruct (decide (rank_id (self w) = 0)) as [Hr|Hr];
    [rewrite (bool_decide_true _ Hr) | by rewrite (bool_decide_false _ Hr)].
  destruct (Hcond Hr) as (Hint & [x ->] & [l ->] & [fp ->]).
  destruct (py_mod e (ckpt_save_interval (self w))) as [m|] eqn:Hm;
    [|by apply py_mod_None in Hm].
  by destruct ((m =? 0) || (e =? epoch_num cb)).
Qed.

Lemma validate_returns a ctx e w :
  wf a (self w) → is_Some (summary_record (self w)) →
  val_interval (self w) ≠ 0 → metric_name (self w) ≠ [] →
  (∀ c d st', (load_param_into_net c d st').2 = None) →
  (∀ ds st', dataset_val (self w) = Some ds →
     ∃ mind_res, model_eval (Some ds) st' = Ret mind_res
                 ∧ ∀ n, n ∈ metric_name (self w) → is_Some (mind_res !! n)) →
  (ema (self w) = true →
   ∀ name,
     name ∈ get_parameters
              (if dataset_sink_mode (self w)
               then network (train_network (original_args ctx))
               else outer (train_network (original_args ctx))) →
     startswith "ema" name = true → contains "ema." name = true) →
  ∃ res, result (validate ctx e w) = Ret res.
Proof.
  intros Hwf [d Hsr] Hint Hnames Hload Hmetrics Hema.
  rewrite validate_closed. cbn zeta.
  destruct (dataset_val (self w)) as [ds|] eqn:Hds; [|by eexists].
  destruct (val_start_epoch (self w) <=? e); [|by eexists].
  destruct (py_mod _ _) as [m|] eqn:Hm; [|by apply py_mod_None in Hm].
  destruct (m =? 0); [|by eexists].
  destruct w as [sm st]. cbn in *.
  pose proof (apply_eval_keeps_wf a ctx (World sm st) Hwf) as Hwf'.
  destruct (apply_eval_tracking ctx (World sm st)) as [Hview _].
  destruct (apply_eval_returns a ctx sm st Hwf Hload) as (st' & w' & log & Hap);
    [|done|].
  { intros st'. rewrite Hds. destruct (Hmetrics ds st' eq_refl) as (m' & -> & _).
    by eexists. }
  rewrite Hds in Hap. destruct (Hmetrics ds st' eq_refl) as (mind_res & Hres & Hall).
  rewrite Hres in Hap.
  rewrite Hap in Hwf', Hview |- *. cbn in Hwf', Hview.
  destruct (fill_res_returns mind_res (metric_name sm) 0
              (map (fun _ => num_zero) (metric_name sm))) as (local & -> & Hlen).
  { done. }
  rewrite length_map in Hlen.
  assert (∃ res (l2 : list (event num)),
            reduce_metrics ctx local w' = Run (Ret res) w' l2
            ∧ length res = length local) as (res & l2 & -> & Hlen2).
  { unfold reduce_metrics. run. rewrite (wf_all_reduce _ _ Hwf').
    destruct (1 <? device_num (self w')); cbn.
    - eexists _, _. split; [done|]. by rewrite length_map, AllReduceSum_length.
    - by eexists _, _. }
  assert (result (track_best (original_args ctx) e res w') = Ret ()) as Htb.
  { apply track_best_returns. intros Hr.
    unfold tracking_view in Hview. injection Hview as _ _ _ _ Hbest _ Hsum _ _.
    split_and!.
    - intros ->. destruct (metric_name sm); [done|]. cbn in *. lia.
    - rewrite Hsum, Hsr. by eexists.
    - rewrite (wf_best_ckpt_path _ _ Hwf'), (bool_decide_true _ Hr). by eexists. }
  destruct (track_best _ _ _ _) as [[[]|x] s l3]; [|discriminate]. by eexists.
Qed.

(** X21. When an epoch end returns.  For an entered callback of the
    arguments [a], with non-zero [val_interval] and [ckpt_save_interval]
    and a non-empty [metric_name], an epoch end returns, and ends with the
    step of the summary, provided the network output carries a loss,
    [load_param_into_net] does not raise, the evaluation returns and
    reports every name of [metric_name], and (with EMA) every parameter
    whose name starts with "ema" contains "ema.". *)
Theorem epoch_end_returns a sm st ctx l :
  reachable a sm → is_Some (summary_record sm) →
  val_interval sm ≠ 0 → ckpt_save_interval sm ≠ 0 → metric_name sm ≠ [] →
  let w := World sm st in
  let cb := original_args ctx in
  result (_get_loss cb w) = Ret (Some l) →
  (∀ c d st', (load_param_into_net c d st').2 = None) →
  (∀ ds st', dataset_val sm = Some ds →
     ∃ mind_res, model_eval (Some ds) st' = Ret mind_res
                 ∧ ∀ n, n ∈ metric_name sm → is_Some (mind_res !! n)) →
  (ema sm = true →
   ∀ name,
     name ∈ get_parameters
              (if dataset_sink_mode sm
               then network (train_network cb) else outer (train_network cb)) →
     startswith "ema" name = true → contains "ema." name = true) →
  let r := on_train_epoch_end ctx w in
  result r = Ret ()
  ∧ last (emitted r) = Some (SummaryRecordStep (global_step (select_optimizer sm cb))).
Proof.
  intros Hreach [d Hsr] Hval Hckpt Hnames w cb Hloss Hload Hmetrics Hema r. subst r.
  apply reachable_wf in Hreach.
  destruct (epoch_end_parts ctx w d Hsr) as (loss & log0 & Hrun0 & _ & Hrun).
  cbn zeta in Hrun. change (self w) with sm in Hrun. fold cb in Hrun, Hrun0.
  rewrite Hrun0 in Hloss. cbn in Hloss. injection Hloss as ->.
  destruct (validate_returns a ctx (cur_epoch_of sm ctx) w) as [res Hres]; [done..|eauto|].
  pose proof (validate_keeps_wf a ctx (cur_epoch_of sm ctx) w Hreach) as Hwf1.
  pose proof (validate_length ctx (cur_epoch_of sm ctx) w res Hres) as Hlen.
  rewrite Hres in Hrun. cbn in Hwf1, Hlen.
  rewrite (save_and_log_returns cb) in Hrun.
  - rewrite Hrun. cbn. split; [done|]. rewrite !app_assoc. apply last_snoc.
  - intros Hr. split_and!.
    + by rewrite (wf_ckpt_save_interval _ _ Hwf1), <- (wf_ckpt_save_interval _ _ Hreach).
    + destruct res; [|by eexists]. destruct (metric_name sm); [done|]. cbn in Hlen. lia.
    + by eexists.
    + rewrite (wf_log_txt_fp _ _ Hwf1), (bool_decide_true _ Hr). by eexists.
Qed.

(** ** StateMonitor.on_train_end *)

(** X6. [on_train_end] leaves the callback alone.  Without a validation
    dataset, or on a rank other than 0, it prints the closing rule only.
    On rank 0 with a dataset it prints "Finish training!", then the first
    metric name with [best_res] and [best_epoch], then the rule; when
    [metric_name] is empty it raises IndexError after "Finish training!"
    and the rule is not printed. *)
Theorem on_train_end_reports_best ctx w :
  let sm := self w in
  let r := on_train_end ctx w in
  let reporting := is_Some (dataset_val sm) ∧ rank_id sm = 0 in
  final r = w
  ∧ (¬ reporting → result r = Ret () ∧ emitted r = [Shared (Print double_rule)])
  ∧ (reporting → ∀ name, metric_name sm !! 0%nat = Some name →
       result r = Ret ()
       ∧ emitted r = [Shared (Print "Finish training!");
                      PrintBest name (best_res sm) (best_epoch sm);
                      Shared (Print double_rule)])
  ∧ (reporting → metric_name sm = [] →
       result r = Raise IndexError
       ∧ emitted r = [Shared (Print "Finish training!")]).
Proof.
  intros sm r reporting. subst r reporting. unfold on_train_end. run. fold sm.
  destruct (dataset_val sm) as [ds|] eqn:Hds; cbn.
  - destruct (decide (rank_id sm = 0)) as [Hr|Hr].
    + rewrite (bool_decide_true _ Hr). cbn.
      destruct (metric_name sm) as [|name names] eqn:Hn; cbn.
      * split_and!; [done | intros []; by split | by intros _ name | done].
      * split_and!; [done | intros []; by split | | by intros _].
        intros _ name' [= <-]. done.
    + rewrite (bool_decide_false _ Hr). cbn.
      split_and!; [done | done | by intros [_ ?] | by intros [_ ?]].
  - split_and!; [done | done | | ]; intros [[? [=]] _].
Qed.

Section TrainEnd.
Context {order : NumOrder num}.

(** X7. After any sequence of epoch ends from a callback with the best
    result of a fresh one ([best_res = 0], [best_epoch = -1]), the line
    [on_train_end] prints names a metric that no metric reported by an
    epoch end exceeds, together with the epoch that reported it; or it
    names 0 and epoch -1. *)
Theorem on_train_end_reports_running_maximum calls sm0 ctx st name x e :
  best_res sm0 = num_zero → best_epoch sm0 = -1 →
  let sm := (epochs calls sm0).1 in
  let h := (epochs calls sm0).2 in
  PrintBest name x e ∈ emitted (on_train_end ctx (World sm st)) →
  metric_name sm !! 0%nat = Some name
  ∧ (∀ e' y, (e', y) ∈ h → num_gt y x = false)
  ∧ ((x = num_zero ∧ e = -1) ∨ (e, x) ∈ h).
Proof.
  intros Hres Hep sm h Hin.
  assert (metric_name sm !! 0%nat = Some name ∧ x = best_res sm ∧ e = best_epoch sm)
    as (Hname & -> & ->).
  { revert Hin. unfold on_train_end. run.
    destruct (dataset_val sm); cbn; [|by intros ?%list_elem_of_singleton].
    destruct (bool_decide _); cbn; [|by intros ?%list_elem_of_singleton].
    destruct (metric_name sm) as [|name' names]; cbn;
      [by intros ?%list_elem_of_singleton|].
    intros Hin. apply elem_of_cons in Hin as [?|Hin]; [done|].
    apply elem_of_cons in Hin as [[= -> ]|Hin]; [done|].
    by apply list_elem_of_singleton in Hin. }
  destruct (epochs_best calls sm0) as (_ & Hmax & Hcase).
  fold sm h in Hmax, Hcase.
  split_and!; [done | done |].
  destruct Hcase as [(Hr & He & _)|(pre & e' & y & post & Hh & Hr & He & _)].
  - left. split; congruence.
  - right. rewrite Hh, Hr, He. apply elem_of_app. right. apply list_elem_of_here.
Qed.

End TrainEnd.

End Properties.

(** * The model at work

    The rationals satisfy the laws of [NumOrder]; the theorems above are
    applied to the run of [demo_args]. *)

#[export] Instance Q_NumOrder : NumOrder Q.
Proof.
  assert (Hgt : ∀ x y : Q, num_gt x y = true ↔ (y < x)%Q).
  { intros x y. cbn. rewrite negb_true_iff, <- not_true_iff_false, Qle_bool_iff.
    split; [apply Qnot_le_lt | apply Qlt_not_le]. }
  split.
  - intros x. apply not_true_iff_false. rewrite Hgt. apply Qlt_irrefl.
  - intros x y z. rewrite !Hgt. intros Hxy Hyz. by eapply Qlt_trans.
  - intros x y z. rewrite !Hgt. intros Hzx.
    destruct (Qlt_le_dec y x) as [?|Hle]; [by left|].
    right. by eapply Qlt_le_trans.
Qed.

Lemma demo_init_run :
  result (__init__ demo_args (demo_store 0 0)) = Ret demo_initial.
Proof. vm_compute. reflexivity. Qed.

Lemma demo_reachable : reachable demo_args demo_entered.
Proof.
  change demo_entered
    with (self (final (__enter__ (World demo_initial (demo_store 0 0))))).
  apply reach_enter, (reach_init _ (demo_store 0 0)), demo_init_run.
Qed.

Lemma demo_callback_reachable a sm :
  result (__init__ a (demo_store 0 0)) = Ret sm → reachable a (demo_callback a).
Proof.
  intros Hinit. unfold demo_callback. rewrite Hinit.
  apply reach_enter, (reach_init _ (demo_store 0 0)), Hinit.
Qed.

(** C1 at work: at the first epoch end the dictionary holds the averaged
    weight under "fc.weight", the evaluation scores it, and the three
    online parameters of the run come back. *)
Lemma apply_eval_restores_online_params_witness :
  reachable demo_args demo_entered ∧ ema demo_entered = true
  ∧ ema_source (get_parameters demo_outer) "fc.weight" = Some "ema.fc.weight"
  ∧ result (apply_eval (demo_ctx 1 70) (World demo_entered (demo_store (1#5) (3#5))))
    = Ret (<["accuracy" := (3#5)%Q]> ∅)
  ∧ ∃ online,
      online_params demo_entered = Some online
      ∧ ∀ n, n ∈ online →
          net (final (apply_eval (demo_ctx 1 70)
                        (World demo_entered (demo_store (1#5) (3#5))))) n
          = demo_store (1#5) (3#5) n.
Proof.
  split; [exact demo_reachable|]. split; [reflexivity|].
  split; [vm_compute; reflexivity|]. split; [vm_compute; reflexivity|].
  destruct (apply_eval_restores_online_params demo_args demo_entered
              (demo_store (1#5) (3#5)) (demo_ctx 1 70) demo_reachable eq_refl)
    as (online & Hon & _ & _ & Hback & _).
  exists online. split; [exact Hon|].
  apply (Hback (<["accuracy" := (3#5)%Q]> ∅)). vm_compute. reflexivity.
Defined.

(** C1 as stated fails when the evaluation raises: [apply_eval] raises
    with the averaged weight still loaded, so the online parameter
    "fc.weight" does not have at exit the data it had at entry. *)
Lemma apply_eval_restores_online_params_counterexample :
  @reachable Q _ failing_eval demo_args demo_entered
  ∧ ema demo_entered = true
  ∧ online_params demo_entered = Some ["fc.weight"; "ema.fc.weight"; "global_step"]
  ∧ result (@apply_eval Q failing_eval (demo_ctx 1 70)
              (World demo_entered (demo_store (1#5) (3#5))))
    = Raise (RuntimeError "eval")
  ∧ demo_store (1#5) (3#5) "fc.weight" = [(1#5)%Q]
  ∧ net (final (@apply_eval Q failing_eval (demo_ctx 1 70)
                  (World demo_entered (demo_store (1#5) (3#5))))) "fc.weight"
    = [(3#5)%Q].
Proof.
  split_and!; try (vm_compute; reflexivity).
  change demo_entered
    with (self (final (__enter__ (World demo_initial (demo_store 0 0))))).
  apply (@reach_enter Q _ failing_eval),
    (@reach_init Q _ failing_eval _ (demo_store 0 0)), demo_init_run.
Qed.

(** C2 at work: the three epoch ends compute 65, 85 and 60; the best
    result is 85, of epoch 2. *)
Lemma best_res_is_running_maximum_witness :
  rank_id demo_entered = 0 ∧ best_res demo_entered = num_zero
  ∧ best_epoch demo_entered = -1
  ∧ (validations demo_calls demo_entered).2
    = [(1, (650#10)%Q); (2, (850#10)%Q); (3, (1200#20)%Q)]
  ∧ ∃ pre post,
      (validations demo_calls demo_entered).2 = pre ++ (2, (850#10)%Q) :: post
      ∧ best_res (validations demo_calls demo_entered).1 = (850#10)%Q
      ∧ best_epoch (validations demo_calls demo_entered).1 = 2.
Proof.
  split; [reflexivity|]. split; [reflexivity|]. split; [reflexivity|].
  split; [vm_compute; reflexivity|].
  destruct (best_res_is_running_maximum demo_calls demo_entered)
    as (_ & [(Hzero & _)|(pre & e & x & post & Hh & Hres & Hepoch & _)] & _);
    [reflexivity..| |].
  - exfalso. revert Hzero. vm_compute. discriminate.
  - exists pre, post.
    assert (He : e = 2) by (rewrite <- Hepoch; vm_compute; reflexivity).
    assert (Hx : x = (850#10)%Q) by (rewrite <- Hres; vm_compute; reflexivity).
    rewrite <- He, <- Hx. by split_and!.
Defined.



(** C5 at work: with two devices that score 60 and 70, the validation
    line shows their mean. *)
Lemma validation_metric_is_device_mean_witness :
  reachable demo_args demo_entered
  ∧ device_num demo_entered = 2
  ∧ PrintValidation [("accuracy", (650#10)%Q)]
    ∈ emitted (on_train_epoch_end (demo_ctx 1 70)
                 (World demo_entered (demo_store (1#5) (3#5)))).
Proof.
  split; [exact demo_reachable|]. split; [reflexivity|].
  assert (Hsum : is_Some (summary_record demo_entered)) by (by eexists).
  assert (Hle : val_start_epoch demo_entered
                ≤ cur_epoch_num (original_args (demo_ctx 1 70)) + last_epoch demo_entered)
    by (vm_compute; discriminate).
  assert (Heval : result (apply_eval (demo_ctx 1 70)
                            (World demo_entered (demo_store (1#5) (3#5))))
                  = Ret (<["accuracy" := (3#5)%Q]> ∅))
    by (vm_compute; reflexivity).
  destruct (validation_metric_is_device_mean demo_args demo_entered
              (demo_store (1#5) (3#5)) (demo_ctx 1 70) (Dataset 0)
              (<["accuracy" := (3#5)%Q]> ∅) [(3#5)%Q]
              demo_reachable Hsum eq_refl eq_refl Hle eq_refl Heval eq_refl)
    as [(Hprint & _) _].
  exact Hprint.
Defined.



(** * The further properties at work *)

(** Membership in the events of a run that is computed. *)
Ltac in_run :=
  vm_compute; repeat first [apply list_elem_of_here | apply list_elem_of_further].

(** X1 at work: the last step of an epoch of ten prints its line, and
    the clock is reset after it. *)
Lemma on_train_step_end_logs_iff_witness :
  PrintStep 1 10 10 [(6#16)%Q] (29#1000)%Q
  ∈ emitted (on_train_step_end (demo_ctx 1 70)
               (World demo_entered (demo_store (1#5) (3#5))))
  ∧ last (emitted (on_train_step_end (demo_ctx 1 70)
                     (World demo_entered (demo_store (1#5) (3#5)))))
    = Some ResetStart.
Proof.
  destruct (on_train_step_end_logs_iff (demo_ctx 1 70)
              (World demo_entered (demo_store (1#5) (3#5))) 9 10
              [(6#16)%Q] (29#1000)%Q) as (_ & _ & Hiff & Hdue & _);
    [vm_compute; reflexivity..|].
  assert (Hd : 10 = 0 ∨ batch_num (original_args (demo_ctx 1 70)) ≤ 9 + 1 ∨ 9 = 0).
  { right. left. vm_compute. discriminate. }
  split; [by apply Hiff|].
  rewrite (Hdue Hd). vm_compute. reflexivity.
Defined.

(** X2 at work: step 25 of epochs of five shows batch 5 of 5. *)
Lemma on_train_step_end_line_in_range_witness :
  PrintStep 1 5 5 [(1#2)%Q] (29#1000)%Q
  ∈ emitted (on_train_step_end (demo_step 25 5 (OutFloat (1#2)%Q))
               (World demo_entered (demo_store (1#5) (3#5))))
  ∧ 1 ≤ 5 ≤ 5.
Proof.
  assert (Hin : PrintStep 1 5 5 [(1#2)%Q] (29#1000)%Q
    ∈ emitted (on_train_step_end (demo_step 25 5 (OutFloat (1#2)%Q))
                 (World demo_entered (demo_store (1#5) (3#5))))) by in_run.
  destruct (on_train_step_end_line_in_range _ _ _ _ _ _ _ Hin) as (_ & _ & _ & Hrange & _).
  split; [exact Hin | apply Hrange; reflexivity].
Defined.

(** X3 at work: step 11 is the first of the second epoch of ten. *)
Lemma on_train_step_end_logs_epoch_boundaries_witness :
  PrintStep 1 1 10 [(1#2)%Q] (29#1000)%Q
  ∈ emitted (on_train_step_end (demo_step 11 10 (OutFloat (1#2)%Q))
               (World demo_entered (demo_store (1#5) (3#5)))).
Proof.
  destruct (on_train_step_end_logs_epoch_boundaries
              (demo_step 11 10 (OutFloat (1#2)%Q))
              (World demo_entered (demo_store (1#5) (3#5))) [(1#2)%Q] (29#1000)%Q)
    as [Hfirst _]; [reflexivity | discriminate | vm_compute; reflexivity..|].
  apply Hfirst. reflexivity.
Defined.

(** X4 at work: an epoch of no batches. *)
Lemma on_train_step_end_zero_division_witness :
  result (on_train_step_end (demo_step 1 0 (OutFloat (1#2)%Q))
            (World demo_entered (demo_store (1#5) (3#5))))
  = Raise ZeroDivisionError.
Proof.
  apply (on_train_step_end_zero_division (demo_step 1 0 (OutFloat (1#2)%Q))
           (World demo_entered (demo_store (1#5) (3#5)))).
  left. reflexivity.
Defined.

(** X5 at work: the last step of an epoch of a network without output. *)
Lemma on_train_step_end_without_loss_witness :
  result (on_train_step_end (demo_step 10 10 OutNone)
            (World demo_entered (demo_store (1#5) (3#5))))
  = Raise (AttributeError "asnumpy").
Proof.
  destruct (on_train_step_end_without_loss (demo_step 10 10 OutNone)
              (World demo_entered (demo_store (1#5) (3#5))) 9 10 (29#1000)%Q)
    as [Hdue _]; [vm_compute; reflexivity..|].
  apply Hdue. right. left. vm_compute. discriminate.
Defined.

(** X6 at work: the report of the callback of the run before any epoch. *)
Lemma on_train_end_reports_best_witness :
  emitted (on_train_end (demo_ctx 1 70) (World demo_entered (demo_store 0 0)))
  = [Shared (Print "Finish training!"); PrintBest "accuracy" 0%Q (-1);
     Shared (Print double_rule)].
Proof.
  destruct (on_train_end_reports_best (demo_ctx 1 70)
              (World demo_entered (demo_store 0 0))) as (_ & _ & Hreport & _).
  apply (Hreport (conj (ex_intro _ (Dataset 0) eq_refl) eq_refl) "accuracy" eq_refl).
Defined.

(** X7 at work: after the three epochs the report names the metric of
    the second one. *)
Lemma on_train_end_reports_running_maximum_witness :
  PrintBest "accuracy" (850#10)%Q 2
  ∈ emitted (on_train_end (demo_ctx 1 70)
               (World (epochs demo_calls demo_entered).1 (demo_store 0 0)))
  ∧ (2, (850#10)%Q) ∈ (epochs demo_calls demo_entered).2.
Proof.
  assert (Hin : PrintBest "accuracy" (850#10)%Q 2
    ∈ emitted (on_train_end (demo_ctx 1 70)
                 (World (epochs demo_calls demo_entered).1 (demo_store 0 0)))) by in_run.
  destruct (on_train_end_reports_running_maximum demo_calls demo_entered (demo_ctx 1 70)
              (demo_store 0 0) "accuracy" (850#10)%Q 2)
    as (_ & _ & [[Hzero _]|Hseen]);
    [reflexivity | reflexivity | exact Hin | discriminate Hzero |].
  split; [exact Hin | exact Hseen].
Defined.

(** X8 at work: [rank_id=0] with the default [device_num]. *)
Lemma init_needs_device_num_with_rank_id_witness :
  result (__init__ demo_args_rank_only (demo_store 0 0)) = Raise TypeError.
Proof.
  exact (proj1 (proj2 (proj2 (init_needs_device_num_with_rank_id demo_args_rank_only
                                (demo_store 0 0)))
                  0 eq_refl eq_refl)).
Defined.

(** X9 at work: rank 1 constructs without a file and keeps its manager. *)
Lemma only_rank_zero_writes_witness :
  emitted (__init__ (demo_args_with (Some 1) ["accuracy"] 1 2) (demo_store 0 0)) = []
  ∧ _manager (self (final (on_train_epoch_end (demo_ctx 2 90)
                             (World (demo_callback (demo_args_with (Some 1) ["accuracy"] 1 2))
                                (demo_store (1#5) (3#5))))))
    = _manager (demo_callback (demo_args_with (Some 1) ["accuracy"] 1 2)).
Proof.
  assert (Hreach : reachable (demo_args_with (Some 1) ["accuracy"] 1 2)
                     (demo_callback (demo_args_with (Some 1) ["accuracy"] 1 2))).
  { eapply demo_callback_reachable. vm_compute. reflexivity. }
  destruct (only_rank_zero_writes (demo_args_with (Some 1) ["accuracy"] 1 2) 1
              (demo_callback (demo_args_with (Some 1) ["accuracy"] 1 2))
              (demo_ctx 2 90) (demo_store (1#5) (3#5)) eq_refl)
    as (Hinit & _ & _ & _ & Hmanager & _); [discriminate | exact Hreach |].
  split; [apply Hinit | exact Hmanager].
Defined.

(** X10 at work: the callback of the run before [__enter__]. *)
Lemma hooks_require_enter_witness :
  result (on_train_epoch_end (demo_ctx 1 70) (World demo_initial (demo_store (1#5) (3#5))))
  = Raise (AttributeError "summary_record").
Proof.
  apply (hooks_require_enter demo_args (demo_store 0 0) demo_initial (demo_ctx 1 70)
           (demo_store (1#5) (3#5)) demo_init_run).
Defined.

(** X11 at work: the dictionary holds the averaged weight under the name
    of the online one. *)
Lemma apply_eval_loads_shadows_witness :
  ∃ ema_dict : gmap string (list Q),
    ema_dict !! "fc.weight" = Some [(3#5)%Q]
    ∧ result (apply_eval (demo_ctx 1 70) (World demo_entered (demo_store (1#5) (3#5))))
      = model_eval (Some (Dataset 0))
          (load_param_into_net demo_inner ema_dict (demo_store (1#5) (3#5))).1.
Proof.
  destruct (apply_eval_loads_shadows demo_args demo_entered (demo_store (1#5) (3#5))
              (demo_ctx 1 70) demo_reachable eq_refl) as (d & Hd & Hres).
  { intros name Hin Hstart. cbn in Hin. split_elem Hin; subst; try discriminate.
    exists "fc.weight". split; reflexivity. }
  exists d. split; [|exact Hres].
  rewrite Hd. vm_compute. reflexivity.
Defined.

(** X12 at work: a parameter "ema_decay". *)
Lemma apply_eval_raises_on_bare_ema_prefix_witness :
  result (apply_eval demo_ctx_bare_prefix (World demo_entered (demo_store (1#5) (3#5))))
  = Raise IndexError.
Proof.
  apply (apply_eval_raises_on_bare_ema_prefix demo_args demo_entered
           (demo_store (1#5) (3#5)) demo_ctx_bare_prefix "ema_decay" demo_reachable eq_refl).
  - in_run.
  - reflexivity.
  - reflexivity.
Defined.

(** X13 at work: the network of the run caches no parameter, so the
    first checkpoint clears the flag. *)
Lemma flush_from_cache_until_cleared_witness :
  _need_flush_from_cache
    (self (final (on_train_epoch_end (demo_ctx 2 90)
                    (World demo_entered (demo_store (1#5) (3#5))))))
  = false.
Proof.
  destruct (flush_from_cache_until_cleared (demo_ctx 2 90) demo_entered
              (demo_store (1#5) (3#5))) as [_ Hcalled].
  destruct Hcalled as (_ & _ & _ & Hflag); [in_run|].
  rewrite Hflag. reflexivity.
Defined.

(** X14 at work: the evaluation of the run reports "accuracy" only. *)
Lemma epoch_end_raises_KeyError_on_missing_metric_witness :
  ∃ missing,
    result (on_train_epoch_end (demo_ctx 2 90)
              (World (demo_callback
                        (demo_args_with (Some 0) ["accuracy"; "Top_5_Accuracy"] 1 2))
                 (demo_store (1#5) (3#5))))
    = Raise (KeyError missing).
Proof.
  destruct (epoch_end_raises_KeyError_on_missing_metric
              (demo_callback (demo_args_with (Some 0) ["accuracy"; "Top_5_Accuracy"] 1 2))
              (demo_store (1#5) (3#5)) (demo_ctx 2 90) (Dataset 0)
              (<["accuracy" := (3#5)%Q]> ∅) "Top_5_Accuracy")
    as [(pre & missing & post & _ & _ & _ & Hraise) _].
  - by eexists.
  - reflexivity.
  - vm_compute. discriminate.
  - vm_compute. reflexivity.
  - vm_compute. reflexivity.
  - in_run.
  - vm_compute. reflexivity.
  - exists missing. exact Hraise.
Defined.

(** X15 at work: [ckpt_save_interval = 0]. *)
Lemma epoch_end_zero_ckpt_save_interval_witness :
  result (on_train_epoch_end (demo_ctx 2 90)
            (World (demo_callback (demo_args_with (Some 0) ["accuracy"] 1 0))
               (demo_store (1#5) (3#5))))
  = Raise ZeroDivisionError.
Proof.
  apply (epoch_end_zero_ckpt_save_interval
           (demo_callback (demo_args_with (Some 0) ["accuracy"] 1 0))
           (demo_store (1#5) (3#5)) (demo_ctx 2 90) [(750#10)%Q]).
  - by eexists.
  - reflexivity.
  - reflexivity.
  - vm_compute. reflexivity.
Defined.

(** X16 at work: [val_interval = 0]. *)
Lemma epoch_end_zero_val_interval_witness :
  result (on_train_epoch_end (demo_ctx 2 90)
            (World (demo_callback (demo_args_with (Some 0) ["accuracy"] 0 2))
               (demo_store (1#5) (3#5))))
  = Raise ZeroDivisionError.
Proof.
  destruct (epoch_end_zero_val_interval
              (demo_callback (demo_args_with (Some 0) ["accuracy"] 0 2))
              (demo_store (1#5) (3#5)) (demo_ctx 2 90) (Dataset 0))
    as [Hfrom _]; [by eexists | reflexivity | reflexivity |].
  apply Hfrom. vm_compute. discriminate.
Defined.

(** X17 at work: no metric names.  With [val_interval = 1] the second
    epoch end raises at the report of its validation; with [val_interval
    = 2] it has a validation dataset and no validation due, and raises
    once the optimizer state is saved. *)
Lemma epoch_end_raises_IndexError_without_metric_names_witness :
  result (on_train_epoch_end (demo_ctx 2 90)
            (World (demo_callback (demo_args_with (Some 0) [] 1 2))
               (demo_store (1#5) (3#5))))
  = Raise IndexError
  ∧ is_Some (dataset_val (demo_callback (demo_args_with (Some 0) [] 2 2)))
  ∧ result (on_train_epoch_end (demo_ctx 2 90)
              (World (demo_callback (demo_args_with (Some 0) [] 2 2))
                 (demo_store (1#5) (3#5))))
    = Raise IndexError
  ∧ last (emitted (on_train_epoch_end (demo_ctx 2 90)
                     (World (demo_callback (demo_args_with (Some 0) [] 2 2))
                        (demo_store (1#5) (3#5)))))
    = Some (SaveCheckpoint SavedOptimizer "./ckpt/optim_resnet.ckpt").
Proof.
  assert (Hreach : ∀ k, 0 < k →
            reachable (demo_args_with (Some 0) [] k 2)
              (demo_callback (demo_args_with (Some 0) [] k 2))).
  { intros k Hk. eapply demo_callback_reachable. vm_compute. reflexivity. }
  split; [|split; [by eexists|]].
  - destruct (epoch_end_raises_IndexError_without_metric_names
                (demo_args_with (Some 0) [] 1 2)
                (demo_callback (demo_args_with (Some 0) [] 1 2))
                (demo_store (1#5) (3#5)) (demo_ctx 2 90) (Hreach 1 eq_refl))
      as [Hval _]; [by eexists | reflexivity | reflexivity |].
    apply (Hval (Dataset 0) (<["accuracy" := (3#5)%Q]> ∅)).
    + reflexivity.
    + vm_compute. discriminate.
    + vm_compute. reflexivity.
    + vm_compute. reflexivity.
  - destruct (epoch_end_raises_IndexError_without_metric_names
                (demo_args_with (Some 0) [] 2 2)
                (demo_callback (demo_args_with (Some 0) [] 2 2))
                (demo_store (1#5) (3#5)) (demo_ctx 2 90) (Hreach 2 eq_refl))
      as [_ Hskip]; [by eexists | reflexivity | reflexivity |].
    destruct (Hskip 0) as (Hres & Hlast & _).
    + right. right. exists 1. split; [vm_compute; reflexivity | discriminate].
    + vm_compute. reflexivity.
    + by left.
    + split; [exact Hres | exact Hlast].
Defined.

(** X18 at work: the second epoch end of the run appends its line. *)
Lemma result_log_line_per_epoch_witness :
  ∃ pre l res,
    emitted (on_train_epoch_end (demo_ctx 2 90)
               (World demo_entered (demo_store (1#5) (3#5))))
    = pre ++ [AppendResultLog "./ckpt/result.log" 2 l res; SummaryRecordStep 30].
Proof.
  destruct (result_log_line_per_epoch demo_args demo_entered (demo_store (1#5) (3#5))
              (demo_ctx 2 90) demo_reachable) as (_ & Hlast & _).
  destruct Hlast as (pre & l & res & Hlog & _); [vm_compute; reflexivity | reflexivity |].
  exists pre, l, res. exact Hlog.
Defined.

(** X19 at work: the online weight after an epoch end with EMA, which
    returns; and after one whose evaluation raises, where the averaged
    weight stays loaded. *)
Lemma epoch_end_keeps_parameters_witness :
  net (final (on_train_epoch_end (demo_ctx 1 70)
                (World demo_entered (demo_store (1#5) (3#5))))) "fc.weight"
  = [(1#5)%Q]
  ∧ net (final (@on_train_epoch_end Q _ failing_eval (demo_ctx 1 70)
                  (World demo_entered (demo_store (1#5) (3#5))))) "fc.weight"
    = [(3#5)%Q].
Proof.
  split; [|vm_compute; reflexivity].
  destruct (epoch_end_keeps_parameters demo_args demo_entered (demo_store (1#5) (3#5))
              (demo_ctx 1 70) demo_reachable) as (_ & _ & Honline).
  rewrite Honline; [reflexivity | vm_compute; reflexivity | in_run].
Defined.

(** X20 at work: two ends of epoch 2, on different parameter data. *)
Lemma numbered_checkpoints_name_their_epoch_witness :
  ManagerSaveCkpoint 2 (750#10)%Q "./ckpt/resnet-2_10.ckpt"
  ∈ emitted (on_train_epoch_end (demo_ctx 2 90)
               (World demo_entered (demo_store (1#5) (3#5))))
  ∧ ManagerSaveCkpoint 2 (650#10)%Q "./ckpt/resnet-2_10.ckpt"
    ∈ emitted (on_train_epoch_end (demo_ctx 2 50)
                 (World demo_entered (demo_store (2#5) (4#5))))
  ∧ cur_epoch_num (original_args (demo_ctx 2 90))
    = cur_epoch_num (original_args (demo_ctx 2 50)).
Proof.
  assert (H1 : ManagerSaveCkpoint 2 (750#10)%Q "./ckpt/resnet-2_10.ckpt"
    ∈ emitted (on_train_epoch_end (demo_ctx 2 90)
                 (World demo_entered (demo_store (1#5) (3#5))))) by in_run.
  assert (H2 : ManagerSaveCkpoint 2 (650#10)%Q "./ckpt/resnet-2_10.ckpt"
    ∈ emitted (on_train_epoch_end (demo_ctx 2 50)
                 (World demo_entered (demo_store (2#5) (4#5))))) by in_run.
  split; [exact H1|]. split; [exact H2|].
  exact (numbered_checkpoints_name_their_epoch demo_args
           demo_entered (demo_store (1#5) (3#5)) (demo_ctx 2 90)
           demo_entered (demo_store (2#5) (4#5)) (demo_ctx 2 50)
           2 (750#10)%Q 2 (650#10)%Q "./ckpt/resnet-2_10.ckpt"
           demo_reachable demo_reachable eq_refl H1 H2).
Defined.

(** X21 at work: the second epoch end of the run returns. *)
Lemma epoch_end_returns_witness :
  result (on_train_epoch_end (demo_ctx 2 90)
            (World demo_entered (demo_store (1#5) (3#5))))
  = Ret ().
Proof.
  apply (epoch_end_returns demo_args demo_entered (demo_store (1#5) (3#5))
           (demo_ctx 2 90) [(6#16)%Q] demo_reachable).
  - by eexists.
  - discriminate.
  - discriminate.
  - discriminate.
  - vm_compute. reflexivity.
  - reflexivity.
  - intros ds st' _. eexists. split; [reflexivity|].
    intros n Hn. cbn in Hn. apply list_elem_of_singleton in Hn as ->.
    rewrite lookup_insert_eq. by eexists.
  - intros _ name Hin Hstart. cbn in Hin. split_elem Hin; subst; try discriminate.
    reflexivity.
Defined.

